(** * emotional-decoration: the text-analysis and theme-recommendation core

    A shallow embedding of
      - analyzers/emotion_detector.py            (Modules EmotionDetector,
                                                  EmotionalJourney)
      - analyzers/content_classifier.py          (Module ContentClassifier)
      - emotional_decoration/boxing/content_analyzer.py   (Module ContentAnalyzer)
      - emotional_decoration/coloring/theme_generator.py  (Module ThemeGenerator)
      - emotional_decoration/themes/theme_loader.py       (Module ThemeLoader)
      - emotional_decoration/models.py           (Modules Models, ColorSchemeRgba)
      - emotional_decoration/orchestrator/decoration_engine.py
                                                 (Module DecorationEngine)

    Conventions.
      - Python [float] values are modelled as exact rationals [Q]; equalities
        between scores are stated with [==] ([Qeq]).  Rounding error, overflow
        and NaN are outside the model.
      - Python [str] is modelled as [string], read as ASCII text.
      - A Python [dict] whose iteration order is observable (the score tables,
        [max(d, key=d.get)]) is an association list in insertion order; the
        caches, which are only looked up, are [gmap]s.
      - Objects that are shared and mutated in place ([AnalysisResult] in the
        analysis cache, [ThemeConfig] in the theme loader and the theme cache)
        live in an explicit heap and are handled through their addresses.
      - An exception is [None] in an [option] result. *)

From Stdlib Require Import QArith Qminmax Qabs String Ascii List Bool Lia Lqa.
From Stdlib Require Import DecimalString HexadecimalString.
From stdpp Require Import gmap strings.

Local Open Scope Q_scope.

(** ** Python built-ins used by the sources *)
Module Py.

(** [str.isspace] on ASCII: TAB, LF, VT, FF, CR, FS, GS, RS, US and SPACE.
    The [re] class [\s] on [str] patterns is the same set. *)
Definition is_space (c : ascii) : bool :=
  let n := nat_of_ascii c in
  ((9 <=? n)%nat && (n <=? 13)%nat) || ((28 <=? n)%nat && (n <=? 32)%nat).

Definition is_upper (c : ascii) : bool :=
  let n := nat_of_ascii c in (65 <=? n)%nat && (n <=? 90)%nat.

Definition is_lower (c : ascii) : bool :=
  let n := nat_of_ascii c in (97 <=? n)%nat && (n <=? 122)%nat.

Definition is_digit (c : ascii) : bool :=
  let n := nat_of_ascii c in (48 <=? n)%nat && (n <=? 57)%nat.

(** The [re] class [\w]: letters, digits and the underscore.  Codes above 127
    are outside the ASCII alphabet of the model and are kept as word
    characters. *)
Definition is_word (c : ascii) : bool :=
  let n := nat_of_ascii c in
  is_upper c || is_lower c || is_digit c || (n =? 95)%nat || (128 <=? n)%nat.

Definition lower_char (c : ascii) : ascii :=
  if is_upper c then ascii_of_nat (nat_of_ascii c + 32) else c.

(** [s.lower()] *)
Fixpoint lower (s : string) : string :=
  match s with
  | EmptyString => EmptyString
  | String c s' => String (lower_char c) (lower s')
  end.

Fixpoint lstrip (s : string) : string :=
  match s with
  | EmptyString => EmptyString
  | String c s' => if is_space c then lstrip s' else s
  end.

Fixpoint rev_string (s acc : string) : string :=
  match s with
  | EmptyString => acc
  | String c s' => rev_string s' (String c acc)
  end.

(** [s.strip()] *)
Definition strip (s : string) : string :=
  rev_string (lstrip (rev_string (lstrip s) EmptyString)) EmptyString.

(** Truth value of a string: [bool(s)]. *)
Definition truthy (s : string) : bool :=
  match s with EmptyString => false | _ => true end.

Definition flush (cur : string) : list string :=
  match cur with EmptyString => [] | _ => [rev_string cur EmptyString] end.

(** [cur] holds the characters of the word being read, last one first. *)
Fixpoint split_go (s cur : string) : list string :=
  match s with
  | EmptyString => flush cur
  | String c s' =>
      if is_space c then flush cur ++ split_go s' EmptyString
      else split_go s' (String c cur)
  end.

(** [s.split()]: the maximal runs of non-whitespace characters. *)
Definition split (s : string) : list string := split_go s EmptyString.

Fixpoint split_on_go (sep : ascii) (s cur : string) : list string :=
  match s with
  | EmptyString => [rev_string cur EmptyString]
  | String c s' =>
      if Ascii.eqb c sep then rev_string cur EmptyString :: split_on_go sep s' EmptyString
      else split_on_go sep s' (String c cur)
  end.

(** [s.split(sep)] for a one-character separator: never empty. *)
Definition split_on (sep : ascii) (s : string) : list string :=
  split_on_go sep s EmptyString.

(** [a in b] on strings: [a] occurs in [b] as a substring. *)
Fixpoint contains (a b : string) : bool :=
  String.prefix a b ||
  match b with
  | EmptyString => false
  | String _ b' => contains a b'
  end.

(** [x in l] on a list of strings. *)
Definition mem (x : string) (l : list string) : bool :=
  existsb (String.eqb x) l.

(** [a > b], [a < b] and [a == b] on floats. *)
Definition Qgtb (a b : Q) : bool := negb (Qle_bool a b).
Definition Qltb (a b : Q) : bool := negb (Qle_bool b a).

(** [sum(l)] *)
Definition sum (l : list Q) : Q := fold_left Qplus l 0.

(** [max(l)]: the first greatest element; [None] is the [ValueError] of an
    empty argument. *)
Fixpoint max_from (best : Q) (l : list Q) : Q :=
  match l with
  | [] => best
  | x :: l' => if Qgtb x best then max_from x l' else max_from best l'
  end.

Definition max (l : list Q) : option Q :=
  match l with
  | [] => None
  | x :: l' => Some (max_from x l')
  end.

(** *** Dictionaries in insertion order *)
Section Dict.
Context {K : Type} `{EqDecision K} {V : Type}.

Fixpoint get (k : K) (d : list (K * V)) : option V :=
  match d with
  | [] => None
  | (k', v) :: d' => if decide (k = k') then Some v else get k d'
  end.

(** [d[k] = v]: in place when the key is present, at the end otherwise. *)
Fixpoint set (k : K) (v : V) (d : list (K * V)) : list (K * V) :=
  match d with
  | [] => [(k, v)]
  | (k', v') :: d' => if decide (k = k') then (k', v) :: d' else (k', v') :: set k v d'
  end.

(** [d[k] = f(d[k])] for a key that is present ([d[k] += x], [d[k] *= x]);
    the sources only use it on such keys. *)
Fixpoint update (k : K) (f : V -> V) (d : list (K * V)) : list (K * V) :=
  match d with
  | [] => []
  | (k', v') :: d' => if decide (k = k') then (k', f v') :: d' else (k', v') :: update k f d'
  end.

Definition keys (d : list (K * V)) : list K := map fst d.
Definition values (d : list (K * V)) : list V := map snd d.

(** [d.get(k, default)] *)
Definition get_default (k : K) (default : V) (d : list (K * V)) : V :=
  match get k d with Some v => v | None => default end.

End Dict.

(** [max(d, key=d.get)]: the first key whose value is greatest. *)
Fixpoint max_key_from {K : Type} (best : K * Q) (d : list (K * Q)) : K * Q :=
  match d with
  | [] => best
  | kv :: d' => if Qgtb (snd kv) (snd best) then max_key_from kv d' else max_key_from best d'
  end.

Definition max_key {K : Type} (d : list (K * Q)) : option K :=
  match d with
  | [] => None
  | kv :: d' => Some (fst (max_key_from kv d'))
  end.

End Py.

(** ** models.py *)
Module Models.

Inductive EmotionType :=
  HAPPY | SAD | EXCITED | CALM | ANGRY | FEARFUL | SURPRISED | NEUTRAL.

Inductive ContentType :=
  LEARNING | ENTERTAINMENT | NARRATIVE | PROFESSIONAL | TECHNICAL | CREATIVE.

Inductive DifficultyLevel := EASY | MEDIUM | HARD | EXPERT.

#[global] Instance EmotionType_eq_dec : EqDecision EmotionType.
Proof. solve_decision. Defined.
#[global] Instance ContentType_eq_dec : EqDecision ContentType.
Proof. solve_decision. Defined.
#[global] Instance DifficultyLevel_eq_dec : EqDecision DifficultyLevel.
Proof. solve_decision. Defined.

(** Iteration over the enumerations, in declaration order. *)
Definition all_emotions : list EmotionType :=
  [HAPPY; SAD; EXCITED; CALM; ANGRY; FEARFUL; SURPRISED; NEUTRAL].

Definition all_content_types : list ContentType :=
  [LEARNING; ENTERTAINMENT; NARRATIVE; PROFESSIONAL; TECHNICAL; CREATIVE].

Definition emotion_value (e : EmotionType) : string :=
  match e with
  | HAPPY => "happy" | SAD => "sad" | EXCITED => "excited" | CALM => "calm"
  | ANGRY => "angry" | FEARFUL => "fearful" | SURPRISED => "surprised"
  | NEUTRAL => "neutral"
  end.

Definition content_value (c : ContentType) : string :=
  match c with
  | LEARNING => "learning" | ENTERTAINMENT => "entertainment"
  | NARRATIVE => "narrative" | PROFESSIONAL => "professional"
  | TECHNICAL => "technical" | CREATIVE => "creative"
  end.

Definition difficulty_value (d : DifficultyLevel) : string :=
  match d with
  | EASY => "easy" | MEDIUM => "medium" | HARD => "hard" | EXPERT => "expert"
  end.

(** *** Records.  Pydantic validates the [Field] constraints when an object
    is constructed; the [new_*] functions are the constructors, with [None]
    for a [ValidationError]. *)

Record ContentProfile := {
  emotion : EmotionType;
  content_type : ContentType;
  difficulty : DifficultyLevel;
  emotion_intensity : Q;        (* Field(ge=0.0, le=1.0) *)
  reading_speed : Q;            (* Field(gt=0.0) *)
  key_themes : list string;
  recommended_theme : string;
  confidence : Q                (* Field(ge=0.0, le=1.0) *)
}.

Definition valid_profile (p : ContentProfile) : bool :=
  Qle_bool 0 (emotion_intensity p) && Qle_bool (emotion_intensity p) 1 &&
  negb (Qle_bool (reading_speed p) 0) &&
  Qle_bool 0 (confidence p) && Qle_bool (confidence p) 1.

Definition new_ContentProfile (p : ContentProfile) : option ContentProfile :=
  if valid_profile p then Some p else None.

Definition is_hex_digit (c : ascii) : bool :=
  let n := nat_of_ascii c in
  ((48 <=? n)%nat && (n <=? 57)%nat) ||
  ((65 <=? n)%nat && (n <=? 70)%nat) ||
  ((97 <=? n)%nat && (n <=? 102)%nat).

(** The pattern [^#[0-9A-Fa-f]{6}$]. *)
Definition is_hex_color (s : string) : bool :=
  match s with
  | String "#" (String a (String b (String c (String d (String e (String f EmptyString)))))) =>
      forallb is_hex_digit [a; b; c; d; e; f]
  | _ => false
  end.

Record ColorScheme := {
  primary_start : string;
  primary_end : string;
  background_start : string;
  background_end : string;
  accent_color : string;
  glow_color : string
}.

Definition valid_colors (c : ColorScheme) : bool :=
  is_hex_color (primary_start c) && is_hex_color (primary_end c) &&
  is_hex_color (background_start c) && is_hex_color (background_end c) &&
  is_hex_color (accent_color c) && is_hex_color (glow_color c).

Definition new_ColorScheme (c : ColorScheme) : option ColorScheme :=
  if valid_colors c then Some c else None.

Record VisualEffect := {
  glow_intensity : Q;           (* Field(ge=0.0, le=1.0) *)
  animation_speed : Q;          (* Field(gt=0.0) *)
  blur_radius : Q;              (* Field(ge=0.0) *)
  pulse_enabled : bool;
  gradient_angle : Z;           (* Field(ge=0, le=360) *)
  shadow_enabled : bool;
  shadow_intensity : Q          (* Field(ge=0.0, le=1.0) *)
}.

Definition valid_effect (e : VisualEffect) : bool :=
  Qle_bool 0 (glow_intensity e) && Qle_bool (glow_intensity e) 1 &&
  negb (Qle_bool (animation_speed e) 0) &&
  Qle_bool 0 (blur_radius e) &&
  (0 <=? gradient_angle e)%Z && (gradient_angle e <=? 360)%Z &&
  Qle_bool 0 (shadow_intensity e) && Qle_bool (shadow_intensity e) 1.

Definition new_VisualEffect (e : VisualEffect) : option VisualEffect :=
  if valid_effect e then Some e else None.

Record ThemeConfig := {
  name : string;
  description : string;
  colors : ColorScheme;
  effects : VisualEffect;
  typography : list (string * string);
  compatibility : list string
}.

Record AnalysisResult := {
  text : string;
  profile : ContentProfile;
  processing_time : Q;
  word_count : nat;
  character_count : nat;
  sentences : list string;
  keywords : list string
}.

End Models.

(** ** analyzers/emotion_detector.py *)
Module EmotionDetector.
Import Models.

Local Open Scope string_scope.

(** [self.emotion_keywords], in the order the dictionary is written. *)
Definition emotion_keywords : list (EmotionType * list string) :=
  [ (HAPPY,
     ["happy"; "joy"; "excited"; "wonderful"; "amazing"; "great"; "fantastic";
      "awesome"; "brilliant"; "excellent"; "love"; "celebrate"; "success";
      "achievement"; "victory"; "smile"; "laugh"; "cheerful"; "delighted"]);
    (SAD,
     ["sad"; "sorrow"; "grief"; "depressed"; "unhappy"; "melancholy";
      "disappointed"; "heartbroken"; "tragedy"; "loss"; "cry"; "tears";
      "pain"; "hurt"; "lonely"; "empty"; "despair"; "misery"]);
    (EXCITED,
     ["excited"; "thrilled"; "energetic"; "enthusiastic"; "passionate";
      "eager"; "pumped"; "animated"; "dynamic"; "vibrant"; "electric";
      "intense"; "fired up"; "exhilarated"; "rush"; "adrenaline"]);
    (CALM,
     ["calm"; "peaceful"; "serene"; "tranquil"; "relaxed"; "gentle";
      "quiet"; "still"; "meditation"; "zen"; "balance"; "harmony";
      "soothing"; "comfortable"; "stable"; "centered"; "mindful"]);
    (ANGRY,
     ["angry"; "rage"; "furious"; "mad"; "irritated"; "frustrated";
      "annoyed"; "outraged"; "livid"; "hate"; "aggravated"; "hostile";
      "resentful"; "bitter"; "explosive"; "fierce"; "aggressive"]);
    (FEARFUL,
     ["fear"; "afraid"; "scared"; "terrified"; "anxious"; "worried";
      "nervous"; "panic"; "dread"; "horror"; "frightened"; "alarmed";
      "concerned"; "uneasy"; "apprehensive"; "timid"; "insecure"]);
    (SURPRISED,
     ["surprised"; "amazed"; "astonished"; "shocked"; "stunned";
      "bewildered"; "confused"; "unexpected"; "sudden"; "wow";
      "incredible"; "unbelievable"; "extraordinary"; "remarkable"]) ].

(** [self.intensity_modifiers] *)
Definition intensity_modifiers : list (string * Q) :=
  [ ("very", 13 # 10); ("extremely", 15 # 10); ("incredibly", 14 # 10);
    ("absolutely", 13 # 10); ("completely", 12 # 10); ("totally", 12 # 10);
    ("quite", 11 # 10); ("really", 12 # 10); ("so", 11 # 10);
    ("rather", 9 # 10); ("somewhat", 8 # 10); ("slightly", 7 # 10);
    ("a bit", 6 # 10); ("a little", 6 # 10) ].

(** [re.sub(r'\s+', ' ', s)]: every maximal run of whitespace becomes one
    space.  [in_run] tells that the previous character was whitespace. *)
Fixpoint collapse_ws (in_run : bool) (s : string) : string :=
  match s with
  | EmptyString => EmptyString
  | String c s' =>
      if Py.is_space c
      then (if in_run then collapse_ws true s' else String " " (collapse_ws true s'))
      else String c (collapse_ws false s')
  end.

(** [re.sub(r'[^\w\s\']', ' ', s)]: every character that is neither a word
    character, nor whitespace, nor an apostrophe becomes a space. *)
Fixpoint blank_special (s : string) : string :=
  match s with
  | EmptyString => EmptyString
  | String c s' =>
      String (if Py.is_word c || Py.is_space c || Ascii.eqb c "'" then c else " "%char)
             (blank_special s')
  end.

Definition _clean_text (text : string) : string :=
  let text := collapse_ws false (Py.strip text) in
  blank_special text.

(** One step of the inner loop of [_calculate_emotion_scores]. *)
Definition score_word (word : string) (emotion_scores : list (EmotionType * Q))
    (entry : EmotionType * list string) : list (EmotionType * Q) :=
  let '(emotion, keywords) := entry in
  if Py.mem word keywords then
    Py.update emotion (fun v => v + 1) emotion_scores
  else if existsb (fun keyword => Py.contains keyword word || Py.contains word keyword) keywords then
    Py.update emotion (fun v => v + (1 # 2)) emotion_scores
  else emotion_scores.

Definition _calculate_emotion_scores (words : list string) : list (EmotionType * Q) :=
  let emotion_scores := map (fun entry => (fst entry, 0)) emotion_keywords in
  fold_left
    (fun emotion_scores word => fold_left (score_word word) emotion_keywords emotion_scores)
    words emotion_scores.

(** The body of [for j in range(i + 1, min(i + 4, len(words)))]. *)
Definition modify_word (modifier : Q) (modified_scores : list (EmotionType * Q))
    (next_word : string) : list (EmotionType * Q) :=
  fold_left
    (fun modified_scores (entry : EmotionType * list string) =>
       let '(emotion, keywords) := entry in
       if Py.mem next_word keywords
       then Py.update emotion (fun v => v * modifier) modified_scores
       else modified_scores)
    emotion_keywords modified_scores.

(** The loop over [enumerate(words)]: at position [i] the list is
    [words[i:]], so [words[i+1 : min(i+4, len(words))]] is [firstn 3] of
    its tail. *)
Fixpoint modifiers_loop (words : list string) (modified_scores : list (EmotionType * Q))
    : list (EmotionType * Q) :=
  match words with
  | [] => modified_scores
  | word :: rest =>
      let modified_scores :=
        match Py.get word intensity_modifiers with
        | Some modifier => fold_left (modify_word modifier) (firstn 3 rest) modified_scores
        | None => modified_scores
        end in
      modifiers_loop rest modified_scores
  end.

Definition _apply_intensity_modifiers (emotion_scores : list (EmotionType * Q))
    (words : list string) : list (EmotionType * Q) :=
  modifiers_loop words emotion_scores.

Definition positive_words : list string :=
  ["good"; "great"; "excellent"; "amazing"; "wonderful"; "love"; "happy"; "joy"].
Definition negative_words : list string :=
  ["bad"; "terrible"; "awful"; "hate"; "sad"; "angry"; "fear"; "worry"].

(** [len(l)] as a float operand. *)
Definition Qlen {A} (l : list A) : Q := inject_Z (Z.of_nat (length l)).

(** The keyword-ratio fallback of [_get_sentiment_boost], used when TextBlob
    cannot be imported: (polarity, subjectivity). *)
Definition fallback_sentiment (text : string) : Q * Q :=
  let words := Py.split (Py.lower text) in
  let positive_count := Qlen (List.filter (fun word => Py.mem word positive_words) words) in
  let negative_count := Qlen (List.filter (fun word => Py.mem word negative_words) words) in
  let total_sentiment_words := positive_count + negative_count in
  let polarity :=
    if Qeq_bool total_sentiment_words 0 then 0
    else (positive_count - negative_count) / Qlen words in
  let subjectivity :=
    match words with
    | [] => 0
    | _ => Qmin (total_sentiment_words / Qlen words) 1
    end in
  (polarity, subjectivity).

(** The boost table computed from a polarity and a subjectivity. *)
Definition boost_of (polarity subjectivity : Q) : list (EmotionType * Q) :=
  let boost := map (fun emotion => (emotion, 1)) all_emotions in
  let boost :=
    if Py.Qgtb polarity (1 # 10) then
      let boost := Py.set HAPPY (1 + polarity * (5 # 10)) boost in
      let boost := Py.set EXCITED (1 + polarity * (3 # 10)) boost in
      let boost := Py.set SAD (1 - polarity * (3 # 10)) boost in
      let boost := Py.set ANGRY (1 - polarity * (3 # 10)) boost in
      Py.set FEARFUL (1 - polarity * (2 # 10)) boost
    else if Py.Qltb polarity (- (1 # 10)) then
      let boost := Py.set SAD (1 + Qabs polarity * (5 # 10)) boost in
      let boost := Py.set ANGRY (1 + Qabs polarity * (4 # 10)) boost in
      let boost := Py.set FEARFUL (1 + Qabs polarity * (3 # 10)) boost in
      let boost := Py.set HAPPY (1 - Qabs polarity * (4 # 10)) boost in
      Py.set EXCITED (1 - Qabs polarity * (3 # 10)) boost
    else boost in
  if Py.Qgtb subjectivity (5 # 10) then
    let emotion_boost := 1 + (subjectivity - (5 # 10)) * (3 # 10) in
    fold_left (fun boost emotion => Py.update emotion (fun v => v * emotion_boost) boost)
      [HAPPY; SAD; EXCITED; ANGRY; FEARFUL] boost
  else boost.

Section Sentiment.

(** The optional TextBlob dependency.  [None]: the import failed
    ([TEXTBLOB_AVAILABLE] is false).  [Some blob]: [blob text] is the pair
    (polarity, subjectivity) of [TextBlob(text).sentiment], or [None] when
    that raises. *)
Variable textblob : option (string -> option (Q * Q)).

Definition _get_sentiment_boost (text : string) : list (EmotionType * Q) :=
  let sentiment :=
    match textblob with
    | Some blob => blob text
    | None => Some (fallback_sentiment text)
    end in
  match sentiment with
  | Some (polarity, subjectivity) => boost_of polarity subjectivity
  | None => map (fun emotion => (emotion, 1)) all_emotions
  end.

(** The guard [not text or not text.strip()]. *)
Definition is_blank (text : string) : bool :=
  negb (Py.truthy text) || negb (Py.truthy (Py.strip text)).

(** The dictionary [detect_emotion] takes its arg-max of. *)
Definition boosted_scores (text : string) : list (EmotionType * Q) :=
  let clean_text := _clean_text text in
  let words := Py.split (Py.lower clean_text) in
  let emotion_scores := _calculate_emotion_scores words in
  let sentiment_boost := _get_sentiment_boost text in
  let emotion_scores := _apply_intensity_modifiers emotion_scores words in
  fold_left
    (fun emotion_scores emotion =>
       Py.update emotion (fun v => v * Py.get_default emotion 1 sentiment_boost) emotion_scores)
    (Py.keys emotion_scores) emotion_scores.

Definition detect_emotion (text : string) : EmotionType * Q :=
  if is_blank text then (NEUTRAL, 0) else
  let words := Py.split (Py.lower (_clean_text text)) in
  let emotion_scores := boosted_scores text in
  match Py.max (Py.values emotion_scores), Py.max_key emotion_scores with
  | Some m, Some primary_emotion =>
      if Qeq_bool m 0 then (NEUTRAL, 0) else
      let max_score := Py.get_default primary_emotion 0 emotion_scores in
      let intensity :=
        match words with
        | [] => 0
        | _ => Qmin (max_score / Qlen words) 1
        end in
      (primary_emotion, intensity)
  | _, _ => (NEUTRAL, 0)
  end.

End Sentiment.

(** The scores [get_emotion_distribution] normalises. *)
Definition unnormalized_scores (text : string) : list (EmotionType * Q) :=
  let clean_text := _clean_text text in
  let words := Py.split (Py.lower clean_text) in
  let emotion_scores := _calculate_emotion_scores words in
  _apply_intensity_modifiers emotion_scores words.

(** [{k: v / total_score ...}] when [total_score > 0]. *)
Definition normalize (emotion_scores : list (EmotionType * Q)) : list (EmotionType * Q) :=
  let total_score := Py.sum (Py.values emotion_scores) in
  if Py.Qgtb total_score 0
  then map (fun kv => (fst kv, snd kv / total_score)) emotion_scores
  else emotion_scores.

(** [for emotion in EmotionType: if emotion not in d: d[emotion] = 0.0] *)
Definition fill_missing (emotion_scores : list (EmotionType * Q)) : list (EmotionType * Q) :=
  fold_left
    (fun d emotion => match Py.get emotion d with Some _ => d | None => Py.set emotion 0 d end)
    all_emotions emotion_scores.

Definition get_emotion_distribution (text : string) : list (EmotionType * Q) :=
  if (negb (Py.truthy text) || negb (Py.truthy (Py.strip text)))%bool
  then map (fun emotion => (emotion, 0)) all_emotions
  else fill_missing (normalize (unnormalized_scores text)).

End EmotionDetector.

(** ** The [re] module

    Regular expressions that the sources keep in tables (the indicator
    patterns and the structural patterns of the content classifier) are data
    handed to Python's [re] module, which is not part of the repository: it
    is taken as an interface.  The character-class expressions written
    inline in the code are spelled out as functions instead. *)
Module Re.

Record engine := {
  (** [len(re.findall(pattern, s, flags))], [ignorecase] telling
      [flags = re.IGNORECASE] *)
  findall_count : forall (pattern : string) (ignorecase : bool) (s : string), nat;
  (** [re.search(pattern, s, flags)] is not [None], [multiline] telling
      [flags = re.MULTILINE] *)
  search : forall (pattern : string) (multiline : bool) (s : string), bool;
  (** [re.escape(s)] *)
  escape : string -> string
}.

(** [re.findall(r'\b\w+\b', s)]: the maximal runs of word characters. *)
Fixpoint words_go (s cur : string) : list string :=
  match s with
  | EmptyString => Py.flush cur
  | String c s' =>
      if Py.is_word c then words_go s' (String c cur)
      else Py.flush cur ++ words_go s' EmptyString
  end.

Definition findall_words (s : string) : list string := words_go s EmptyString.

Definition is_terminator (c : ascii) : bool :=
  Ascii.eqb c "." || Ascii.eqb c "!" || Ascii.eqb c "?".

(** [re.split(r'[.!?]+', s)]: the pieces between the maximal runs of
    sentence terminators, empty pieces included. *)
Fixpoint split_terminators_go (in_run : bool) (s cur : string) : list string :=
  match s with
  | EmptyString => [Py.rev_string cur EmptyString]
  | String c s' =>
      if is_terminator c
      then (if in_run then split_terminators_go true s' EmptyString
            else Py.rev_string cur EmptyString :: split_terminators_go true s' EmptyString)
      else split_terminators_go false s' (String c cur)
  end.

Definition split_terminators (s : string) : list string :=
  split_terminators_go false s EmptyString.

(** A stand-in engine that treats every pattern as a literal and counts its
    occurrences from left to right without overlap; it is used only to run
    the definitions on concrete inputs. *)
Fixpoint drop (n : nat) (s : string) : string :=
  match n, s with
  | O, _ => s
  | S n', String _ s' => drop n' s'
  | S _, EmptyString => EmptyString
  end.

Fixpoint count_literal (fuel : nat) (p s : string) : nat :=
  match fuel with
  | O => O
  | S fuel' =>
      match s with
      | EmptyString => O
      | String _ s' =>
          if String.prefix p s && Py.truthy p
          then S (count_literal fuel' p (drop (String.length p) s))
          else count_literal fuel' p s'
      end
  end.

Definition literal_engine : engine := {|
  findall_count := fun pattern ignorecase s =>
    count_literal (String.length s) (if ignorecase then Py.lower pattern else pattern)
                  (if ignorecase then Py.lower s else s);
  search := fun pattern _ s => Py.contains pattern s;
  escape := fun s => s
|}.

End Re.

(** ** analyzers/content_classifier.py *)
Module ContentClassifier.
Import Models.

Local Open Scope string_scope.

Definition dq : string := String (ascii_of_nat 34) EmptyString.

Record indicators := {
  keywords : list string;
  patterns : list string;
  structures : list string
}.

(** [self.content_indicators], in the order the dictionary is written. *)
Definition content_indicators : list (ContentType * indicators) :=
  [ (LEARNING, {|
       keywords :=
         ["learn"; "study"; "understand"; "explain"; "tutorial"; "lesson";
          "chapter"; "concept"; "definition"; "example"; "exercise";
          "practice"; "knowledge"; "education"; "research"; "analysis";
          "theory"; "principle"; "method"; "technique"; "skill";
          "development"; "improvement"; "mastery"; "fundamentals"];
       patterns :=
         ["\b(?:how to|learn|understand|explain)\b";
          "\b(?:step \d+|first|second|third|finally)\b";
          "\b(?:in conclusion|to summarize|key points)\b";
          "\b(?:for example|such as|including)\b"];
       structures :=
         ["numbered_lists"; "instructional_language"; "explanatory_phrases"] |});
    (ENTERTAINMENT, {|
       keywords :=
         ["fun"; "exciting"; "adventure"; "story"; "movie"; "game";
          "music"; "dance"; "party"; "celebration"; "humor"; "comedy";
          "laugh"; "entertainment"; "show"; "performance"; "video";
          "social"; "friends"; "enjoy"; "amazing"; "awesome"; "cool"];
       patterns :=
         ["\b(?:haha|lol|omg|wow)\b";
          "\b(?:check this out|look at this|amazing)\b";
          "\b(?:so funny|hilarious|incredible)\b";
          "[!]{2,}|[?]{2,}"];
       structures :=
         ["exclamatory_language"; "casual_tone"; "social_expressions"] |});
    (NARRATIVE, {|
       keywords :=
         ["story"; "tale"; "character"; "plot"; "journey"; "adventure";
          "once"; "began"; "happened"; "told"; "narrative"; "chapter";
          "episode"; "scene"; "dialogue"; "description"; "setting";
          "conflict"; "resolution"; "climax"; "protagonist"; "antagonist"];
       patterns :=
         ["\b(?:once upon a time|in the beginning|long ago)\b";
          "\b(?:he said|she said|they said)\b";
          "\b(?:suddenly|meanwhile|later|finally)\b";
          "\b(?:the end|to be continued)\b"];
       structures :=
         ["temporal_sequences"; "character_dialogue"; "descriptive_language"] |});
    (PROFESSIONAL, {|
       keywords :=
         ["business"; "company"; "strategy"; "management"; "team";
          "project"; "meeting"; "client"; "customer"; "service";
          "solution"; "analysis"; "report"; "proposal"; "budget";
          "revenue"; "profit"; "growth"; "market"; "industry";
          "professional"; "corporate"; "organization"; "department"];
       patterns :=
         ["\b(?:Q\d+|FY\d+|KPI|ROI|CEO|CFO|CTO)\b";
          "\b(?:please find|attached|regarding|pursuant to)\b";
          "\b(?:best regards|sincerely|respectfully)\b";
          "\$[\d,]+\.?\d*"];
       structures :=
         ["formal_language"; "business_terminology"; "structured_format"] |});
    (TECHNICAL, {|
       keywords :=
         ["system"; "software"; "hardware"; "code"; "programming";
          "development"; "algorithm"; "database"; "server"; "network";
          "security"; "protocol"; "framework"; "library"; "api";
          "function"; "variable"; "parameter"; "configuration"; "debug";
          "implementation"; "deployment"; "architecture"; "engineering"];
       patterns :=
         ["\b(?:var|const|function|class|import|export)\b";
          "\b(?:HTTP|API|SQL|JSON|XML|CSS|HTML)\b";
          "\b(?:version \d+|v\d+\.\d+)\b";
          "[a-zA-Z_][a-zA-Z0-9_]*\(\)"];
       structures :=
         ["code_snippets"; "technical_terminology"; "precise_language"] |});
    (CREATIVE, {|
       keywords :=
         ["art"; "creative"; "design"; "beautiful"; "inspiration";
          "imagination"; "expression"; "artistic"; "aesthetic"; "style";
          "color"; "form"; "composition"; "texture"; "visual"; "audio";
          "poetry"; "music"; "painting"; "sculpture"; "photography";
          "writing"; "creation"; "innovation"; "unique"; "original"];
       patterns :=
         ["\b(?:imagine|visualize|picture this|envision)\b";
          "\b(?:artistic|creative|innovative|unique)\b";
          "\b(?:colors|shapes|forms|textures)\b";
          "[~]+|[*]+.*[*]+"];
       structures :=
         ["descriptive_language"; "metaphorical_expressions"; "sensory_descriptions"] |}) ].

(** [self.structural_patterns] *)
Definition structural_patterns : list (string * string) :=
  [ ("numbered_lists", "^\s*\d+[\.\)]\s+");
    ("bullet_points", "^\s*[•\-\*]\s+");
    ("questions", "\?");
    ("exclamations", "!");
    ("quotes", "[" ++ dq ++ "\'].*[" ++ dq ++ "\']");
    ("code_blocks", "```|`.*`");
    ("urls", "https?://\S+");
    ("hashtags", "#\w+");
    ("mentions", "@\w+") ].

(** [self.structural_patterns[name]]; every name the code uses is a key of
    the table. *)
Definition structural_pattern (name : string) : string :=
  Py.get_default name "" structural_patterns.

Definition Qlen {A} (l : list A) : Q := inject_Z (Z.of_nat (length l)).
Definition Qnat (n : nat) : Q := inject_Z (Z.of_nat n).

(** [a / b]: [None] is the [ZeroDivisionError]. *)
Definition div (a b : Q) : option Q :=
  if Qeq_bool b 0 then None else Some (a / b).

Section Classifier.
Variable re : Re.engine.

Definition _calculate_content_scores (text : string) : list (ContentType * Q) :=
  let text_lower := Py.lower text in
  let words := Re.findall_words text_lower in
  let word_count := length words in
  let scores := map (fun content_type => (content_type, 0)) all_content_types in
  fold_left
    (fun scores (entry : ContentType * indicators) =>
       let '(content_type, indicators) := entry in
       let keyword_score :=
         fold_left
           (fun keyword_score keyword =>
              keyword_score +
              Qnat (Re.findall_count re ("\b" ++ Re.escape re keyword ++ "\b") false text_lower))
           (keywords indicators) 0 in
       let pattern_score :=
         fold_left
           (fun pattern_score pattern =>
              pattern_score + Qnat (Re.findall_count re pattern true text_lower) * 2)
           (patterns indicators) 0 in
       let total_score := keyword_score + pattern_score in
       Py.set content_type (total_score / Qnat (Nat.max word_count 1)) scores)
    content_indicators scores.

(** [boost[k] *= x] for each pair of [l]. *)
Definition times (l : list (ContentType * Q)) (boost : list (ContentType * Q))
    : list (ContentType * Q) :=
  fold_left (fun boost kx => Py.update (fst kx) (fun v => v * snd kx) boost) l boost.

Definition _analyze_structure (text : string) : option (list (ContentType * Q)) :=
  let boost := map (fun content_type => (content_type, 1)) all_content_types in
  let boost :=
    if Re.search re (structural_pattern "numbered_lists") true text
    then times [(LEARNING, 13 # 10); (PROFESSIONAL, 11 # 10)] boost else boost in
  let boost :=
    if Re.search re (structural_pattern "bullet_points") true text
    then times [(PROFESSIONAL, 12 # 10); (LEARNING, 11 # 10)] boost else boost in
  let question_count := Re.findall_count re (structural_pattern "questions") false text in
  let boost :=
    if (0 <? question_count)%nat then
      (* [len(text.split('.'))] is never 0 *)
      let question_ratio := Qnat question_count / Qlen (Py.split_on "." text) in
      if Py.Qgtb question_ratio (2 # 10)
      then times [(LEARNING, 12 # 10); (ENTERTAINMENT, 11 # 10)] boost else boost
    else boost in
  let exclamation_count := Re.findall_count re (structural_pattern "exclamations") false text in
  match
    (if (0 <? exclamation_count)%nat then
       match div (Qnat exclamation_count) (Qlen (Py.split text)) with
       | Some exclamation_ratio =>
           Some (if Py.Qgtb exclamation_ratio (5 # 100)
                 then times [(ENTERTAINMENT, 13 # 10); (CREATIVE, 12 # 10)] boost else boost)
       | None => None
       end
     else Some boost)
  with
  | None => None
  | Some boost =>
      let boost :=
        if Re.search re (structural_pattern "quotes") false text
        then times [(NARRATIVE, 12 # 10); (CREATIVE, 11 # 10)] boost else boost in
      let boost :=
        if Re.search re (structural_pattern "code_blocks") false text
        then times [(TECHNICAL, 15 # 10)] boost else boost in
      let boost :=
        if Re.search re (structural_pattern "hashtags") false text
           || Re.search re (structural_pattern "mentions") false text
        then times [(ENTERTAINMENT, 12 # 10); (CREATIVE, 11 # 10)] boost else boost in
      let boost :=
        if Re.search re (structural_pattern "urls") false text
        then times [(TECHNICAL, 11 # 10); (PROFESSIONAL, 11 # 10)] boost else boost in
      Some boost
  end.

(** [for content_type in scores: scores[content_type] *= boost.get(content_type, 1.0)] *)
Definition apply_boost (scores structural_boost : list (ContentType * Q))
    : list (ContentType * Q) :=
  fold_left
    (fun scores content_type =>
       Py.update content_type (fun v => v * Py.get_default content_type 1 structural_boost) scores)
    (Py.keys scores) scores.

Definition is_blank (text : string) : bool :=
  negb (Py.truthy text) || negb (Py.truthy (Py.strip text)).

Definition classify_content (text : string) : option (ContentType * Q) :=
  if is_blank text then Some (PROFESSIONAL, 0) else
  let scores := _calculate_content_scores text in
  match _analyze_structure text with
  | None => None
  | Some structural_boost =>
      let scores := apply_boost scores structural_boost in
      match Py.max (Py.values scores), Py.max_key scores with
      | Some m, Some primary_type =>
          if Qeq_bool m 0 then Some (PROFESSIONAL, 0) else
          let max_score := Py.get_default primary_type 0 scores in
          let total_score := Py.sum (Py.values scores) in
          let confidence := if Py.Qgtb total_score 0 then max_score / total_score else 0 in
          Some (primary_type, confidence)
      | _, _ => Some (PROFESSIONAL, 0)
      end
  end.

Definition get_content_distribution (text : string) : option (list (ContentType * Q)) :=
  if is_blank text then Some (map (fun content_type => (content_type, 0)) all_content_types) else
  let scores := _calculate_content_scores text in
  match _analyze_structure text with
  | None => None
  | Some structural_boost =>
      let scores := apply_boost scores structural_boost in
      let total_score := Py.sum (Py.values scores) in
      Some (if Py.Qgtb total_score 0
            then map (fun kv => (fst kv, snd kv / total_score)) scores
            else scores)
  end.

End Classifier.

(** The dictionary returned by [analyze_complexity]. *)
Record complexity := {
  avg_word_length : Q;
  avg_sentence_length : Q;
  vocabulary_richness : Q;
  readability_score : Q
}.

(** [[s.strip() for s in sentences if s.strip()]] *)
Definition clean_sentences (sentences : list string) : list string :=
  map Py.strip (List.filter (fun s => Py.truthy (Py.strip s)) sentences).

Definition analyze_complexity (text : string) : complexity :=
  let words := Re.findall_words (Py.lower text) in
  let sentences := clean_sentences (Re.split_terminators text) in
  match words, sentences with
  | [], _ | _, [] =>
      {| avg_word_length := 0; avg_sentence_length := 0;
         vocabulary_richness := 0; readability_score := 0 |}
  | _, _ =>
      let avg_word_length :=
        Py.sum (map (fun word => Qnat (String.length word)) words) / Qlen words in
      let avg_sentence_length := Qlen words / Qlen sentences in
      let unique_words := remove_dups words in
      let vocabulary_richness := Qlen unique_words / Qlen words in
      let readability_score :=
        Qmax 0 (Qmin 1 (1 - (avg_sentence_length * (2 # 100) + avg_word_length * (1 # 10) - (5 # 10)))) in
      {| avg_word_length := avg_word_length;
         avg_sentence_length := avg_sentence_length;
         vocabulary_richness := vocabulary_richness;
         readability_score := readability_score |}
  end.

End ContentClassifier.

(** ** emotional_decoration/boxing/content_analyzer.py *)
Module ContentAnalyzer.
Import Models.

Local Open Scope string_scope.

(** The analyzer object.  [heap] holds the [AnalysisResult] objects created
    so far, an object's address being its index; [analysis_cache] maps a
    text to the address of its cached result; [ticks] counts the calls of
    [time.time()]. *)
Record state := {
  heap : list AnalysisResult;
  analysis_cache : gmap string nat;
  ticks : nat
}.

(** [ContentAnalyzer()] *)
Definition init : state := {| heap := []; analysis_cache := ∅; ticks := 0 |}.

Definition _split_sentences (text : string) : list string :=
  ContentClassifier.clean_sentences (Re.split_terminators text).

Definition _assess_difficulty (text : string) : DifficultyLevel :=
  let complexity_metrics := ContentClassifier.analyze_complexity text in
  let avg_word_length := ContentClassifier.avg_word_length complexity_metrics in
  let avg_sentence_length := ContentClassifier.avg_sentence_length complexity_metrics in
  let vocabulary_richness := ContentClassifier.vocabulary_richness complexity_metrics in
  let difficulty_score :=
    ((avg_word_length - 4) * (3 # 10) +
     (avg_sentence_length - 15) * (2 # 100) +
     (vocabulary_richness - (5 # 10)) * (5 # 10))%Q in
  if Py.Qltb difficulty_score (- (3 # 10)) then EASY
  else if Py.Qltb difficulty_score (1 # 10) then MEDIUM
  else if Py.Qltb difficulty_score (4 # 10) then HARD
  else EXPERT.

Definition base_speed : Q := 250.

Definition speed_modifiers : list (ContentType * Q) :=
  [ (LEARNING, 8 # 10); (ENTERTAINMENT, 12 # 10); (NARRATIVE, 10 # 10);
    (PROFESSIONAL, 9 # 10); (TECHNICAL, 7 # 10); (CREATIVE, 11 # 10) ].

Definition _estimate_reading_speed (text : string) (content_type : ContentType) : Q :=
  (base_speed * Py.get_default content_type 1 speed_modifiers)%Q.

(** The first [if] chain of [_determine_recommended_theme]: the primary
    theme of a content type. *)
Definition base_theme (content_type : ContentType) : string :=
  match content_type with
  | LEARNING => "learning"
  | PROFESSIONAL => "professional"
  | NARRATIVE | CREATIVE => "emotional"
  | _ => "professional"
  end.

Definition _determine_recommended_theme (emotion : EmotionType)
    (content_type : ContentType) (difficulty : DifficultyLevel) : string :=
  let base_theme := base_theme content_type in
  match emotion with
  | EXCITED | HAPPY =>
      if String.eqb base_theme "learning" then "learning_energetic"
      else if String.eqb base_theme "professional" then "professional_positive"
      else "emotional_vibrant"
  | CALM | NEUTRAL =>
      if String.eqb base_theme "learning" then "learning_focused"
      else if String.eqb base_theme "professional" then "professional_minimal"
      else "emotional_serene"
  | SAD | FEARFUL =>
      if String.eqb base_theme "learning" then "learning_supportive"
      else if String.eqb base_theme "professional" then "professional_subtle"
      else "emotional_contemplative"
  | _ =>
      match difficulty with
      | EXPERT => base_theme ++ "_sophisticated"
      | EASY => base_theme ++ "_accessible"
      | _ => base_theme
      end
  end.

Definition stop_words : list string :=
  ["the"; "a"; "an"; "and"; "or"; "but"; "in"; "on"; "at"; "to"; "for";
   "of"; "with"; "by"; "is"; "are"; "was"; "were"; "be"; "been"; "have";
   "has"; "had"; "do"; "does"; "did"; "will"; "would"; "could"; "should";
   "may"; "might"; "must"; "can"; "this"; "that"; "these"; "those"; "i";
   "you"; "he"; "she"; "it"; "we"; "they"; "me"; "him"; "her"; "us"; "them"].

(** [Counter(words)]: the counts, in order of first occurrence. *)
Fixpoint count_up (word : string) (counts : list (string * nat)) : list (string * nat) :=
  match counts with
  | [] => [(word, 1%nat)]
  | (w, n) :: counts' =>
      if String.eqb word w then (w, S n) :: counts' else (w, n) :: count_up word counts'
  end.

Definition Counter (words : list string) : list (string * nat) :=
  fold_left (fun counts word => count_up word counts) words [].

(** Insertion of [x], which comes before every element of [l] in the
    counter, into [l] sorted by decreasing count: equal counts keep
    their order. *)
Fixpoint insert_desc (x : string * nat) (l : list (string * nat)) : list (string * nat) :=
  match l with
  | [] => [x]
  | y :: l' => if (snd x <? snd y)%nat then y :: insert_desc x l' else x :: y :: l'
  end.

(** [counts.most_common(n)] *)
Definition most_common (n : nat) (counts : list (string * nat)) : list (string * nat) :=
  firstn n (fold_right insert_desc [] counts).

Definition _extract_keywords (text : string) : list string :=
  let words := Re.findall_words (Py.lower text) in
  let filtered_words :=
    List.filter (fun word => negb (Py.mem word stop_words) && (2 <? String.length word)%nat) words in
  let word_counts := Counter filtered_words in
  map fst (most_common 20 word_counts).

(** [self.analysis_cache.clear()] *)
Definition clear_cache (st : state) : state :=
  {| heap := heap st; analysis_cache := ∅; ticks := ticks st |}.

Record cache_stats := {
  cache_size : nat;
  total_cached_chars : nat
}.

Definition get_cache_stats (st : state) : cache_stats :=
  {| cache_size := size (analysis_cache st);
     total_cached_chars :=
       map_fold (fun text (_ : nat) total => (String.length text + total)%nat) 0%nat
                (analysis_cache st) |}.

Section Analyzer.
Variable textblob : option (string -> option (Q * Q)).
Variable re : Re.engine.
(** [time n] is what the [n]-th call of [time.time()] returns. *)
Variable time : nat -> Q.

Definition _extract_key_themes (text : string) : option (list string) :=
  match ContentClassifier.get_content_distribution re text with
  | None => None
  | Some content_dist =>
      let emotion_dist := EmotionDetector.get_emotion_distribution text in
      let themes :=
        map (fun kv => content_value (fst kv))
            (List.filter (fun kv => Py.Qgtb (snd kv) (2 # 10)) content_dist) in
      let themes :=
        (themes ++
         map (fun kv => (emotion_value (fst kv) ++ "_emotion")%string)
             (List.filter (fun kv => Py.Qgtb (snd kv) (2 # 10)) emotion_dist))%list in
      Some (firstn 5 themes)
  end.

(** The part of [analyze] from the emotion analysis to the construction of
    the [ContentProfile]. *)
Definition build_profile (text : string) : option ContentProfile :=
  let '(primary_emotion, emotion_intensity) := EmotionDetector.detect_emotion textblob text in
  match ContentClassifier.classify_content re text with
  | None => None
  | Some (content_type, content_confidence) =>
      let difficulty := _assess_difficulty text in
      let reading_speed := _estimate_reading_speed text content_type in
      match _extract_key_themes text with
      | None => None
      | Some key_themes =>
          let recommended_theme :=
            _determine_recommended_theme primary_emotion content_type difficulty in
          new_ContentProfile
            {| emotion := primary_emotion;
               content_type := content_type;
               difficulty := difficulty;
               emotion_intensity := emotion_intensity;
               reading_speed := reading_speed;
               key_themes := key_themes;
               recommended_theme := recommended_theme;
               confidence := content_confidence |}
      end
  end.

Definition with_processing_time (r : AnalysisResult) (t : Q) : AnalysisResult :=
  {| text := text r; profile := profile r; processing_time := t;
     word_count := word_count r; character_count := character_count r;
     sentences := sentences r; keywords := keywords r |}.

(** [analyze(text, use_cache)] returns the address of the result and the new
    state of the analyzer. *)
Definition analyze (text : string) (use_cache : bool) (st : state) : option (nat * state) :=
  let start_time := time (ticks st) in
  match (if use_cache then analysis_cache st !! text else None) with
  | Some addr =>
      match heap st !! addr with
      | Some cached_result =>
          let cached_result :=
            with_processing_time cached_result (time (S (ticks st)) - start_time)%Q in
          Some (addr,
                {| heap := <[addr := cached_result]> (heap st);
                   analysis_cache := analysis_cache st;
                   ticks := S (S (ticks st)) |})
      | None => None (* no object at the address: the model is stuck *)
      end
  | None =>
      let words := Py.split text in
      let sentences := _split_sentences text in
      let word_count := length words in
      let character_count := String.length text in
      match build_profile text with
      | None => None
      | Some profile =>
          let keywords := _extract_keywords text in
          let processing_time := (time (S (ticks st)) - start_time)%Q in
          let result :=
            {| text := text; profile := profile; processing_time := processing_time;
               word_count := word_count; character_count := character_count;
               sentences := sentences; keywords := keywords |} in
          let addr := length (heap st) in
          Some (addr,
                {| heap := heap st ++ [result];
                   analysis_cache :=
                     if use_cache then <[text := addr]> (analysis_cache st)
                     else analysis_cache st;
                   ticks := S (S (ticks st)) |})
      end
  end.

(** [[self.analyze(text, use_cache) for text in texts]] *)
Fixpoint analyze_batch (texts : list string) (use_cache : bool) (st : state)
    : option (list nat * state) :=
  match texts with
  | [] => Some ([], st)
  | text :: texts' =>
      match analyze text use_cache st with
      | None => None
      | Some (addr, st') =>
          match analyze_batch texts' use_cache st' with
          | None => None
          | Some (addrs, st'') => Some (addr :: addrs, st'')
          end
      end
  end.

End Analyzer.

End ContentAnalyzer.

(** ** String formatting used by the theme generator *)
Module Fmt.

Local Open Scope string_scope.

Definition decimal (n : N) : string :=
  DecimalString.NilZero.string_of_uint (N.to_uint n).

(** [q] rounded to the nearest integer, ties to the even one, for [0 <= q]. *)
Definition round_half_even (q : Q) : Z :=
  let n := Qnum q in
  let d := Zpos (Qden q) in
  let fl := (n / d)%Z in
  let r := (n mod d)%Z in
  match (2 * r ?= d)%Z with
  | Lt => fl
  | Gt => (fl + 1)%Z
  | Eq => if Z.even fl then fl else (fl + 1)%Z
  end.

(** [f"{q:.1f}"]: the sign, the integer part, a point and one digit. *)
Definition format_1f (q : Q) : string :=
  let tenths := Z.to_N (round_half_even (Qabs q * 10)) in
  (if Py.Qltb q 0 then "-" else "") ++
  decimal (tenths / 10) ++ "." ++ decimal (tenths mod 10).

Definition hex (n : N) : string :=
  HexadecimalString.NilZero.string_of_uint (N.to_hex_uint n).

(** ['%02x' % n] for [0 <= n] *)
Definition format_02x (n : Z) : string :=
  let s := hex (Z.to_N n) in
  if (String.length s <? 2)%nat then "0" ++ s else s.

Definition hex_digit_value (c : ascii) : option Z :=
  let n := Z.of_nat (nat_of_ascii c) in
  if Py.is_digit c then Some (n - 48)%Z
  else if ((97 <=? n) && (n <=? 102))%Z then Some (n - 87)%Z
  else if ((65 <=? n) && (n <=? 70))%Z then Some (n - 55)%Z
  else None.

(** [int(s, 16)] on the two-digit slices that [hex_to_rgb] takes of a
    colour; [None] is the [ValueError]. *)
Definition int16 (s : string) : option Z :=
  match s with
  | String a (String b EmptyString) =>
      match hex_digit_value a, hex_digit_value b with
      | Some x, Some y => Some (16 * x + y)%Z
      | _, _ => None
      end
  | _ => None
  end.

Definition upper_char (c : ascii) : ascii :=
  if Py.is_lower c then ascii_of_nat (nat_of_ascii c - 32) else c.

(** [s.title()]: a letter that follows a letter is lowered, any other
    letter is raised. *)
Fixpoint title_go (after_letter : bool) (s : string) : string :=
  match s with
  | EmptyString => EmptyString
  | String c s' =>
      let letter := Py.is_upper c || Py.is_lower c in
      String (if letter then (if after_letter then Py.lower_char c else upper_char c) else c)
             (title_go letter s')
  end.

Definition title (s : string) : string := title_go false s.

(** [int(q)]: truncation towards zero. *)
Definition int (q : Q) : Z := Z.quot (Qnum q) (Zpos (Qden q)).

End Fmt.

(** ** emotional_decoration/themes/theme_loader.py

    The theme files are read from the disk; what the loader keeps of them
    is the table [loaded_themes], from a theme's key to the address of its
    [ThemeConfig] in the heap of the generator that owns the loader. *)
Module ThemeLoader.
Import Models.

Local Open Scope string_scope.

Definition find_themes_for_profile (loaded_themes : gmap string nat)
    (emotion content_type difficulty : string) : list string :=
  let recommendations : list string :=
    if String.eqb content_type "learning" then
      if Py.mem difficulty ["easy"; "medium"] then ["learning_energetic"] else ["learning_focused"]
    else if String.eqb content_type "professional" then
      if Py.mem emotion ["happy"; "excited"] then ["professional_positive"] else ["professional_minimal"]
    else if Py.mem content_type ["narrative"; "creative"; "entertainment"] then
      if Py.mem emotion ["happy"; "excited"] then ["emotional_vibrant"]
      else if Py.mem emotion ["calm"; "neutral"] then ["emotional_serene"]
      else ["emotional_vibrant"]
    else [] in
  let recommendations :=
    (recommendations ++
     (if String.eqb content_type "learning" then ["learning_focused"; "learning_energetic"]
      else if String.eqb content_type "professional" then ["professional_minimal"; "professional_positive"]
      else ["emotional_serene"; "emotional_vibrant"]))%list in
  let unique_recommendations :=
    fst (fold_left
           (fun (acc : list string * list string) theme =>
              let '(unique_recommendations, seen) := acc in
              if negb (Py.mem theme seen) && bool_decide (is_Some (loaded_themes !! theme))
              then ((unique_recommendations ++ [theme])%list, theme :: seen)
              else acc)
           recommendations ([], [])) in
  firstn 3 unique_recommendations.

(** [self.loaded_themes.get(theme_name)] *)
Definition get_theme (loaded_themes : gmap string nat) (theme_name : string) : option nat :=
  loaded_themes !! theme_name.

End ThemeLoader.

(** ** emotional_decoration/coloring/theme_generator.py *)
Module ThemeGenerator.
Import Models.

Local Open Scope string_scope.

(** A colour dictionary, from a field name of [ColorScheme] to a colour. *)
Definition palette := list (string * string).

Definition mk_palette (ps pe bs be ac gc : string) : palette :=
  [ ("primary_start", ps); ("primary_end", pe); ("background_start", bs);
    ("background_end", be); ("accent_color", ac); ("glow_color", gc) ].

(** [_initialize_base_palettes] *)
Definition base_color_palettes : list (string * palette) :=
  [ ("learning_focused",
     mk_palette "#4A90E2" "#7ED321" "#000428" "#004e92" "#50E3C2" "#4A90E2");
    ("learning_energetic",
     mk_palette "#FF6B6B" "#4ECDC4" "#134E5E" "#71B280" "#45B7D1" "#FF6B6B");
    ("learning_supportive",
     mk_palette "#A8E6CF" "#88D8A3" "#2C3E50" "#4A6741" "#7FB069" "#A8E6CF");
    ("learning_accessible",
     mk_palette "#6C5CE7" "#A29BFE" "#2D3436" "#636E72" "#74B9FF" "#6C5CE7");
    ("professional_minimal",
     mk_palette "#2F3542" "#57606F" "#F8F9FA" "#E9ECEF" "#3742FA" "#2F3542");
    ("professional_positive",
     mk_palette "#00B894" "#00CEC9" "#DDD6FE" "#E0E7FF" "#0984E3" "#00B894");
    ("professional_subtle",
     mk_palette "#636E72" "#B2BEC3" "#2D3436" "#636E72" "#74B9FF" "#636E72");
    ("professional_sophisticated",
     mk_palette "#2D3436" "#636E72" "#1A1A1A" "#2D3436" "#FDCB6E" "#2D3436");
    ("emotional_vibrant",
     mk_palette "#FF7675" "#FDCB6E" "#6C5CE7" "#A29BFE" "#FD79A8" "#FF7675");
    ("emotional_serene",
     mk_palette "#81ECEC" "#74B9FF" "#2D3436" "#636E72" "#00B894" "#81ECEC");
    ("emotional_contemplative",
     mk_palette "#A29BFE" "#6C5CE7" "#2D3436" "#636E72" "#74B9FF" "#A29BFE") ].

(** [_initialize_effect_templates] *)
Definition effect_templates : list (string * VisualEffect) :=
  [ ("subtle",
     {| glow_intensity := 2 # 10; animation_speed := 1; blur_radius := 0;
        pulse_enabled := false; gradient_angle := 45;
        shadow_enabled := true; shadow_intensity := 3 # 10 |});
    ("moderate",
     {| glow_intensity := 4 # 10; animation_speed := 1; blur_radius := 5 # 10;
        pulse_enabled := true; gradient_angle := 90;
        shadow_enabled := true; shadow_intensity := 5 # 10 |});
    ("vibrant",
     {| glow_intensity := 6 # 10; animation_speed := 12 # 10; blur_radius := 1;
        pulse_enabled := true; gradient_angle := 135;
        shadow_enabled := true; shadow_intensity := 7 # 10 |});
    ("energetic",
     {| glow_intensity := 8 # 10; animation_speed := 15 # 10; blur_radius := 15 # 10;
        pulse_enabled := true; gradient_angle := 180;
        shadow_enabled := true; shadow_intensity := 8 # 10 |}) ].

(** The table [emotion_colors] of [_generate_colors_from_profile]. *)
Definition emotion_colors : list (EmotionType * palette) :=
  [ (HAPPY, mk_palette "#FFD93D" "#FF6B6B" "#74B9FF" "#0984E3" "#00B894" "#FFD93D");
    (EXCITED, mk_palette "#FF6B6B" "#4ECDC4" "#A29BFE" "#6C5CE7" "#FDCB6E" "#FF6B6B");
    (CALM, mk_palette "#81ECEC" "#74B9FF" "#2D3436" "#636E72" "#00B894" "#81ECEC");
    (SAD, mk_palette "#A29BFE" "#6C5CE7" "#2D3436" "#636E72" "#74B9FF" "#A29BFE");
    (ANGRY, mk_palette "#E17055" "#D63031" "#2D3436" "#636E72" "#FDCB6E" "#E17055");
    (FEARFUL, mk_palette "#636E72" "#B2BEC3" "#2D3436" "#636E72" "#74B9FF" "#636E72");
    (SURPRISED, mk_palette "#FDCB6E" "#E17055" "#6C5CE7" "#A29BFE" "#FF7675" "#FDCB6E");
    (NEUTRAL, mk_palette "#2F3542" "#57606F" "#F8F9FA" "#E9ECEF" "#3742FA" "#2F3542") ].

(** [hex_color.lstrip('#')] *)
Fixpoint lstrip_hash (s : string) : string :=
  match s with
  | String "#" s' => lstrip_hash s'
  | _ => s
  end.

(** [tuple(int(hex_color[i:i+2], 16) for i in (0, 2, 4))] *)
Definition hex_to_rgb (hex_color : string) : option (Z * Z * Z) :=
  let hex_color := lstrip_hash hex_color in
  match Fmt.int16 (substring 0 2 hex_color),
        Fmt.int16 (substring 2 2 hex_color),
        Fmt.int16 (substring 4 2 hex_color) with
  | Some r, Some g, Some b => Some (r, g, b)
  | _, _, _ => None
  end.

(** ['#%02x%02x%02x' % rgb] *)
Definition rgb_to_hex (rgb : Z * Z * Z) : string :=
  let '(r, g, b) := rgb in
  "#" ++ Fmt.format_02x r ++ Fmt.format_02x g ++ Fmt.format_02x b.

Definition _blend_hex_colors (color1 color2 : string) (ratio : Q) : option string :=
  match hex_to_rgb color1, hex_to_rgb color2 with
  | Some (r1, g1, b1), Some (r2, g2, b2) =>
      let blend x1 x2 := Fmt.int (inject_Z x1 * (1 - ratio) + inject_Z x2 * ratio)%Q in
      Some (rgb_to_hex (blend r1 r2, blend g1 g2, blend b1 b2))
  | _, _ => None
  end.

Fixpoint _blend_colors (color1 color2 : palette) (ratio : Q) : option palette :=
  match color1 with
  | [] => Some []
  | (key, c1) :: color1' =>
      match (match Py.get key color2 with
             | Some c2 => _blend_hex_colors c1 c2 ratio
             | None => Some c1
             end) with
      | None => None
      | Some c =>
          match _blend_colors color1' color2 ratio with
          | None => None
          | Some blended => Some ((key, c) :: blended)
          end
      end
  end.

(** The three adjustments are not implemented by the source: they return
    their argument. *)
Definition _increase_saturation (colors : palette) (amount : Q) : palette := colors.
Definition _decrease_saturation (colors : palette) (amount : Q) : palette := colors.
Definition _adjust_brightness (colors : palette) (amount : Q) : palette := colors.

Definition _generate_colors_from_profile (profile : ContentProfile) : option palette :=
  let base_colors :=
    Py.get_default (emotion profile) (Py.get_default NEUTRAL [] emotion_colors) emotion_colors in
  match content_type profile with
  | LEARNING =>
      _blend_colors base_colors (Py.get_default "learning_focused" [] base_color_palettes) (1 # 2)
  | PROFESSIONAL =>
      _blend_colors base_colors (Py.get_default "professional_minimal" [] base_color_palettes) (1 # 2)
  | _ => Some base_colors
  end.

Definition _adjust_colors_for_emotion (colors : palette) (profile : ContentProfile) : palette :=
  let adjusted := colors in
  if Py.Qgtb (emotion_intensity profile) (7 # 10) then _increase_saturation adjusted (2 # 10)
  else if Py.Qltb (emotion_intensity profile) (3 # 10) then _decrease_saturation adjusted (2 # 10)
  else adjusted.

Definition _adjust_colors_for_intensity (colors : palette) (profile : ContentProfile) : palette :=
  let adjusted := colors in
  match difficulty profile with
  | EXPERT => _adjust_brightness adjusted (- (1 # 10))
  | EASY => _adjust_brightness adjusted (1 # 10)
  | _ => adjusted
  end.

(** [ColorScheme] built from the keyword arguments [colors]. *)
Definition ColorScheme_of (colors : palette) : option ColorScheme :=
  match Py.get "primary_start" colors, Py.get "primary_end" colors,
        Py.get "background_start" colors, Py.get "background_end" colors,
        Py.get "accent_color" colors, Py.get "glow_color" colors with
  | Some ps, Some pe, Some bs, Some be, Some ac, Some gc =>
      new_ColorScheme
        {| primary_start := ps; primary_end := pe; background_start := bs;
           background_end := be; accent_color := ac; glow_color := gc |}
  | _, _, _, _, _, _ => None
  end.

Definition _generate_color_scheme (profile : ContentProfile) : option ColorScheme :=
  let theme_key := recommended_theme profile in
  match (match Py.get theme_key base_color_palettes with
         | Some base_colors => Some base_colors
         | None => _generate_colors_from_profile profile
         end) with
  | None => None
  | Some base_colors =>
      let adjusted_colors := _adjust_colors_for_emotion base_colors profile in
      let final_colors := _adjust_colors_for_intensity adjusted_colors profile in
      ColorScheme_of final_colors
  end.

Definition scale (e : VisualEffect) (speed glow : Q) : VisualEffect :=
  {| glow_intensity := glow_intensity e * glow;
     animation_speed := animation_speed e * speed;
     blur_radius := blur_radius e; pulse_enabled := pulse_enabled e;
     gradient_angle := gradient_angle e; shadow_enabled := shadow_enabled e;
     shadow_intensity := shadow_intensity e |}.

Definition with_pulse (e : VisualEffect) (b : bool) : VisualEffect :=
  {| glow_intensity := glow_intensity e; animation_speed := animation_speed e;
     blur_radius := blur_radius e; pulse_enabled := b;
     gradient_angle := gradient_angle e; shadow_enabled := shadow_enabled e;
     shadow_intensity := shadow_intensity e |}.

Definition with_angle (e : VisualEffect) (a : Z) : VisualEffect :=
  {| glow_intensity := glow_intensity e; animation_speed := animation_speed e;
     blur_radius := blur_radius e; pulse_enabled := pulse_enabled e;
     gradient_angle := a; shadow_enabled := shadow_enabled e;
     shadow_intensity := shadow_intensity e |}.

Definition _generate_visual_effects (profile : ContentProfile) (template_type : string)
    : option VisualEffect :=
  let base_effect :=
    if Py.Qgtb (emotion_intensity profile) (8 # 10) then "energetic"
    else if Py.Qgtb (emotion_intensity profile) (6 # 10) then "vibrant"
    else if Py.Qgtb (emotion_intensity profile) (3 # 10) then "moderate"
    else "subtle" in
  match Py.get base_effect effect_templates with
  | None => None
  | Some effect_config =>
      let effect_config :=
        match content_type profile with
        | LEARNING => scale effect_config (8 # 10) (9 # 10)
        | PROFESSIONAL => with_pulse (scale effect_config (7 # 10) (6 # 10)) false
        | ENTERTAINMENT => scale effect_config (12 # 10) (11 # 10)
        | _ => effect_config
        end in
      let effect_config :=
        if String.eqb template_type "railway" then with_angle effect_config 0
        else if String.eqb template_type "scroll" then scale effect_config (8 # 10) 1
        else effect_config in
      new_VisualEffect effect_config
  end.

Definition _generate_typography (profile : ContentProfile) : list (string * string) :=
  let typography :=
    [ ("font_weight", "normal"); ("letter_spacing", "normal");
      ("line_height", "1.6"); ("text_transform", "none") ] in
  let typography :=
    match content_type profile with
    | PROFESSIONAL => Py.set "letter_spacing" "0.01em" (Py.set "font_weight" "500" typography)
    | LEARNING => Py.set "letter_spacing" "0.02em" (Py.set "line_height" "1.8" typography)
    | CREATIVE => Py.set "letter_spacing" "0.05em" (Py.set "font_weight" "300" typography)
    | _ => typography
    end in
  match difficulty profile with
  | EXPERT => Py.set "letter_spacing" "0.01em" (Py.set "font_weight" "600" typography)
  | EASY => Py.set "letter_spacing" "0.03em" (Py.set "font_weight" "400" typography)
  | _ => typography
  end.

Definition _generate_theme_name (profile : ContentProfile) : string :=
  let emotion_name := Fmt.title (emotion_value (emotion profile)) in
  let content_name := Fmt.title (content_value (content_type profile)) in
  let intensity := if Py.Qgtb (emotion_intensity profile) (6 # 10) then "High" else "Low" in
  emotion_name ++ " " ++ content_name ++ " (" ++ intensity ++ " Intensity)".

Definition _generate_theme_description (profile : ContentProfile) : string :=
  "A " ++ emotion_value (emotion profile) ++ " theme optimized for " ++
  content_value (content_type profile) ++ " content " ++
  "with " ++ difficulty_value (difficulty profile) ++ " difficulty level and " ++
  Fmt.format_1f (emotion_intensity profile) ++ " emotion intensity.".

Definition _generate_cache_key (profile : ContentProfile) (template_type : string) : string :=
  emotion_value (emotion profile) ++ "_" ++ content_value (content_type profile) ++ "_" ++
  difficulty_value (difficulty profile) ++ "_" ++ template_type ++ "_" ++
  Fmt.format_1f (emotion_intensity profile).

(** The generator object: the heap of [ThemeConfig] objects (an object's
    address is its index), the loader's table and the theme cache. *)
Record state := {
  heap : list ThemeConfig;
  loaded_themes : gmap string nat;
  theme_cache : gmap string nat
}.

(** What [ThemeLoader._load_theme_file] makes of a theme file, given the
    fields read from it: a missing name raises, and so does a colour or an
    effect that fails validation. *)
Definition load_theme_file (raw : ThemeConfig) : option ThemeConfig :=
  if Py.truthy (name raw) then
    match new_ColorScheme (colors raw), new_VisualEffect (effects raw) with
    | Some c, Some e =>
        Some {| name := name raw; description := description raw; colors := c;
                effects := e; typography := typography raw;
                compatibility := compatibility raw |}
    | _, _ => None
    end
  else None.

(** [self.loaded_themes[theme_key] = theme_config] with a new object;
    [ThemeLoader.add_custom_theme] is the same assignment. *)
Definition add_theme (theme_key : string) (theme_config : ThemeConfig) (st : state) : state :=
  {| heap := heap st ++ [theme_config];
     loaded_themes := <[theme_key := length (heap st)]> (loaded_themes st);
     theme_cache := theme_cache st |}.

(** [ThemeGenerator()]: [files] lists the theme files found on the disk, by
    key; a file that fails to load is skipped with a warning. *)
Definition init (files : list (string * ThemeConfig)) : state :=
  fold_left
    (fun st (file : string * ThemeConfig) =>
       match load_theme_file (snd file) with
       | Some theme_config => add_theme (fst file) theme_config st
       | None => st
       end)
    files {| heap := []; loaded_themes := ∅; theme_cache := ∅ |}.

Definition _get_predefined_theme (st : state) (profile : ContentProfile) : option nat :=
  let recommended_themes :=
    ThemeLoader.find_themes_for_profile (loaded_themes st)
      (emotion_value (emotion profile)) (content_value (content_type profile))
      (difficulty_value (difficulty profile)) in
  match recommended_themes with
  | theme_name :: _ => ThemeLoader.get_theme (loaded_themes st) theme_name
  | [] => None
  end.

Definition with_compatibility (t : ThemeConfig) (l : list string) : ThemeConfig :=
  {| name := name t; description := description t; colors := colors t;
     effects := effects t; typography := typography t; compatibility := l |}.

(** [generate_theme(profile, template_type)] returns the address of the
    theme and the new state of the generator. *)
Definition generate_theme (profile : ContentProfile) (template_type : string) (st : state)
    : option (nat * state) :=
  let cache_key := _generate_cache_key profile template_type in
  match theme_cache st !! cache_key with
  | Some addr => Some (addr, st)
  | None =>
      match _get_predefined_theme st profile with
      | Some addr =>
          match heap st !! addr with
          | None => None (* no object at the address: the model is stuck *)
          | Some predefined_theme =>
              let heap' :=
                if Py.mem template_type (compatibility predefined_theme) then heap st
                else <[addr := with_compatibility predefined_theme
                                 (compatibility predefined_theme ++ [template_type])]> (heap st) in
              Some (addr,
                    {| heap := heap'; loaded_themes := loaded_themes st;
                       theme_cache := <[cache_key := addr]> (theme_cache st) |})
          end
      | None =>
          match _generate_color_scheme profile with
          | None => None
          | Some colors =>
              match _generate_visual_effects profile template_type with
              | None => None
              | Some effects =>
                  let typography := _generate_typography profile in
                  let theme_name := _generate_theme_name profile in
                  let theme_config :=
                    {| name := theme_name;
                       description := _generate_theme_description profile;
                       colors := colors; effects := effects; typography := typography;
                       compatibility := [template_type] |} in
                  let addr := length (heap st) in
                  Some (addr,
                        {| heap := heap st ++ [theme_config];
                           loaded_themes := loaded_themes st;
                           theme_cache := <[cache_key := addr]> (theme_cache st) |})
              end
          end
      end
  end.

End ThemeGenerator.

(** ** models.py: the colour conversions of [ColorScheme] *)
Module ColorSchemeRgba.
Import Models.

(** [ColorScheme._hex_to_rgba]; [None] is the [ValueError] of [int]. *)
Definition _hex_to_rgba (hex_color : string) : option (Z * Z * Z * Q) :=
  let hex_color := ThemeGenerator.lstrip_hash hex_color in
  match Fmt.int16 (substring 0 2 hex_color),
        Fmt.int16 (substring 2 2 hex_color),
        Fmt.int16 (substring 4 2 hex_color) with
  | Some r, Some g, Some b => Some (r, g, b, 1)
  | _, _, _ => None
  end.

(** The property [primary_rgba]. *)
Definition primary_rgba (self : ColorScheme) : option (Z * Z * Z * Q) :=
  _hex_to_rgba (primary_start self).

(** The property [glow_rgba]. *)
Definition glow_rgba (self : ColorScheme) : option (Z * Z * Z * Q) :=
  match _hex_to_rgba (glow_color self) with
  | Some (r, g, b, _) => Some (r, g, b, 3 # 10)
  | None => None
  end.

End ColorSchemeRgba.

(** ** emotional_decoration/orchestrator/decoration_engine.py

    The engine owns a content analyzer and a theme generator.  Of a request
    the model follows the analysis, the override of the recommended theme
    and the generation of the theme; the rendering of the theme to CSS,
    which reads the theme and changes neither the analyzer nor the
    generator, is not modelled. *)
Module DecorationEngine.
Import Models.

Record state := {
  content_analyzer : ContentAnalyzer.state;
  theme_generator : ThemeGenerator.state
}.

(** [DecorationEngine()], over the theme files found on the disk. *)
Definition init (files : list (string * ThemeConfig)) : state :=
  {| content_analyzer := ContentAnalyzer.init;
     theme_generator := ThemeGenerator.init files |}.

Definition with_recommended_theme (r : AnalysisResult) (theme : string) : AnalysisResult :=
  {| text := text r;
     profile :=
       {| emotion := emotion (profile r); content_type := content_type (profile r);
          difficulty := difficulty (profile r);
          emotion_intensity := emotion_intensity (profile r);
          reading_speed := reading_speed (profile r); key_themes := key_themes (profile r);
          recommended_theme := theme; confidence := confidence (profile r) |};
     processing_time := processing_time r; word_count := word_count r;
     character_count := character_count r; sentences := sentences r;
     keywords := keywords r |}.

(** [analysis_result.profile.recommended_theme = theme], on the object at
    [addr] of the analyzer. *)
Definition set_recommended_theme (addr : nat) (theme : string)
    (st : ContentAnalyzer.state) : ContentAnalyzer.state :=
  match ContentAnalyzer.heap st !! addr with
  | Some analysis_result =>
      {| ContentAnalyzer.heap :=
           <[addr := with_recommended_theme analysis_result theme]> (ContentAnalyzer.heap st);
         ContentAnalyzer.analysis_cache := ContentAnalyzer.analysis_cache st;
         ContentAnalyzer.ticks := ContentAnalyzer.ticks st |}
  | None => st
  end.

Section Engine.
Variable textblob : option (string -> option (Q * Q)).
Variable re : Re.engine.
Variable time : nat -> Q.

(** [analyze_text(text)]: the address of the result in the analyzer. *)
Definition analyze_text (text : string) (st : state) : option (nat * state) :=
  match ContentAnalyzer.analyze textblob re time text true (content_analyzer st) with
  | None => None
  | Some (addr, analyzer) =>
      Some (addr, {| content_analyzer := analyzer; theme_generator := theme_generator st |})
  end.

(** [generate_theme_only(text, template_type, theme_preference)] up to the
    call of [render_decoration]: the address, in the generator, of the
    theme that is rendered, and the state of the engine. *)
Definition generate_theme_only (text template_type : string)
    (theme_preference : option string) (st : state) : option (nat * state) :=
  match ContentAnalyzer.analyze textblob re time text true (content_analyzer st) with
  | None => None
  | Some (addr, analyzer) =>
      let analyzer :=
        match theme_preference with
        | Some preference =>
            if Py.truthy preference then set_recommended_theme addr preference analyzer
            else analyzer
        | None => analyzer
        end in
      match ContentAnalyzer.heap analyzer !! addr with
      | None => None (* no object at the address: the model is stuck *)
      | Some analysis_result =>
          match ThemeGenerator.generate_theme (profile analysis_result) template_type
                  (theme_generator st) with
          | None => None
          | Some (theme_config, generator) =>
              Some (theme_config,
                    {| content_analyzer := analyzer; theme_generator := generator |})
          end
      end
  end.

End Engine.

End DecorationEngine.

(** ** analyzers/emotion_detector.py: the emotional journey *)
Module EmotionalJourney.
Import Models.

Local Open Scope string_scope.

(** [' '.join(words)] *)
Fixpoint join (words : list string) : string :=
  match words with
  | [] => ""
  | word :: rest =>
      match rest with
      | [] => word
      | _ => word ++ " " ++ join rest
      end
  end.

(** [range(0, stop, step)] for [0 < step]: 0, step, 2*step, ... below
    [stop]. *)
Definition range (stop step : nat) : list nat :=
  map (fun k => (k * step)%nat) (seq 0 ((stop + step - 1) / step)).

(** [l[i:j]] for [0 <= i <= j] *)
Definition slice {A : Type} (l : list A) (i j : nat) : list A :=
  firstn (j - i) (skipn i l).

Section Sentiment.
Variable textblob : option (string -> option (Q * Q)).

(** [analyze_emotional_journey(text, segment_size)]; [None] is the
    [ValueError] of [range] for a step of zero, and a negative step gives an
    empty range. *)
Definition analyze_emotional_journey (text : string) (segment_size : Z)
    : option (list (EmotionType * Q)) :=
  let words := Py.split text in
  if (segment_size =? 0)%Z then None
  else if (segment_size <? 0)%Z then Some []
  else
    let n := Z.to_nat segment_size in
    Some (map (fun i =>
                 let segment := join (slice words i (i + n)) in
                 EmotionDetector.detect_emotion textblob segment)
              (range (length words) n)).

End Sentiment.

End EmotionalJourney.

(** * Vocabulary of the statements *)

(** ** Texts *)
Module TextProps.

(** Every character of the string is whitespace: the text is empty or
    whitespace-only. *)
Fixpoint all_space (s : string) : bool :=
  match s with
  | EmptyString => true
  | String c s' => Py.is_space c && all_space s'
  end.

(** No character of the string is an underscore. *)
Fixpoint no_underscore (s : string) : bool :=
  match s with
  | EmptyString => true
  | String c s' => negb (Ascii.eqb c "_") && no_underscore s'
  end.

End TextProps.

(** ** Score dictionaries *)
Module ScoreProps.
Import Models.

(** The keys of [emotion_keywords]: every emotion but [NEUTRAL]. *)
Definition scored_emotions : list EmotionType :=
  [HAPPY; SAD; EXCITED; CALM; ANGRY; FEARFUL; SURPRISED].

Definition nonneg {K : Type} (d : list (K * Q)) : Prop :=
  Forall (fun kv => 0 <= snd kv) d.

Definition positive {K : Type} (d : list (K * Q)) : Prop :=
  Forall (fun kv => 0 < snd kv) d.

(** A structural boost: a positive factor for every content type. *)
Definition good_boost (b : list (ContentType * Q)) : Prop :=
  Py.keys b = all_content_types /\ positive b.

End ScoreProps.

(** ** What the specification says where it describes the code in other
    words than the code's *)
Module Spec.
Import Models.

Local Open Scope string_scope.

(** Section 4.1, step 6: the distribution applies steps 1 to 4 without the
    arg-max and clamp step and L1-normalises the result, missing emotions
    being filled with 0.  The outcome of steps 1 to 4 is the dictionary
    [detect_emotion] takes its arg-max of, [boosted_scores]. *)
Definition distribution_steps_1_to_4 (textblob : option (string -> option (Q * Q)))
    (text : string) : list (EmotionType * Q) :=
  if EmotionDetector.is_blank text
  then map (fun emotion => (emotion, 0)) all_emotions
  else EmotionDetector.fill_missing
         (EmotionDetector.normalize (EmotionDetector.boosted_scores textblob text)).

(** Section 4.3, step 5: the suffix of a difficulty, [expert] giving
    [_sophisticated] and [easy] giving [_accessible]. *)
Definition difficulty_suffix (difficulty : DifficultyLevel) : string :=
  match difficulty with
  | EXPERT => "_sophisticated"
  | EASY => "_accessible"
  | _ => ""
  end.

End Spec.

(** ** The analyzer as an object *)
Module AnalyzerProps.
Import Models ContentAnalyzer.

Section WithEnvironment.
Variable textblob : option (string -> option (Q * Q)).
Variable re : Re.engine.
Variable time : nat -> Q.

(** [r] is the analysis of [text]: every field but [processing_time] is what
    [analyze] computes from [text]. *)
Definition analysis_of (text : string) (r : AnalysisResult) : Prop :=
  Models.text r = text /\
  build_profile textblob re text = Some (profile r) /\
  word_count r = length (Py.split text) /\
  character_count r = String.length text /\
  sentences r = _split_sentences text /\
  keywords r = _extract_keywords text.

(** Two objects that differ at most in [processing_time]. *)
Definition same_analysis (r r' : AnalysisResult) : Prop :=
  Models.text r = Models.text r' /\ profile r = profile r' /\
  word_count r = word_count r' /\ character_count r = character_count r' /\
  sentences r = sentences r' /\ keywords r = keywords r'.

(** The invariant of the analyzer: a cache entry holds the address of an
    object whose text is the key, and every object is the analysis of its
    text. *)
Definition wf (st : state) : Prop :=
  (forall k a, analysis_cache st !! k = Some a ->
     exists r, heap st !! a = Some r /\ Models.text r = k) /\
  (forall a r, heap st !! a = Some r -> analysis_of (Models.text r) r).

(** Every object of [st] is still there in [st'], with the same analysis. *)
Definition preserved (st st' : state) : Prop :=
  forall a r, heap st !! a = Some r ->
    exists r', heap st' !! a = Some r' /\ same_analysis r r'.

(** The states an analyzer goes through. *)
Inductive reachable : state -> Prop :=
| reachable_init : reachable init
| reachable_analyze st text use_cache a st' :
    reachable st -> analyze textblob re time text use_cache st = Some (a, st') -> reachable st'
| reachable_clear st : reachable st -> reachable (clear_cache st).

End WithEnvironment.

(** The analyzer [st] with another cache. *)
Definition with_cache (st : state) (cache : gmap string nat) : state :=
  {| heap := heap st; analysis_cache := cache; ticks := ticks st |}.

(** A clock for running the analyzer: the [n]-th reading is [n] seconds. *)
Definition seconds (n : nat) : Q := inject_Z (Z.of_nat n).

End AnalyzerProps.

(** ** The theme generator as an object *)
Module ThemeProps.
Import Models ThemeGenerator.

(** The invariant of the generator: every theme has colours of the form
    #RRGGBB, the loader's table holds addresses of objects, and a theme
    cached under the key of a template type lists that template type. *)
Definition wf (st : state) : Prop :=
  (forall a t, heap st !! a = Some t -> valid_colors (colors t) = true) /\
  (forall n a, loaded_themes st !! n = Some a -> (a < length (heap st))%nat) /\
  (forall k a, theme_cache st !! k = Some a ->
     exists t, heap st !! a = Some t /\
       forall p T, _generate_cache_key p T = k -> In T (compatibility t)).

(** The states a generator goes through: it is created over the theme files
    of the disk, themes are generated, and custom themes (whose
    [ColorScheme] was validated when it was constructed) are added to its
    loader. *)
Inductive reachable : state -> Prop :=
| reachable_init files : reachable (init files)
| reachable_generate st p T a st' :
    reachable st -> generate_theme p T st = Some (a, st') -> reachable st'
| reachable_add st theme_key t :
    reachable st -> valid_colors (colors t) = true -> reachable (add_theme theme_key t st).

End ThemeProps.

(** ** Keywords *)
Module KeywordProps.
Import ContentAnalyzer.

(** [words.count(w)] *)
Definition count (words : list string) (w : string) : nat :=
  count_occ string_dec words w.

(** The filter of [_extract_keywords]: not a stop word, longer than two
    characters. *)
Definition candidate (word : string) : bool :=
  negb (Py.mem word stop_words) && (2 <? String.length word)%nat.

(** The counts never go up along the list. *)
Fixpoint descending (l : list (string * nat)) : Prop :=
  match l with
  | [] => True
  | x :: l' => Forall (fun y => (snd y <= snd x)%nat) l' /\ descending l'
  end.

End KeywordProps.

(** ** Sentiments *)
Module SentimentProps.


End SentimentProps.

(** ** Blank texts *)
Module BlankProps.
Import Models.

Local Open Scope string_scope.

(** The profile of a blank text. *)
Definition blank_profile : ContentProfile :=
  {| emotion := NEUTRAL; content_type := PROFESSIONAL; difficulty := EASY;
     emotion_intensity := 0; reading_speed := 250 * (9 # 10);
     key_themes := []; recommended_theme := "professional_minimal";
     confidence := 0 |}.

End BlankProps.


(** ** Words *)
Module WordProps.

(** No character of the string is whitespace. *)
Fixpoint no_space (s : string) : bool :=
  match s with
  | EmptyString => true
  | String c s' => negb (Py.is_space c) && no_space s'
  end.

(** A word as [split] gives them: not empty, without whitespace. *)
Definition is_token (w : string) : Prop :=
  w <> EmptyString /\ no_space w = true.

End WordProps.

(** ** Theme files *)
Module LoaderProps.
Import Models.

Local Open Scope string_scope.

(** The two theme files [find_themes_for_profile] considers for a content
    type. *)
Definition category_themes (content_type : ContentType) : list string :=
  match content_type with
  | LEARNING => ["learning_focused"; "learning_energetic"]
  | PROFESSIONAL => ["professional_minimal"; "professional_positive"]
  | _ => ["emotional_serene"; "emotional_vibrant"]
  end.

End LoaderProps.

(** * Proofs *)
(** * Facts about the Python built-ins *)
Module PyFacts.
Import TextProps.

#[global] Arguments Py.is_space : simpl never.
#[global] Arguments Py.is_word : simpl never.

Lemma Qgtb_true (a b : Q) : Py.Qgtb a b = true <-> b < a.
Proof.
  unfold Py.Qgtb. rewrite negb_true_iff, <- not_true_iff_false, Qle_bool_iff.
  split; [apply Qnot_le_lt | apply Qlt_not_le].
Qed.

Lemma Qgtb_false (a b : Q) : Py.Qgtb a b = false <-> a <= b.
Proof.
  unfold Py.Qgtb. rewrite negb_false_iff. apply Qle_bool_iff.
Qed.

Lemma Qltb_true (a b : Q) : Py.Qltb a b = true <-> a < b.
Proof. apply (Qgtb_true b a). Qed.

Lemma Qltb_false (a b : Q) : Py.Qltb a b = false <-> b <= a.
Proof. apply (Qgtb_false b a). Qed.

(** An invariant of a loop carries over to [fold_left]. *)
Lemma fold_left_inv {A B : Type} (P : A -> Prop) (f : A -> B -> A) (l : list B) (a : A) :
  P a -> (forall a b, P a -> P (f a b)) -> P (fold_left f l a).
Proof.
  intros Ha Hstep. revert a Ha.
  induction l as [|b l IH]; intros a Ha; simpl; auto.
Qed.

Section DictFacts.
Context {K : Type} `{EqDecision K} {V : Type}.
Implicit Types (d : list (K * V)) (k : K).

Lemma keys_update k (f : V -> V) d : Py.keys (Py.update k f d) = Py.keys d.
Proof.
  unfold Py.keys. induction d as [|[k' v] d IH]; simpl; [reflexivity|].
  destruct (decide (k = k')); simpl; [reflexivity | now rewrite IH].
Qed.


Lemma get_set k k' (v : V) d :
  Py.get k (Py.set k' v d) = if decide (k = k') then Some v else Py.get k d.
Proof.
  induction d as [|[k0 v0] d IH]; simpl.
  - reflexivity.
  - destruct (decide (k' = k0)) as [->|Hne]; simpl.
    + now destruct (decide (k = k0)).
    + destruct (decide (k = k0)) as [->|Hne'].
      * destruct (decide (k0 = k')); [congruence|reflexivity].
      * exact IH.
Qed.

Lemma update_Forall (P : K * V -> Prop) k (f : V -> V) d :
  (forall k0 v, P (k0, v) -> P (k0, f v)) ->
  Forall P d -> Forall P (Py.update k f d).
Proof.
  intros Hf. induction 1 as [|[k' v] d Hx Hd IH]; simpl; [constructor|].
  destruct (decide (k = k')); constructor; auto.
Qed.

Lemma get_In k v d : Py.get k d = Some v -> In (k, v) d.
Proof.
  induction d as [|[k' v'] d IH]; simpl; [discriminate|].
  destruct (decide (k = k')) as [->|]; intros Hg.
  - left. congruence.
  - right. auto.
Qed.

End DictFacts.

Lemma lstrip_all_space s : all_space s = true -> Py.lstrip s = EmptyString.
Proof.
  induction s as [|c s IH]; simpl; [reflexivity|].
  intros [Hc Hs]%andb_true_iff. rewrite Hc. auto.
Qed.

Lemma lstrip_empty s : Py.lstrip s = EmptyString -> all_space s = true.
Proof.
  induction s as [|c s IH]; simpl; [reflexivity|].
  destruct (Py.is_space c); [auto | discriminate].
Qed.

Lemma rev_string_empty s acc : Py.rev_string s acc = EmptyString -> s = EmptyString.
Proof.
  revert acc. induction s as [|c s IH]; simpl; intros acc Hr; [reflexivity|].
  pose proof (IH _ Hr) as Hs. subst s. simpl in Hr. discriminate.
Qed.

Lemma strip_all_space s : all_space s = true -> Py.strip s = EmptyString.
Proof.
  intros Hs. unfold Py.strip. now rewrite (lstrip_all_space s Hs).
Qed.

Lemma strip_empty s : Py.strip s = EmptyString -> all_space s = true.
Proof.
  unfold Py.strip. intros Hr.
  apply rev_string_empty in Hr.
  apply lstrip_empty in Hr.
  destruct (Py.lstrip s) as [|c r] eqn:Hl.
  - now apply lstrip_empty.
  - exfalso.
    (* the left-stripped text starts with a character that is not a space *)
    assert (Hc : Py.is_space c = false).
    { clear Hr. induction s as [|c0 s IH]; simpl in Hl; [discriminate|].
      destruct (Py.is_space c0) eqn:Hc0; [auto|]. now inversion Hl; subst. }
    assert (Hrev : forall s acc, all_space (Py.rev_string s acc) = all_space s && all_space acc).
    { clear. induction s as [|c s IH]; intros acc; simpl; [reflexivity|].
      rewrite IH. simpl. rewrite !andb_assoc. f_equal. apply andb_comm. }
    rewrite Hrev in Hr. simpl in Hr. rewrite Hc in Hr. discriminate.
Qed.

Lemma split_go_nonempty s cur :
  cur <> EmptyString -> Py.split_go s cur <> [].
Proof.
  revert cur. induction s as [|c s IH]; intros cur Hcur; simpl.
  - destruct cur; [contradiction | discriminate].
  - destruct (Py.is_space c).
    + destruct cur; [contradiction | discriminate].
    + apply IH. discriminate.
Qed.

Lemma split_go_not_all_space s cur :
  all_space s = false -> Py.split_go s cur <> [].
Proof.
  revert cur. induction s as [|c s IH]; intros cur Hs; simpl in *; [discriminate|].
  destruct (Py.is_space c); simpl in Hs.
  - intros Happ. apply app_eq_nil in Happ as [_ Happ]. now apply (IH EmptyString).
  - apply split_go_nonempty. discriminate.
Qed.

Lemma split_go_all_space s : all_space s = true -> Py.split_go s EmptyString = [].
Proof.
  induction s as [|c s IH]; simpl; [reflexivity|].
  intros [Hc Hs]%andb_true_iff. rewrite Hc. simpl. auto.
Qed.

End PyFacts.

(** * Facts about the emotion detector *)
Module EmotionDetectorFacts.
Import Models EmotionDetector ScoreProps.

(** A score dictionary over [scored_emotions] is a list of seven entries. *)
Lemma scored_shape (d : list (EmotionType * Q)) :
  Py.keys d = scored_emotions ->
  exists h s x c a f u,
    d = [(HAPPY, h); (SAD, s); (EXCITED, x); (CALM, c); (ANGRY, a); (FEARFUL, f); (SURPRISED, u)].
Proof.
  unfold Py.keys, scored_emotions. intros Hk.
  repeat (destruct d as [|[? ?] d]; simpl in Hk; try discriminate).
  injection Hk as -> -> -> -> -> -> ->. eauto 10.
Qed.

Lemma score_word_keys word d entry :
  Py.keys (score_word word d entry) = Py.keys d.
Proof.
  unfold score_word. destruct entry as [emotion kws].
  destruct (Py.mem word kws); [apply PyFacts.keys_update|].
  destruct (existsb _ kws); [apply PyFacts.keys_update | reflexivity].
Qed.

Lemma score_word_nonneg word d entry :
  nonneg d -> nonneg (score_word word d entry).
Proof.
  unfold score_word, nonneg. destruct entry as [emotion kws]. intros Hd.
  destruct (Py.mem word kws).
  - apply PyFacts.update_Forall; [|exact Hd]. simpl. intros _ v Hv. lra.
  - destruct (existsb _ kws); [|exact Hd].
    apply PyFacts.update_Forall; [|exact Hd]. simpl. intros _ v Hv. lra.
Qed.

Lemma calculate_keys words :
  Py.keys (_calculate_emotion_scores words) = scored_emotions.
Proof.
  unfold _calculate_emotion_scores.
  apply (PyFacts.fold_left_inv (fun d => Py.keys d = scored_emotions)); [reflexivity|].
  intros d word Hd.
  apply (PyFacts.fold_left_inv (fun d => Py.keys d = scored_emotions)); [exact Hd|].
  intros d' entry Hd'. now rewrite score_word_keys.
Qed.

Lemma calculate_nonneg words : nonneg (_calculate_emotion_scores words).
Proof.
  unfold _calculate_emotion_scores.
  apply (PyFacts.fold_left_inv nonneg).
  - repeat constructor; simpl; lra.
  - intros d word Hd. apply (PyFacts.fold_left_inv nonneg); [exact Hd|].
    intros d' entry Hd'. now apply score_word_nonneg.
Qed.

(** Every intensity modifier of the table is positive. *)
Lemma modifier_positive word m :
  Py.get word intensity_modifiers = Some m -> 0 < m.
Proof.
  unfold intensity_modifiers. simpl.
  repeat (destruct (decide _); [intros [= <-]; reflexivity|]).
  discriminate.
Qed.

Lemma modify_word_keys m d next_word :
  Py.keys (modify_word m d next_word) = Py.keys d.
Proof.
  unfold modify_word.
  apply (PyFacts.fold_left_inv (fun d' => Py.keys d' = Py.keys d)); [reflexivity|].
  intros d' [emotion kws] Hd'.
  destruct (Py.mem next_word kws); [now rewrite PyFacts.keys_update | exact Hd'].
Qed.

Lemma modify_word_nonneg m d next_word :
  0 < m -> nonneg d -> nonneg (modify_word m d next_word).
Proof.
  intros Hm Hd. unfold modify_word.
  apply (PyFacts.fold_left_inv nonneg); [exact Hd|].
  intros d' [emotion kws] Hd'.
  destruct (Py.mem next_word kws); [|exact Hd'].
  apply PyFacts.update_Forall; [|exact Hd']. simpl. intros _ v Hv.
  apply Qmult_le_0_compat; lra.
Qed.

Lemma modifiers_keys words d :
  Py.keys (_apply_intensity_modifiers d words) = Py.keys d.
Proof.
  unfold _apply_intensity_modifiers. revert d.
  induction words as [|word rest IH]; intros d; cbn [modifiers_loop]; [reflexivity|].
  rewrite IH. destruct (Py.get word intensity_modifiers) as [m|]; [|reflexivity].
  apply (PyFacts.fold_left_inv (fun d' => Py.keys d' = Py.keys d)); [reflexivity|].
  intros d' w Hd'. now rewrite modify_word_keys.
Qed.

Lemma modifiers_nonneg words d :
  nonneg d -> nonneg (_apply_intensity_modifiers d words).
Proof.
  unfold _apply_intensity_modifiers. revert d.
  induction words as [|word rest IH]; intros d Hd; cbn [modifiers_loop]; [exact Hd|].
  apply IH. destruct (Py.get word intensity_modifiers) as [m|] eqn:Hm; [|exact Hd].
  apply (PyFacts.fold_left_inv nonneg); [exact Hd|].
  intros d' w Hd'. apply modify_word_nonneg; [|exact Hd'].
  now apply (modifier_positive word).
Qed.



Lemma unnormalized_keys text : Py.keys (unnormalized_scores text) = scored_emotions.
Proof.
  unfold unnormalized_scores. rewrite modifiers_keys. apply calculate_keys.
Qed.

Lemma unnormalized_nonneg text : nonneg (unnormalized_scores text).
Proof.
  unfold unnormalized_scores. apply modifiers_nonneg, calculate_nonneg.
Qed.

(** The seven scores of a text, before normalisation and before the
    sentiment boost. *)
Lemma unnormalized_shape text :
  exists h s x c a f u,
    unnormalized_scores text =
      [(HAPPY, h); (SAD, s); (EXCITED, x); (CALM, c); (ANGRY, a); (FEARFUL, f); (SURPRISED, u)]
    /\ 0 <= h /\ 0 <= s /\ 0 <= x /\ 0 <= c /\ 0 <= a /\ 0 <= f /\ 0 <= u.
Proof.
  destruct (scored_shape _ (unnormalized_keys text)) as (h & s & x & c & a & f & u & Hd).
  exists h, s, x, c, a, f, u. split; [exact Hd|].
  pose proof (unnormalized_nonneg text) as Hn. rewrite Hd in Hn.
  unfold nonneg in Hn.
  repeat (apply Forall_cons_iff in Hn as [? Hn]). simpl in *. tauto.
Qed.

End EmotionDetectorFacts.

Module DistributionFacts.
Import Models EmotionDetector ScoreProps TextProps EmotionDetectorFacts.

#[local] Arguments Qplus : simpl never.
#[local] Arguments Qmult : simpl never.
#[local] Arguments Qdiv : simpl never.
#[local] Arguments Qminus : simpl never.
#[local] Arguments Py.Qgtb : simpl never.

(** The guard [not text or not text.strip()] holds exactly for the texts that
    are empty or whitespace-only. *)
Lemma is_blank_all_space text :
  (negb (Py.truthy text) || negb (Py.truthy (Py.strip text))) = all_space text.
Proof.
  destruct (Py.truthy text) eqn:Ht.
  2: { destruct text; [reflexivity | discriminate]. }
  cbn [negb orb].
  destruct (Py.strip text) as [|c' t'] eqn:Hs.
  - symmetry. now apply PyFacts.strip_empty.
  - cbn [Py.truthy negb]. destruct (all_space text) eqn:Ha; [|reflexivity].
    apply PyFacts.strip_all_space in Ha. congruence.
Qed.


End DistributionFacts.

Module DetectFacts.
Import Models EmotionDetector ScoreProps EmotionDetectorFacts.

#[local] Arguments Qplus : simpl never.
#[local] Arguments Qmult : simpl never.
#[local] Arguments Qdiv : simpl never.
#[local] Arguments Qminus : simpl never.
#[local] Arguments Py.Qgtb : simpl never.

Lemma max_key_from_In {K} (best : K * Q) d : In (Py.max_key_from best d) (best :: d).
Proof.
  revert best. induction d as [|kv d IH]; intros best; cbn [Py.max_key_from].
  - now left.
  - destruct (Py.Qgtb (snd kv) (snd best)).
    + right. apply IH.
    + destruct (IH best) as [H|H]; [now left | now right; right].
Qed.

Lemma max_key_from_ge {K} (best : K * Q) d :
  forall kv, In kv (best :: d) -> snd kv <= snd (Py.max_key_from best d).
Proof.
  revert best. induction d as [|kv' d IH]; intros best kv Hin; cbn [Py.max_key_from].
  - destruct Hin as [<-|[]]. apply Qle_refl.
  - destruct (Py.Qgtb (snd kv') (snd best)) eqn:Hg.
    + apply PyFacts.Qgtb_true in Hg.
      destruct Hin as [<-|Hin].
      * apply Qle_trans with (snd kv'); [now apply Qlt_le_weak|]. apply IH. now left.
      * apply IH. exact Hin.
    + apply PyFacts.Qgtb_false in Hg.
      destruct Hin as [<-|[<-|Hin]].
      * apply IH. now left.
      * apply Qle_trans with (snd best); [exact Hg|]. apply IH. now left.
      * apply IH. now right.
Qed.

(** The sentiment boost leaves [CALM] and [SURPRISED] alone, whatever the
    polarity and the subjectivity are. *)
Lemma boost_of_calm polarity subjectivity :
  Py.get_default CALM 1 (boost_of polarity subjectivity) = 1.
Proof.
  unfold boost_of.
  repeat match goal with |- context [if ?b then _ else _] => destruct b end; reflexivity.
Qed.

Lemma sentiment_boost_calm textblob text :
  Py.get_default CALM 1 (_get_sentiment_boost textblob text) = 1.
Proof.
  unfold _get_sentiment_boost.
  destruct (match textblob with Some blob => blob text | None => _ end) as [[p s]|].
  - apply boost_of_calm.
  - reflexivity.
Qed.

(** The dictionary [detect_emotion] takes its arg-max of: each score of the
    distribution, times the sentiment boost of its emotion. *)
Lemma boosted_shape textblob text :
  exists h s x c a f u,
    unnormalized_scores text =
      [(HAPPY, h); (SAD, s); (EXCITED, x); (CALM, c); (ANGRY, a); (FEARFUL, f); (SURPRISED, u)]
    /\ 0 <= c /\
    let b e := Py.get_default e 1 (_get_sentiment_boost textblob text) in
    boosted_scores textblob text =
      [(HAPPY, h * b HAPPY); (SAD, s * b SAD); (EXCITED, x * b EXCITED); (CALM, c * b CALM);
       (ANGRY, a * b ANGRY); (FEARFUL, f * b FEARFUL); (SURPRISED, u * b SURPRISED)].
Proof.
  destruct (unnormalized_shape text)
    as (h & s & x & c & a & f & u & Hd & Hh & Hs & Hx & Hc & Had & Hf & Hu).
  exists h, s, x, c, a, f, u. split; [exact Hd|]. split; [exact Hc|].
  cbv zeta.
  change (boosted_scores textblob text) with
    (fold_left
       (fun emotion_scores emotion =>
          Py.update emotion
            (fun v => v * Py.get_default emotion 1 (_get_sentiment_boost textblob text))
            emotion_scores)
       (Py.keys (unnormalized_scores text)) (unnormalized_scores text)).
  rewrite Hd. reflexivity.
Qed.

Lemma Qlen_pos {A} (x : A) (l : list A) : 0 < Qlen (x :: l).
Proof.
  unfold Qlen, Qlt. simpl. lia.
Qed.

(** What [detect_emotion] returns: the neutral default, or an emotion with a
    score and an intensity between 0 and 1. *)
Lemma detect_cases textblob text :
  detect_emotion textblob text = (NEUTRAL, 0) \/
  exists e q, detect_emotion textblob text = (e, q) /\ In e scored_emotions /\ 0 <= q <= 1.
Proof.
  unfold detect_emotion.
  destruct (is_blank text); [now left|].
  destruct (boosted_shape textblob text) as (h & s & x & c & a & f & u & _ & Hc & Hb).
  cbv zeta in Hb. rewrite Hb. clear Hb.
  rewrite sentiment_boost_calm.
  cbn [Py.values map Py.max Py.max_key].
  match goal with |- context [Qeq_bool ?m 0] => destruct (Qeq_bool m 0) end; [now left|].
  right.
  set (best := Py.max_key_from _ _).
  set (d := (HAPPY, _) :: _).
  assert (Hin : In best d) by apply max_key_from_In.
  assert (Hge : c * 1 <= snd best).
  { apply (max_key_from_ge _ _ (CALM, c * 1)). unfold d. simpl. tauto. }
  assert (Hv : Py.get_default (fst best) 0 d = snd best /\ In (fst best) scored_emotions).
  { unfold d in Hin. simpl in Hin.
    destruct Hin as [<-|[<-|[<-|[<-|[<-|[<-|[<-|[]]]]]]]]; (split; [reflexivity | simpl; tauto]). }
  destruct Hv as [Hv Hk]. rewrite Hv.
  eexists _, _. split; [reflexivity|]. split; [exact Hk|].
  destruct (Py.split _) as [|w ws]; [lra|].
  pose proof (Qlen_pos w ws) as Hlen.
  split.
  - apply Q.min_glb; [|lra].
    apply Qle_shift_div_l; [exact Hlen | lra].
  - apply Q.le_min_r.
Qed.

End DetectFacts.

(** * Facts about the content classifier *)
Module ClassifierFacts.
Import Models ContentClassifier.
Import ScoreProps EmotionDetectorFacts.

#[local] Arguments Qplus : simpl never.
#[local] Arguments Qmult : simpl never.
#[local] Arguments Qdiv : simpl never.
#[local] Arguments Qminus : simpl never.
#[local] Arguments Py.Qgtb : simpl never.

Lemma Qnat_nonneg n : 0 <= Qnat n.
Proof. unfold Qnat, Qle. simpl. lia. Qed.

Lemma Qnat_pos n : (0 < n)%nat -> 0 < Qnat n.
Proof. unfold Qnat, Qlt. simpl. lia. Qed.

Lemma keys_set_present {K V} `{EqDecision K} (k : K) (v : V) d :
  In k (Py.keys d) -> Py.keys (Py.set k v d) = Py.keys d.
Proof.
  unfold Py.keys. induction d as [|[k' v'] d IH]; simpl; [tauto|].
  intros Hin. destruct (decide (k = k')) as [->|Hne]; simpl; [reflexivity|].
  f_equal. apply IH. destruct Hin; [congruence | assumption].
Qed.

Lemma set_Forall {K V} `{EqDecision K} (P : K * V -> Prop) (k : K) (v : V) d :
  (forall k0, P (k0, v)) -> Forall P d -> Forall P (Py.set k v d).
Proof.
  intros Hv. induction 1 as [|[k' v'] d Hx Hd IH]; simpl.
  - constructor; [apply Hv | constructor].
  - destruct (decide (k = k')); constructor; auto.
Qed.

Section WithEngine.
Variable re : Re.engine.

Lemma content_scores_inv text :
  Py.keys (_calculate_content_scores re text) = all_content_types /\
  nonneg (_calculate_content_scores re text).
Proof.
  unfold _calculate_content_scores.
  apply (PyFacts.fold_left_inv
           (fun d => Py.keys d = all_content_types /\ nonneg d)).
  - split; [reflexivity|]. repeat constructor; simpl; lra.
  - intros d [content_type ind] [Hk Hn]. split.
    + rewrite keys_set_present; [exact Hk|]. rewrite Hk.
      destruct content_type; simpl; tauto.
    + apply set_Forall; [|exact Hn]. intros k0. simpl.
      apply Qle_shift_div_l.
      * apply Qnat_pos. lia.
      * rewrite Qmult_0_l.
        assert (Hkw : 0 <= fold_left
                  (fun keyword_score keyword =>
                     keyword_score +
                     Qnat (Re.findall_count re ("\b" ++ Re.escape re keyword ++ "\b") false
                             (Py.lower text)))
                  (keywords ind) 0).
        { apply (PyFacts.fold_left_inv (fun q => 0 <= q)); [lra|].
          intros q kw Hq. pose proof (Qnat_nonneg (Re.findall_count re
            ("\b" ++ Re.escape re kw ++ "\b") false (Py.lower text))). lra. }
        assert (Hpat : 0 <= fold_left
                  (fun pattern_score pattern =>
                     pattern_score + Qnat (Re.findall_count re pattern true (Py.lower text)) * 2)
                  (patterns ind) 0).
        { apply (PyFacts.fold_left_inv (fun q => 0 <= q)); [lra|].
          intros q p Hq.
          pose proof (Qnat_nonneg (Re.findall_count re p true (Py.lower text))). lra. }
        lra.
Qed.

Lemma times_good l b :
  Forall (fun kx => 0 < snd kx) l -> good_boost b -> good_boost (times l b).
Proof.
  intros Hl. unfold times. revert b.
  induction Hl as [|kx l Hx Hl IH]; intros b Hb; simpl; [exact Hb|].
  apply IH. destruct Hb as [Hk Hp]. split.
  - now rewrite PyFacts.keys_update.
  - apply PyFacts.update_Forall; [|exact Hp]. simpl. intros _ v Hv.
    apply Qmult_lt_0_compat; assumption.
Qed.

Lemma if_times_good (c : bool) l b :
  Forall (fun kx => 0 < snd kx) l -> good_boost b ->
  good_boost (if c then times l b else b).
Proof. intros Hl Hb. destruct c; [now apply times_good | exact Hb]. Qed.

Ltac factors := repeat constructor; reflexivity.

(** [_analyze_structure] does not raise on a text that has a word, and its
    factors are positive. *)
Lemma analyze_structure_good text :
  Py.split text <> [] ->
  exists boost, _analyze_structure re text = Some boost /\ good_boost boost.
Proof.
  intros Hw. unfold _analyze_structure.
  set (b0 := map (fun content_type => (content_type, 1)) all_content_types).
  assert (H0 : good_boost b0) by (split; [reflexivity | repeat constructor]).
  set (b1 := if Re.search re (structural_pattern "numbered_lists") true text then _ else b0).
  assert (H1 : good_boost b1) by (apply if_times_good; [factors | exact H0]).
  set (b2 := if Re.search re (structural_pattern "bullet_points") true text then _ else b1).
  assert (H2 : good_boost b2) by (apply if_times_good; [factors | exact H1]).
  set (b3 := if (0 <? _)%nat then _ else b2).
  assert (H3 : good_boost b3).
  { unfold b3. destruct (0 <? _)%nat; [|exact H2]. apply if_times_good; [factors | exact H2]. }
  clearbody b3. clear b0 b1 b2 H0 H1 H2.
  destruct (0 <? _)%nat.
  - unfold div. destruct (Qeq_bool (Qlen (Py.split text)) 0) eqn:Hz.
    + exfalso. apply Qeq_bool_iff in Hz.
      destruct (Py.split text) as [|w ws]; [congruence|].
      unfold Qlen, Qeq in Hz. simpl in Hz. lia.
    + eexists. split; [reflexivity|].
      repeat (apply if_times_good; [factors|]). exact H3.
  - eexists. split; [reflexivity|].
    repeat (apply if_times_good; [factors|]). exact H3.
Qed.

Lemma content_shape (d : list (ContentType * Q)) :
  Py.keys d = all_content_types ->
  exists l e n p t c,
    d = [(LEARNING, l); (ENTERTAINMENT, e); (NARRATIVE, n); (PROFESSIONAL, p);
         (TECHNICAL, t); (CREATIVE, c)].
Proof.
  unfold Py.keys, all_content_types. intros Hk.
  repeat (destruct d as [|[? ?] d]; simpl in Hk; try discriminate).
  injection Hk as -> -> -> -> -> ->. eauto 10.
Qed.

(** The boosted scores of [classify_content] and [get_content_distribution]:
    six scores, none of them negative. *)
Lemma apply_boost_shape scores boost :
  Py.keys scores = all_content_types -> nonneg scores -> good_boost boost ->
  exists l e n p t c,
    apply_boost scores boost =
      [(LEARNING, l); (ENTERTAINMENT, e); (NARRATIVE, n); (PROFESSIONAL, p);
       (TECHNICAL, t); (CREATIVE, c)]
    /\ 0 <= l /\ 0 <= e /\ 0 <= n /\ 0 <= p /\ 0 <= t /\ 0 <= c.
Proof.
  intros Hk Hn [Hbk Hbp].
  destruct (content_shape _ Hk) as (l & e & n & p & t & c & ->).
  destruct (content_shape _ Hbk) as (bl & be & bn & bp & bt & bc & ->).
  unfold nonneg in Hn. unfold positive in Hbp.
  repeat (apply Forall_cons_iff in Hn as [? Hn]).
  repeat (apply Forall_cons_iff in Hbp as [? Hbp]).
  simpl in *.
  eexists _, _, _, _, _, _. split; [reflexivity|].
  unfold Py.get_default. simpl.
  repeat split; apply Qmult_le_0_compat; lra.
Qed.

Lemma boosted_content_shape text :
  ContentClassifier.is_blank text = false ->
  exists boost l e n p t c,
    _analyze_structure re text = Some boost /\
    apply_boost (_calculate_content_scores re text) boost =
      [(LEARNING, l); (ENTERTAINMENT, e); (NARRATIVE, n); (PROFESSIONAL, p);
       (TECHNICAL, t); (CREATIVE, c)]
    /\ 0 <= l /\ 0 <= e /\ 0 <= n /\ 0 <= p /\ 0 <= t /\ 0 <= c.
Proof.
  intros Hb.
  assert (Hw : Py.split text <> []).
  { unfold ContentClassifier.is_blank in Hb.
    rewrite DistributionFacts.is_blank_all_space in Hb.
    now apply PyFacts.split_go_not_all_space. }
  destruct (analyze_structure_good text Hw) as (boost & Hs & Hg).
  destruct (content_scores_inv text) as [Hk Hn].
  destruct (apply_boost_shape _ _ Hk Hn Hg) as (l & e & n & p & t & c & Ha & Hpos).
  exists boost, l, e, n, p, t, c. auto.
Qed.

(** [classify_content] never raises, and its confidence lies between 0 and 1. *)
Lemma classify_cases text :
  exists content_type confidence,
    classify_content re text = Some (content_type, confidence) /\
    0 <= confidence <= 1.
Proof.
  unfold classify_content.
  destruct (ContentClassifier.is_blank text) eqn:Hb.
  { eexists _, _. split; [reflexivity | lra]. }
  destruct (boosted_content_shape text Hb)
    as (boost & l & e & n & p & t & c & Hs & Ha & Hl & He & Hn & Hp & Ht & Hc).
  rewrite Hs, Ha.
  cbn [Py.values map Py.max Py.max_key].
  match goal with |- context [Qeq_bool ?m 0] => destruct (Qeq_bool m 0) end.
  { eexists _, _. split; [reflexivity | lra]. }
  set (best := Py.max_key_from _ _).
  set (d := (LEARNING, _) :: _).
  assert (Hin : In best d) by apply DetectFacts.max_key_from_In.
  set (total := Py.sum _).
  assert (Htot : total == l + e + n + p + t + c).
  { unfold total, Py.sum. simpl. ring. }
  assert (Hv : 0 <= Py.get_default (fst best) 0 d <= total).
  { unfold d in Hin. simpl in Hin.
    destruct Hin as [<-|[<-|[<-|[<-|[<-|[<-|[]]]]]]];
      unfold Py.get_default; simpl; lra. }
  eexists _, _. split; [reflexivity|].
  destruct (Py.Qgtb total 0) eqn:Hgt; [|lra].
  apply PyFacts.Qgtb_true in Hgt. split.
  - apply Qle_shift_div_l; [exact Hgt | lra].
  - apply Qle_shift_div_r; [exact Hgt | lra].
Qed.

(** [get_content_distribution] never raises. *)
Lemma content_distribution_total text :
  exists dist, get_content_distribution re text = Some dist.
Proof.
  unfold get_content_distribution.
  destruct (ContentClassifier.is_blank text) eqn:Hb; [eauto|].
  destruct (boosted_content_shape text Hb) as (boost & l & e & n & p & t & c & Hs & _).
  rewrite Hs. eauto.
Qed.

End WithEngine.

End ClassifierFacts.

(** * Facts about the content analyzer *)
Module AnalyzerFacts.
Import Models ContentAnalyzer AnalyzerProps.

Lemma reading_speed_positive text content_type :
  0 < _estimate_reading_speed text content_type.
Proof. destruct content_type; reflexivity. Qed.

Section WithEnvironment.
Variable textblob : option (string -> option (Q * Q)).
Variable re : Re.engine.
Variable time : nat -> Q.

#[local] Abbreviation build_profile := (ContentAnalyzer.build_profile textblob re).
#[local] Abbreviation analyze := (ContentAnalyzer.analyze textblob re time).
#[local] Abbreviation analyze_batch := (ContentAnalyzer.analyze_batch textblob re time).
#[local] Abbreviation analysis_of := (AnalyzerProps.analysis_of textblob re).
#[local] Abbreviation wf := (AnalyzerProps.wf textblob re).
#[local] Abbreviation reachable := (AnalyzerProps.reachable textblob re time).

(** The construction of the profile never raises: the intensity and the
    confidence pass the validation of [ContentProfile], and so does the
    reading speed. *)
Lemma build_profile_total text : exists p, build_profile text = Some p.
Proof.
  unfold ContentAnalyzer.build_profile.
  assert (Hd : exists e q, EmotionDetector.detect_emotion textblob text = (e, q) /\ 0 <= q <= 1).
  { destruct (DetectFacts.detect_cases textblob text) as [H|(e & q & H & _ & Hq)].
    - exists NEUTRAL, 0. split; [exact H | lra].
    - eauto. }
  destruct Hd as (e & q & -> & Hq).
  destruct (ClassifierFacts.classify_cases re text) as (ct & c & -> & Hc).
  unfold _extract_key_themes.
  destruct (ClassifierFacts.content_distribution_total re text) as (dist & ->).
  unfold new_ContentProfile, valid_profile. cbn [emotion_intensity reading_speed confidence].
  pose proof (reading_speed_positive text ct) as Hr.
  assert (H1 : Qle_bool 0 q = true) by (apply Qle_bool_iff; lra).
  assert (H2 : Qle_bool q 1 = true) by (apply Qle_bool_iff; lra).
  assert (H3 : Qle_bool 0 c = true) by (apply Qle_bool_iff; lra).
  assert (H4 : Qle_bool c 1 = true) by (apply Qle_bool_iff; lra).
  assert (H5 : Qle_bool (_estimate_reading_speed text ct) 0 = false).
  { apply not_true_iff_false. rewrite Qle_bool_iff. lra. }
  rewrite H1, H2, H3, H4, H5. cbn [andb negb]. eauto.
Qed.

Lemma same_analysis_refl r : same_analysis r r.
Proof. unfold same_analysis. tauto. Qed.

Lemma same_analysis_trans r1 r2 r3 :
  same_analysis r1 r2 -> same_analysis r2 r3 -> same_analysis r1 r3.
Proof. unfold same_analysis. intuition congruence. Qed.

Lemma analysis_of_same text r r' :
  analysis_of text r -> same_analysis r r' -> analysis_of text r'.
Proof. unfold analysis_of, same_analysis. intuition congruence. Qed.

Lemma preserved_refl st : preserved st st.
Proof. intros a r H. exists r. split; [exact H | apply same_analysis_refl]. Qed.

Lemma preserved_trans st1 st2 st3 :
  preserved st1 st2 -> preserved st2 st3 -> preserved st1 st3.
Proof.
  intros H12 H23 a r H.
  destruct (H12 a r H) as (r2 & H2 & Hs2).
  destruct (H23 a r2 H2) as (r3 & H3 & Hs3).
  exists r3. split; [exact H3 | now apply same_analysis_trans with r2].
Qed.

Lemma analyzer_wf_init : wf init.
Proof.
  split.
  - intros k a H. simpl in H. rewrite lookup_empty in H. discriminate.
  - intros a r H. simpl in H. destruct a; discriminate.
Qed.

Lemma wf_clear st : wf st -> wf (clear_cache st).
Proof.
  intros [_ H2]. split; [|exact H2].
  intros k a H. simpl in H. rewrite lookup_empty in H. discriminate.
Qed.

(** A call that finds the text in the cache: the object cached under the
    text is returned, with its [processing_time] overwritten. *)
Lemma analyze_hit text st a :
  wf st -> analysis_cache st !! text = Some a ->
  exists r st',
    analyze text true st = Some (a, st') /\
    heap st !! a = Some r /\
    heap st' = <[a := with_processing_time r (time (S (ticks st)) - time (ticks st))]> (heap st) /\
    analysis_cache st' = analysis_cache st.
Proof.
  intros [H1 _] Hc. destruct (H1 _ _ Hc) as (r & Hr & _).
  unfold ContentAnalyzer.analyze. rewrite Hc, Hr.
  eexists _, _. split; [reflexivity|]. simpl. auto.
Qed.

(** A call that does not find the text in the cache, or does not look:
    a new object is made. *)
Lemma analyze_miss text (use_cache : bool) st :
  (if use_cache then analysis_cache st !! text else @None nat) = None ->
  exists r st',
    analyze text use_cache st = Some (length (heap st), st') /\
    analysis_of text r /\
    heap st' = heap st ++ [r] /\
    analysis_cache st' =
      (if use_cache then <[text := length (heap st)]> (analysis_cache st)
       else analysis_cache st).
Proof.
  intros Hc. unfold ContentAnalyzer.analyze. rewrite Hc.
  destruct (build_profile_total text) as (p & Hp). rewrite Hp.
  eexists _, _. split; [reflexivity|]. simpl.
  split; [|auto]. unfold analysis_of. simpl. auto 10.
Qed.

(** What every call of [analyze] does in a well-formed state. *)
Lemma analyze_spec text (use_cache : bool) st :
  wf st ->
  exists a st' r,
    analyze text use_cache st = Some (a, st') /\
    wf st' /\ preserved st st' /\
    heap st' !! a = Some r /\ analysis_of text r /\
    (use_cache = true -> analysis_cache st' !! text = Some a).
Proof.
  intros Hwf.
  destruct (if use_cache then analysis_cache st !! text else @None nat) as [a|] eqn:Hc.
  - (* hit *)
    destruct use_cache; [|discriminate].
    destruct (analyze_hit text st a Hwf Hc) as (r & st' & Ha & Hr & Hh & Hcache).
    destruct Hwf as [H1 H2].
    assert (Hlt : (a < length (heap st))%nat) by (eapply lookup_lt_Some; eauto).
    set (r' := with_processing_time r _) in Hh.
    assert (Hsame : same_analysis r r') by (unfold same_analysis; simpl; tauto).
    assert (Hpres : preserved st st').
    { intros a0 r0 H0. rewrite Hh. destruct (decide (a0 = a)) as [->|Hne].
      - rewrite list_lookup_insert_eq by exact Hlt. exists r'.
        split; [reflexivity|]. congruence.
      - rewrite list_lookup_insert_ne by congruence. exists r0.
        split; [exact H0 | apply same_analysis_refl]. }
    assert (Htext : Models.text r = text).
    { destruct (H1 _ _ Hc) as (r0 & Hr0 & Ht). congruence. }
    exists a, st', r'. split; [exact Ha|].
    assert (Hr' : heap st' !! a = Some r').
    { rewrite Hh. now apply list_lookup_insert_eq. }
    split; [|split; [exact Hpres|split; [exact Hr'|split]]].
    + split.
      * intros k a0 Hk. rewrite Hcache in Hk.
        destruct (H1 _ _ Hk) as (r0 & Hr0 & Ht0).
        destruct (Hpres _ _ Hr0) as (r0' & Hr0' & Hs0).
        exists r0'. split; [exact Hr0'|]. destruct Hs0 as [Hs0 _]. congruence.
      * intros a0 r0 H0. rewrite Hh in H0.
        destruct (decide (a0 = a)) as [->|Hne].
        -- rewrite list_lookup_insert_eq in H0 by exact Hlt.
           injection H0 as <-. apply analysis_of_same with r; [|exact Hsame].
           simpl. apply (H2 _ _ Hr).
        -- rewrite list_lookup_insert_ne in H0 by congruence. exact (H2 _ _ H0).
    + apply analysis_of_same with r; [|exact Hsame].
      rewrite <- Htext. exact (H2 _ _ Hr).
    + intros _. now rewrite Hcache.
  - (* miss *)
    destruct (analyze_miss text use_cache st Hc) as (r & st' & Ha & Hr & Hh & Hcache).
    destruct Hwf as [H1 H2].
    assert (Hpres : preserved st st').
    { intros a0 r0 H0. exists r0. split; [|apply same_analysis_refl].
      rewrite Hh. rewrite lookup_app_l; [exact H0|]. eapply lookup_lt_Some; eauto. }
    assert (Hnew : heap st' !! length (heap st) = Some r).
    { rewrite Hh. rewrite lookup_app_r by lia. now rewrite Nat.sub_diag. }
    exists (length (heap st)), st', r. split; [exact Ha|].
    split; [|split; [exact Hpres|split; [exact Hnew|split; [exact Hr|]]]].
    + split.
      * intros k a0 Hk. rewrite Hcache in Hk.
        assert (Hold : analysis_cache st !! k = Some a0 ->
                       exists r0, heap st' !! a0 = Some r0 /\ Models.text r0 = k).
        { intros Hk0. destruct (H1 _ _ Hk0) as (r0 & Hr0 & Ht0).
          destruct (Hpres _ _ Hr0) as (r0' & Hr0' & Hs0).
          exists r0'. split; [exact Hr0'|]. destruct Hs0 as [Hs0 _]. congruence. }
        destruct use_cache; [|now apply Hold].
        destruct (decide (text = k)) as [->|Hne].
        -- rewrite lookup_insert_eq in Hk. injection Hk as <-.
           exists r. split; [exact Hnew|]. now destruct Hr.
        -- rewrite lookup_insert_ne in Hk by exact Hne. now apply Hold.
      * intros a0 r0 H0. rewrite Hh in H0.
        destruct (decide (a0 < length (heap st))%nat) as [Hlt|Hge].
        -- rewrite lookup_app_l in H0 by exact Hlt. exact (H2 _ _ H0).
        -- rewrite lookup_app_r in H0 by lia.
           destruct (a0 - length (heap st))%nat; [|destruct n; discriminate].
           injection H0 as <-. destruct Hr as [Ht Hr]. rewrite Ht. now split.
    + intros ->. rewrite Hcache. apply lookup_insert_eq.
Qed.

Lemma analyzer_reachable_wf st : reachable st -> wf st.
Proof.
  induction 1 as [|st text use_cache a st' _ IH Ha|st _ IH].
  - apply analyzer_wf_init.
  - destruct (analyze_spec text use_cache st IH) as (a' & st'' & r & Ha' & Hwf & _).
    rewrite Ha in Ha'. injection Ha' as _ <-. exact Hwf.
  - now apply wf_clear.
Qed.

Lemma analyze_batch_spec texts (use_cache : bool) st :
  wf st ->
  exists addrs st',
    analyze_batch texts use_cache st = Some (addrs, st') /\
    wf st' /\ preserved st st' /\
    length addrs = length texts /\
    forall i t, texts !! i = Some t ->
      exists a r, addrs !! i = Some a /\ heap st' !! a = Some r /\ analysis_of t r.
Proof.
  revert st. induction texts as [|text texts IH]; intros st Hwf.
  - exists [], st. split; [reflexivity|]. split; [exact Hwf|].
    split; [apply preserved_refl|]. split; [reflexivity|].
    intros i t Hi. destruct i; discriminate.
  - destruct (analyze_spec text use_cache st Hwf)
      as (a & st1 & r & Ha & Hwf1 & Hp1 & Hr & Han & _).
    destruct (IH st1 Hwf1) as (addrs & st2 & Hb & Hwf2 & Hp2 & Hlen & Hall).
    exists (a :: addrs), st2.
    cbn [ContentAnalyzer.analyze_batch]. rewrite Ha, Hb.
    split; [reflexivity|]. split; [exact Hwf2|].
    split; [now apply preserved_trans with st1|].
    split; [simpl; now rewrite Hlen|].
    intros [|i] t Hi.
    + injection Hi as <-.
      destruct (Hp2 _ _ Hr) as (r' & Hr' & Hs).
      exists a, r'. split; [reflexivity|]. split; [exact Hr'|].
      now apply analysis_of_same with r.
    + apply (Hall i t Hi).
Qed.

End WithEnvironment.
End AnalyzerFacts.

(** * Facts about the theme generator *)
Module ThemeFacts.
Import Models ThemeGenerator TextProps ThemeProps.

Local Open Scope string_scope.
#[local] Arguments String.append : simpl nomatch.

Lemma no_underscore_app a b :
  no_underscore (a ++ b) = no_underscore a && no_underscore b.
Proof.
  induction a as [|c a IH]; simpl; [reflexivity|].
  now rewrite IH, andb_assoc.
Qed.

(** A string is cut at its first underscore in one way only. *)
Lemma cut_first a a' r r' :
  no_underscore a = true -> no_underscore a' = true ->
  a ++ "_" ++ r = a' ++ "_" ++ r' -> a = a' /\ r = r'.
Proof.
  revert a'. induction a as [|c a IH]; intros [|c' a'] Ha Ha' He; simpl in *.
  - injection He as ->. auto.
  - injection He as <- _. discriminate.
  - injection He as -> _. discriminate.
  - injection He as -> He.
    apply andb_true_iff in Ha as [_ Ha]. apply andb_true_iff in Ha' as [_ Ha'].
    destruct (IH a' Ha Ha' He) as [-> ->]. auto.
Qed.

(** A string is cut at its last underscore in one way only. *)
Lemma cut_last t t' f f' :
  no_underscore f = true -> no_underscore f' = true ->
  t ++ "_" ++ f = t' ++ "_" ++ f' -> t = t' /\ f = f'.
Proof.
  intros Hf Hf'. revert t'. induction t as [|c t IH]; intros [|c' t'] He; simpl in *.
  - injection He as ->. auto.
  - injection He as <- He. exfalso. rewrite He in Hf.
    rewrite no_underscore_app in Hf. simpl in Hf.
    rewrite andb_false_r in Hf. discriminate.
  - injection He as -> He. exfalso. rewrite <- He in Hf'.
    rewrite no_underscore_app in Hf'. simpl in Hf'.
    rewrite andb_false_r in Hf'. discriminate.
  - injection He as -> He. destruct (IH t' He) as [-> ->]. auto.
Qed.

Lemma no_underscore_uint d :
  no_underscore (DecimalString.NilEmpty.string_of_uint d) = true.
Proof. induction d; simpl; auto. Qed.

Lemma no_underscore_decimal n : no_underscore (Fmt.decimal n) = true.
Proof.
  unfold Fmt.decimal, DecimalString.NilZero.string_of_uint.
  destruct (N.to_uint n) eqn:E; try reflexivity; rewrite <- E; apply no_underscore_uint.
Qed.

Lemma no_underscore_format_1f q : no_underscore (Fmt.format_1f q) = true.
Proof.
  unfold Fmt.format_1f.
  rewrite !no_underscore_app, !no_underscore_decimal.
  destruct (Py.Qltb q 0); reflexivity.
Qed.

(** The cache key determines the template type. *)
Lemma cache_key_template p p' T T' :
  _generate_cache_key p T = _generate_cache_key p' T' -> T = T'.
Proof.
  unfold _generate_cache_key. intros He.
  apply cut_first in He as [_ He];
    [|destruct (emotion p); reflexivity | destruct (emotion p'); reflexivity].
  apply cut_first in He as [_ He];
    [|destruct (content_type p); reflexivity | destruct (content_type p'); reflexivity].
  apply cut_first in He as [_ He];
    [|destruct (difficulty p); reflexivity | destruct (difficulty p'); reflexivity].
  apply cut_last in He as [He _]; [exact He | apply no_underscore_format_1f ..].
Qed.

Lemma mem_In x l : Py.mem x l = true -> In x l.
Proof.
  unfold Py.mem. intros (y & Hy & He)%existsb_exists.
  apply String.eqb_eq in He. now subst.
Qed.

Lemma adjust_for_emotion_id colors p : _adjust_colors_for_emotion colors p = colors.
Proof.
  unfold _adjust_colors_for_emotion.
  repeat match goal with |- context [if ?b then _ else _] => destruct b end; reflexivity.
Qed.

Lemma adjust_for_intensity_id colors p : _adjust_colors_for_intensity colors p = colors.
Proof. unfold _adjust_colors_for_intensity. destruct (difficulty p); reflexivity. Qed.

(** Every palette of the table makes a [ColorScheme]. *)
Lemma base_palettes_valid :
  Forall (fun entry => exists c, ColorScheme_of (snd entry) = Some c) base_color_palettes.
Proof. repeat constructor; eexists; vm_compute; reflexivity. Qed.

(** The palette synthesised for an emotion and a content type makes a
    [ColorScheme] too: the blended colours are again of the form #rrggbb. *)
Lemma colors_from_profile_valid p :
  exists colors c,
    _generate_colors_from_profile p = Some colors /\ ColorScheme_of colors = Some c.
Proof.
  unfold _generate_colors_from_profile.
  destruct (emotion p), (content_type p); eexists _, _;
    (split; [vm_compute; reflexivity | vm_compute; reflexivity]).
Qed.

Lemma new_ColorScheme_valid x c : new_ColorScheme x = Some c -> valid_colors c = true.
Proof.
  unfold new_ColorScheme. destruct (valid_colors x) eqn:Hv; [|discriminate].
  now intros [= <-].
Qed.

Lemma ColorScheme_of_valid colors c : ColorScheme_of colors = Some c -> valid_colors c = true.
Proof.
  unfold ColorScheme_of.
  repeat match goal with |- context [match ?o with Some _ => _ | None => _ end] =>
    destruct o; try discriminate end.
  apply new_ColorScheme_valid.
Qed.

(** [_generate_color_scheme] never raises and returns colours of the form
    #RRGGBB. *)
Lemma generate_color_scheme_valid p :
  exists c, _generate_color_scheme p = Some c /\ valid_colors c = true.
Proof.
  unfold _generate_color_scheme.
  destruct (Py.get (recommended_theme p) base_color_palettes) as [pal|] eqn:Hg.
  - rewrite adjust_for_emotion_id, adjust_for_intensity_id.
    apply PyFacts.get_In in Hg.
    pose proof base_palettes_valid as Hall.
    rewrite List.Forall_forall in Hall. destruct (Hall _ Hg) as (c & Hc). simpl in Hc.
    exists c. split; [exact Hc | now apply ColorScheme_of_valid with pal].
  - destruct (colors_from_profile_valid p) as (colors & c & -> & Hc).
    rewrite adjust_for_emotion_id, adjust_for_intensity_id.
    exists c. split; [exact Hc | now apply ColorScheme_of_valid with colors].
Qed.

(** [_generate_visual_effects] never raises. *)
Lemma generate_visual_effects_total p T :
  exists e, _generate_visual_effects p T = Some e.
Proof.
  unfold _generate_visual_effects.
  repeat match goal with |- context [if ?b then _ else _] => destruct b end;
    destruct (content_type p); eexists; vm_compute; reflexivity.
Qed.

Lemma wf_add theme_key t st :
  wf st -> valid_colors (colors t) = true -> wf (add_theme theme_key t st).
Proof.
  intros (H1 & H2 & H3) Hv. unfold add_theme. split; [|split]; simpl.
  - intros a t0 Ha.
    destruct (decide (a < length (heap st))%nat) as [Hlt|Hge].
    + rewrite lookup_app_l in Ha by exact Hlt. exact (H1 _ _ Ha).
    + rewrite lookup_app_r in Ha by lia.
      destruct (a - length (heap st))%nat; [|destruct n; discriminate].
      now injection Ha as <-.
  - intros n a Hn. rewrite length_app. simpl.
    destruct (decide (theme_key = n)) as [->|Hne].
    + rewrite lookup_insert_eq in Hn. injection Hn as <-. lia.
    + rewrite lookup_insert_ne in Hn by exact Hne. pose proof (H2 _ _ Hn). lia.
  - intros k a Hk. destruct (H3 _ _ Hk) as (t0 & Ht0 & Hc).
    exists t0. split; [|exact Hc].
    rewrite lookup_app_l; [exact Ht0|]. eapply lookup_lt_Some; eauto.
Qed.

Lemma theme_wf_init files : wf (init files).
Proof.
  unfold init. apply (PyFacts.fold_left_inv wf).
  - split; [|split]; simpl.
    + intros a t Ha. destruct a; discriminate.
    + intros n a Hn. rewrite lookup_empty in Hn. discriminate.
    + intros k a Hk. rewrite lookup_empty in Hk. discriminate.
  - intros st [key raw] Hst. simpl.
    destruct (load_theme_file raw) as [t|] eqn:Hl; [|exact Hst].
    apply wf_add; [exact Hst|].
    unfold load_theme_file in Hl.
    destruct (Py.truthy (name raw)); [|discriminate].
    destruct (new_ColorScheme (colors raw)) as [c|] eqn:Hc; [|discriminate].
    destruct (new_VisualEffect (effects raw)); [|discriminate].
    injection Hl as <-. simpl. now apply new_ColorScheme_valid with (colors raw).
Qed.

(** A predefined theme comes from the loader's table. *)
Lemma predefined_loaded st p a :
  _get_predefined_theme st p = Some a -> exists n, loaded_themes st !! n = Some a.
Proof.
  unfold _get_predefined_theme, ThemeLoader.get_theme.
  destruct (ThemeLoader.find_themes_for_profile _ _ _ _) as [|n l]; [discriminate|].
  eauto.
Qed.

(** What every call of [generate_theme] does in a well-formed state: it
    returns a theme that lists the template type and whose colours are of
    the form #RRGGBB, and the state stays well-formed. *)
Lemma generate_theme_spec p T st :
  wf st ->
  exists a st' t,
    generate_theme p T st = Some (a, st') /\ wf st' /\
    heap st' !! a = Some t /\ In T (compatibility t) /\ valid_colors (colors t) = true.
Proof.
  intros (H1 & H2 & H3). unfold generate_theme.
  destruct (theme_cache st !! _generate_cache_key p T) as [a|] eqn:Hc.
  { (* cache hit *)
    destruct (H3 _ _ Hc) as (t & Ht & Hcompat).
    exists a, st, t. split; [reflexivity|]. split; [now repeat split|].
    split; [exact Ht|]. split; [now apply (Hcompat p T) | exact (H1 _ _ Ht)]. }
  destruct (_get_predefined_theme st p) as [a|] eqn:Hp.
  { (* a predefined theme *)
    destruct (predefined_loaded _ _ _ Hp) as (n & Hn).
    pose proof (H2 _ _ Hn) as Hlt.
    destruct (lookup_lt_is_Some_2 (heap st) a Hlt) as (t & Ht). rewrite Ht.
    set (t' := with_compatibility t (compatibility t ++ [T])%list).
    set (heap' := if Py.mem T (compatibility t) then heap st else <[a := t']> (heap st)).
    (* the object at [a] after the call *)
    assert (Hnew : exists u, heap' !! a = Some u /\ colors u = colors t /\
                     In T (compatibility u) /\
                     forall x, In x (compatibility t) -> In x (compatibility u)).
    { unfold heap'. destruct (Py.mem T (compatibility t)) eqn:Hm.
      - exists t. split; [exact Ht|]. split; [reflexivity|].
        split; [now apply mem_In | auto].
      - exists t'. split; [now apply list_lookup_insert_eq|]. split; [reflexivity|].
        unfold t'. simpl. split; [apply in_or_app; right; now left|].
        intros x Hx. apply in_or_app. now left. }
    assert (Hother : forall b, b <> a -> heap' !! b = heap st !! b).
    { intros b Hb. unfold heap'. destruct (Py.mem T (compatibility t)); [reflexivity|].
      apply list_lookup_insert_ne. congruence. }
    assert (Hlen : length heap' = length (heap st)).
    { unfold heap'. destruct (Py.mem T (compatibility t)); [reflexivity|].
      apply length_insert. }
    destruct Hnew as (u & Hu & Hcol & HT & Hmono).
    exists a, {| heap := heap'; loaded_themes := loaded_themes st;
                 theme_cache := <[_generate_cache_key p T := a]> (theme_cache st) |}, u.
    split; [reflexivity|]. split; [|split; [exact Hu|split; [exact HT|]]].
    - split; [|split]; simpl.
      + intros b t0 Hb. destruct (decide (b = a)) as [->|Hne].
        * rewrite Hu in Hb. injection Hb as <-. rewrite Hcol. exact (H1 _ _ Ht).
        * rewrite Hother in Hb by exact Hne. exact (H1 _ _ Hb).
      + intros n0 b Hn0. rewrite Hlen. exact (H2 _ _ Hn0).
      + intros k b Hk.
        destruct (decide (_generate_cache_key p T = k)) as [<-|Hne].
        * rewrite lookup_insert_eq in Hk. injection Hk as <-.
          exists u. split; [exact Hu|].
          intros p' T' He. apply cache_key_template in He. now subst T'.
        * rewrite lookup_insert_ne in Hk by exact Hne.
          destruct (H3 _ _ Hk) as (t0 & Ht0 & Hc0).
          destruct (decide (b = a)) as [->|Hba].
          -- exists u. split; [exact Hu|]. intros p' T' He. apply Hmono.
             rewrite Ht in Ht0. injection Ht0 as <-. now apply (Hc0 p' T').
          -- exists t0. split; [|exact Hc0]. now rewrite Hother.
    - rewrite Hcol. exact (H1 _ _ Ht). }
  (* a generated theme *)
  destruct (generate_color_scheme_valid p) as (c & -> & Hv).
  destruct (generate_visual_effects_total p T) as (e & ->).
  set (t := {| name := _generate_theme_name p; description := _; colors := c;
               effects := e; typography := _; compatibility := [T] |}).
  assert (Hnew : ((heap st ++ [t])%list) !! length (heap st) = Some t).
  { rewrite lookup_app_r by lia. now rewrite Nat.sub_diag. }
  exists (length (heap st)),
    {| heap := (heap st ++ [t])%list; loaded_themes := loaded_themes st;
       theme_cache := <[_generate_cache_key p T := length (heap st)]> (theme_cache st) |}, t.
  split; [reflexivity|]. split; [|split; [exact Hnew|split; [now left|exact Hv]]].
  split; [|split]; simpl.
  - intros b t0 Hb.
    destruct (decide (b < length (heap st))%nat) as [Hlt|Hge].
    + rewrite lookup_app_l in Hb by exact Hlt. exact (H1 _ _ Hb).
    + rewrite lookup_app_r in Hb by lia.
      destruct (b - length (heap st))%nat; [|destruct n; discriminate].
      now injection Hb as <-.
  - intros n b Hn. rewrite length_app. simpl. pose proof (H2 _ _ Hn). lia.
  - intros k b Hk.
    destruct (decide (_generate_cache_key p T = k)) as [<-|Hne].
    + rewrite lookup_insert_eq in Hk. injection Hk as <-.
      exists t. split; [exact Hnew|].
      intros p' T' He. apply cache_key_template in He. subst T'. now left.
    + rewrite lookup_insert_ne in Hk by exact Hne.
      destruct (H3 _ _ Hk) as (t0 & Ht0 & Hc0).
      exists t0. split; [|exact Hc0].
      rewrite lookup_app_l; [exact Ht0|]. eapply lookup_lt_Some; eauto.
Qed.

Lemma theme_reachable_wf st : reachable st -> wf st.
Proof.
  induction 1 as [files|st p T a st' _ IH Hg|st key t _ IH Hv].
  - apply theme_wf_init.
  - destruct (generate_theme_spec p T st IH) as (a' & st'' & t & Hg' & Hwf & _).
    rewrite Hg in Hg'. injection Hg' as _ <-. exact Hwf.
  - now apply wf_add.
Qed.

End ThemeFacts.

(** * The properties of the specification *)
Module Claims.
Import Models TextProps ScoreProps.

#[local] Arguments Qplus : simpl never.
#[local] Arguments Qmult : simpl never.
#[local] Arguments Qdiv : simpl never.
#[local] Arguments Qminus : simpl never.
#[local] Arguments Py.Qgtb : simpl never.

Section Emotion.
Import EmotionDetector EmotionDetectorFacts DistributionFacts.



(** C2, as the specification states it, fails: on the text
    "happy sad happy" the distribution gives [HAPPY] the share 1/2, where
    steps 1 to 4 (the sentiment boost included) followed by the
    normalisation give it 35/62 with the keyword-ratio sentiment, and 25/42
    with a TextBlob that reports the polarity 1/2 and the subjectivity 1. *)
Lemma distribution_steps_1_to_4_counterexample :
  Py.get_default HAPPY 0 (get_emotion_distribution "happy sad happy") == 1 # 2 /\
  Py.get_default HAPPY 0 (Spec.distribution_steps_1_to_4 None "happy sad happy") == 35 # 62 /\
  Py.get_default HAPPY 0
    (Spec.distribution_steps_1_to_4 (Some (fun _ => Some (1 # 2, 1))) "happy sad happy")
    == 25 # 42 /\
  ~ (forall textblob text e,
       Py.get_default e 0 (get_emotion_distribution text) ==
       Py.get_default e 0 (Spec.distribution_steps_1_to_4 textblob text)).
Proof.
  split; [vm_compute; reflexivity|]. split; [vm_compute; reflexivity|].
  split; [vm_compute; reflexivity|].
  intros H. specialize (H None "happy sad happy" HAPPY).
  vm_compute in H. discriminate.
Qed.

(** C2, amended.  For every text that is not blank, the distribution is the
    L1-normalisation of the scores of steps 1 to 3 (cleaning and
    tokenising, keyword scoring, intensity modifiers), filled with 0 for the
    missing emotion; the sentiment adjustment of step 4 is not applied to
    it: the score [detect_emotion] maximises is the score the distribution
    normalises times the sentiment boost of the emotion. *)
Theorem distribution_steps_1_to_3 (textblob : option (string -> option (Q * Q)))
    (text : string) :
  is_blank text = false ->
  let words := Py.split (Py.lower (_clean_text text)) in
  let scores := _apply_intensity_modifiers (_calculate_emotion_scores words) words in
  get_emotion_distribution text = fill_missing (normalize scores) /\
  forall e, In e scored_emotions ->
    Py.get_default e 0 (boosted_scores textblob text) ==
    Py.get_default e 0 scores * Py.get_default e 1 (_get_sentiment_boost textblob text).
Proof.
  intros Hb. cbv zeta. split.
  - unfold get_emotion_distribution. unfold is_blank in Hb. now rewrite Hb.
  - destruct (DetectFacts.boosted_shape textblob text)
      as (h & s & x & c & a & f & u & Hd & _ & Hboost).
    cbv zeta in Hboost. rewrite Hboost.
    change (_apply_intensity_modifiers
              (_calculate_emotion_scores (Py.split (Py.lower (_clean_text text))))
              (Py.split (Py.lower (_clean_text text))))
      with (unnormalized_scores text).
    rewrite Hd.
    intros e He. unfold scored_emotions in He. simpl in He.
    destruct He as [<-|[<-|[<-|[<-|[<-|[<-|[<-|[]]]]]]]];
      unfold Py.get_default at 1 2; simpl; reflexivity.
Qed.

Lemma distribution_steps_1_to_3_witness :
  is_blank "so happy" = false /\
  get_emotion_distribution "so happy" =
    fill_missing
      (normalize
         (_apply_intensity_modifiers
            (_calculate_emotion_scores (Py.split (Py.lower (_clean_text "so happy"))))
            (Py.split (Py.lower (_clean_text "so happy"))))).
Proof.
  split; [reflexivity|].
  apply (distribution_steps_1_to_3 None "so happy"). reflexivity.
Defined.

(** C10.  The keyword table has no entry for [NEUTRAL]; [detect_emotion]
    returns [NEUTRAL] only with the intensity 0, and a result whose
    intensity is not zero has another emotion. *)
Theorem neutral_only_with_zero_intensity (textblob : option (string -> option (Q * Q)))
    (text : string) :
  let r := detect_emotion textblob text in
  Py.get NEUTRAL emotion_keywords = None /\
  (fst r = NEUTRAL -> snd r = 0) /\
  (~ snd r == 0 -> fst r <> NEUTRAL).
Proof.
  cbv zeta. split; [reflexivity|].
  destruct (DetectFacts.detect_cases textblob text) as [->|(e & q & -> & He & _)]; simpl.
  - split; [reflexivity|]. intros H. exfalso. apply H. reflexivity.
  - assert (Hne : e <> NEUTRAL).
    { intros ->. unfold scored_emotions in He. simpl in He.
      repeat (destruct He as [He|He]; [discriminate|]). exact He. }
    split; [intros H; contradiction | intros _; exact Hne].
Qed.

Lemma neutral_only_with_zero_intensity_witness :
  fst (detect_emotion None "zzz") = NEUTRAL /\
  snd (detect_emotion None "zzz") = 0.
Proof.
  split; [vm_compute; reflexivity|].
  apply (neutral_only_with_zero_intensity None "zzz"). vm_compute. reflexivity.
Defined.

End Emotion.

Section Classification.
Import EmotionDetector.

(** C3.  On a text that is empty or whitespace-only, [detect_emotion]
    returns (neutral, 0.0) and [classify_content] returns
    (professional, 0.0); neither raises. *)
Theorem blank_text_defaults (textblob : option (string -> option (Q * Q)))
    (re : Re.engine) (text : string) :
  all_space text = true ->
  detect_emotion textblob text = (NEUTRAL, 0) /\
  ContentClassifier.classify_content re text = Some (PROFESSIONAL, 0).
Proof.
  intros Ha. split.
  - unfold detect_emotion, is_blank.
    now rewrite DistributionFacts.is_blank_all_space, Ha.
  - unfold ContentClassifier.classify_content, ContentClassifier.is_blank.
    now rewrite DistributionFacts.is_blank_all_space, Ha.
Qed.

Lemma blank_text_defaults_witness :
  detect_emotion None "  " = (NEUTRAL, 0) /\
  ContentClassifier.classify_content Re.literal_engine "  " = Some (PROFESSIONAL, 0).
Proof.
  apply (blank_text_defaults None Re.literal_engine "  "). reflexivity.
Defined.

(** C4.  For every text, the intensity of [detect_emotion] and the
    confidence of [classify_content] (which does not raise) lie between 0
    and 1, the reading speed is 250 times the multiplier of the content
    type and is positive; so the profile of the analyzer is constructed and
    holds such values. *)
Theorem intensity_confidence_speed_bounds (textblob : option (string -> option (Q * Q)))
    (re : Re.engine) (text : string) :
  0 <= snd (detect_emotion textblob text) <= 1 /\
  (exists content_type confidence,
     ContentClassifier.classify_content re text = Some (content_type, confidence) /\
     0 <= confidence <= 1) /\
  (forall content_type,
     ContentAnalyzer._estimate_reading_speed text content_type ==
       250 * Py.get_default content_type 1 ContentAnalyzer.speed_modifiers /\
     0 < ContentAnalyzer._estimate_reading_speed text content_type) /\
  (exists p, ContentAnalyzer.build_profile textblob re text = Some p /\
     0 <= emotion_intensity p <= 1 /\ 0 <= confidence p <= 1 /\ 0 < reading_speed p).
Proof.
  split; [|split; [|split]].
  - destruct (DetectFacts.detect_cases textblob text) as [->|(e & q & -> & _ & Hq)]; simpl.
    + lra.
    + exact Hq.
  - apply ClassifierFacts.classify_cases.
  - intros content_type. split; [reflexivity|].
    apply AnalyzerFacts.reading_speed_positive.
  - destruct (AnalyzerFacts.build_profile_total textblob re text) as (p & Hp).
    exists p. split; [exact Hp|].
    unfold ContentAnalyzer.build_profile in Hp.
    destruct (detect_emotion textblob text) as [e q].
    destruct (ContentClassifier.classify_content re text) as [[ct c]|]; [|discriminate].
    destruct (ContentAnalyzer._extract_key_themes re text); [|discriminate].
    unfold new_ContentProfile in Hp.
    match type of Hp with (if ?b then _ else _) = _ => destruct b eqn:Hv end;
      [|discriminate].
    injection Hp as <-. unfold valid_profile in Hv. simpl in *.
    repeat (apply andb_true_iff in Hv as [Hv ?]).
    repeat match goal with
           | H : Qle_bool _ _ = true |- _ => apply Qle_bool_iff in H
           | H : negb (Qle_bool _ _) = true |- _ =>
               apply negb_true_iff in H; apply not_true_iff_false in H;
               rewrite Qle_bool_iff in H; apply Qnot_le_lt in H
           end.
    repeat split; assumption.
Qed.

End Classification.

Section Analyzer.
Import ContentAnalyzer AnalyzerProps AnalyzerFacts.
Variable textblob : option (string -> option (Q * Q)).
Variable re : Re.engine.
Variable time : nat -> Q.

(** C5.  Two calls of [analyze] on the same text with caching enabled
    return results with the same profile, word count, character count and
    keywords; after the first call the cache holds the result under the
    text, and the second call returns that very object, the cache being
    left as it was. *)
Theorem analyze_twice_cached (text : string) (st : state) :
  reachable textblob re time st ->
  exists a1 st1 a2 st2 r1 r2,
    analyze textblob re time text true st = Some (a1, st1) /\
    analyze textblob re time text true st1 = Some (a2, st2) /\
    heap st1 !! a1 = Some r1 /\ heap st2 !! a2 = Some r2 /\
    profile r1 = profile r2 /\ word_count r1 = word_count r2 /\
    character_count r1 = character_count r2 /\ keywords r1 = keywords r2 /\
    Models.text r1 = text /\
    analysis_cache st1 !! text = Some a1 /\ a2 = a1 /\
    analysis_cache st2 = analysis_cache st1.
Proof.
  intros Hreach. apply analyzer_reachable_wf in Hreach.
  destruct (analyze_spec textblob re time text true st Hreach)
    as (a1 & st1 & r1 & Ha1 & Hwf1 & _ & Hr1 & Han & Hc1).
  specialize (Hc1 eq_refl).
  destruct (analyze_hit textblob re time text st1 a1 Hwf1 Hc1)
    as (r & st2 & Ha2 & Hr & Hh & Hc2).
  rewrite Hr1 in Hr. injection Hr as <-.
  eexists a1, st1, a1, st2, r1, _.
  split; [exact Ha1|]. split; [exact Ha2|]. split; [exact Hr1|].
  split.
  { rewrite Hh. apply list_lookup_insert_eq. eapply lookup_lt_Some; eauto. }
  simpl. destruct Han as (Ht & _). auto 10.
Qed.

(** C7.  [analyze_batch] returns one result for each text, in the order of
    the texts: the [i]-th result has the [i]-th text and is its analysis. *)
Theorem analyze_batch_in_order (texts : list string) (use_cache : bool) (st : state) :
  reachable textblob re time st ->
  exists addrs st',
    analyze_batch textblob re time texts use_cache st = Some (addrs, st') /\
    length addrs = length texts /\
    forall i t, texts !! i = Some t ->
      exists a r, addrs !! i = Some a /\ heap st' !! a = Some r /\
        Models.text r = t /\ analysis_of textblob re t r.
Proof.
  intros Hreach. apply analyzer_reachable_wf in Hreach.
  destruct (analyze_batch_spec textblob re time texts use_cache st Hreach)
    as (addrs & st' & Hb & _ & _ & Hlen & Hall).
  exists addrs, st'. split; [exact Hb|]. split; [exact Hlen|].
  intros i t Hi. destruct (Hall i t Hi) as (a & r & Ha & Hr & Han).
  exists a, r. split; [exact Ha|]. split; [exact Hr|].
  split; [now destruct Han | exact Han].
Qed.

(** C9.  A call of [analyze] with [use_cache=False] returns a new object,
    the analysis of the text; it leaves the cache and the cached objects
    as they were, so the cache statistics are the same before and after,
    and it does not read the cache: with any other cache the call returns
    the same. *)
Theorem analyze_without_cache (text : string) (st : state) :
  exists a st' r,
    analyze textblob re time text false st = Some (a, st') /\
    analysis_cache st' = analysis_cache st /\
    get_cache_stats st' = get_cache_stats st /\
    heap st' = heap st ++ [r] /\ heap st' !! a = Some r /\
    analysis_of textblob re text r /\
    forall cache,
      analyze textblob re time text false (with_cache st cache) =
      Some (a, with_cache st' cache).
Proof.
  destruct (build_profile_total textblob re text) as (p & Hp).
  unfold analyze. cbn [analysis_cache with_cache heap ticks]. rewrite Hp.
  eexists _, _, _. split; [reflexivity|]. simpl.
  split; [reflexivity|]. split; [reflexivity|]. split; [reflexivity|].
  split; [rewrite lookup_app_r by lia; now rewrite Nat.sub_diag|].
  split; [unfold analysis_of; simpl; auto 10|].
  intros cache. reflexivity.
Qed.

End Analyzer.

Lemma analyze_twice_cached_witness :
  exists a1 st1 a2 st2 r1 r2,
    ContentAnalyzer.analyze None Re.literal_engine AnalyzerProps.seconds
      "so happy" true ContentAnalyzer.init = Some (a1, st1) /\
    ContentAnalyzer.analyze None Re.literal_engine AnalyzerProps.seconds
      "so happy" true st1 = Some (a2, st2) /\
    ContentAnalyzer.heap st1 !! a1 = Some r1 /\ ContentAnalyzer.heap st2 !! a2 = Some r2 /\
    profile r1 = profile r2 /\ word_count r1 = word_count r2 /\
    character_count r1 = character_count r2 /\ keywords r1 = keywords r2 /\
    Models.text r1 = "so happy"%string /\
    ContentAnalyzer.analysis_cache st1 !! "so happy"%string = Some a1 /\ a2 = a1 /\
    ContentAnalyzer.analysis_cache st2 = ContentAnalyzer.analysis_cache st1.
Proof.
  apply (analyze_twice_cached None Re.literal_engine AnalyzerProps.seconds
           "so happy" ContentAnalyzer.init).
  apply AnalyzerProps.reachable_init.
Defined.

Lemma analyze_batch_in_order_witness :
  exists addrs st',
    ContentAnalyzer.analyze_batch None Re.literal_engine AnalyzerProps.seconds
      ["a"; "b"; "a"]%string true ContentAnalyzer.init = Some (addrs, st') /\
    length addrs = 3%nat /\
    forall i t, (["a"; "b"; "a"]%string : list string) !! i = Some t ->
      exists a r, addrs !! i = Some a /\ ContentAnalyzer.heap st' !! a = Some r /\
        Models.text r = t /\ AnalyzerProps.analysis_of None Re.literal_engine t r.
Proof.
  apply (analyze_batch_in_order None Re.literal_engine AnalyzerProps.seconds
           ["a"; "b"; "a"]%string true ContentAnalyzer.init).
  apply AnalyzerProps.reachable_init.
Defined.

Section Themes.
Import ContentAnalyzer.

Local Open Scope string_scope.

(** C6, as the specification states it, fails: for a happy text of the
    learning type and of expert difficulty the recommended theme is
    "learning_energetic", not the base theme with the suffix
    [_sophisticated]. *)
Lemma difficulty_suffix_counterexample :
  _determine_recommended_theme HAPPY LEARNING EXPERT = "learning_energetic" /\
  _determine_recommended_theme HAPPY LEARNING EXPERT <> base_theme LEARNING ++ "_sophisticated" /\
  _determine_recommended_theme HAPPY LEARNING EASY <> base_theme LEARNING ++ "_accessible".
Proof. repeat split; vm_compute; discriminate. Qed.

(** C6, amended.  The emotion suffix takes precedence: for every emotion
    but angry and surprised the theme is the base theme of the content
    type with a suffix of the emotion, whatever the difficulty, and it is
    neither of the difficulty themes; only for angry and surprised is the
    theme the base theme with the suffix of the difficulty
    ([_sophisticated] for expert, [_accessible] for easy, none
    otherwise).  The two suffixes are never combined. *)
Theorem recommended_theme_precedence (emotion : EmotionType)
    (content_type : ContentType) (difficulty : DifficultyLevel) :
  let theme := _determine_recommended_theme emotion content_type difficulty in
  let base := base_theme content_type in
  (In emotion [ANGRY; SURPRISED] -> theme = base ++ Spec.difficulty_suffix difficulty) /\
  (~ In emotion [ANGRY; SURPRISED] ->
     theme = _determine_recommended_theme emotion content_type MEDIUM /\
     String.prefix (base ++ "_") theme = true /\
     theme <> base ++ "_sophisticated" /\ theme <> base ++ "_accessible").
Proof.
  cbv zeta. split.
  - intros [<-|[<-|[]]]; destruct content_type, difficulty; reflexivity.
  - intros Hn.
    destruct emotion;
      try (exfalso; apply Hn; simpl; tauto);
      destruct content_type;
      (split; [reflexivity|]; split; [reflexivity|]; split; vm_compute; discriminate).
Qed.

Lemma recommended_theme_precedence_witness :
  _determine_recommended_theme ANGRY TECHNICAL EXPERT = "professional_sophisticated" /\
  _determine_recommended_theme SAD CREATIVE EASY = "emotional_contemplative".
Proof.
  split.
  - apply (recommended_theme_precedence ANGRY TECHNICAL EXPERT). simpl. tauto.
  - pose proof (recommended_theme_precedence SAD CREATIVE EASY) as [_ H].
    destruct H as [H _]; [|exact H].
    intros [H|[H|[]]]; discriminate.
Defined.

End Themes.

Section Generator.
Import ThemeGenerator ThemeProps ThemeFacts.

(** C8.  For every profile and template type, in every state of the
    generator, [generate_theme] returns a theme whose compatibility list
    contains the template type and whose six colours have the form
    #RRGGBB; when the key of the profile and the template type is in the
    theme cache, the theme is the cached one and the generator is left as
    it was. *)
Theorem generate_theme_compatible (p : ContentProfile) (T : string) (st : state) :
  reachable st ->
  exists a st' t,
    generate_theme p T st = Some (a, st') /\ heap st' !! a = Some t /\
    In T (compatibility t) /\
    is_hex_color (primary_start (colors t)) = true /\
    is_hex_color (primary_end (colors t)) = true /\
    is_hex_color (background_start (colors t)) = true /\
    is_hex_color (background_end (colors t)) = true /\
    is_hex_color (accent_color (colors t)) = true /\
    is_hex_color (glow_color (colors t)) = true /\
    (forall a0, theme_cache st !! _generate_cache_key p T = Some a0 -> a = a0 /\ st' = st).
Proof.
  intros Hreach. apply theme_reachable_wf in Hreach.
  destruct (generate_theme_spec p T st Hreach) as (a & st' & t & Hg & _ & Ht & HT & Hv).
  exists a, st', t. split; [exact Hg|]. split; [exact Ht|]. split; [exact HT|].
  unfold valid_colors in Hv.
  repeat (apply andb_true_iff in Hv as [Hv ?]).
  repeat (split; [assumption|]).
  intros a0 Hc. unfold generate_theme in Hg. rewrite Hc in Hg.
  injection Hg as <- <-. auto.
Qed.

End Generator.

(** The scenario of the specification: a happy profile of the learning
    type, medium difficulty and intensity 0.7, for the typewriter template,
    in a generator created without theme files. *)
Definition sample_profile : ContentProfile :=
  {| emotion := HAPPY; content_type := LEARNING; difficulty := MEDIUM;
     emotion_intensity := 7 # 10; reading_speed := 250; key_themes := [];
     recommended_theme := "learning_energetic"; confidence := 8 # 10 |}.

Lemma generate_theme_compatible_witness :
  exists a st' t,
    ThemeGenerator.generate_theme sample_profile "typewriter" (ThemeGenerator.init []) =
      Some (a, st') /\
    ThemeGenerator.heap st' !! a = Some t /\
    In "typewriter"%string (compatibility t) /\
    is_hex_color (primary_start (colors t)) = true /\
    is_hex_color (primary_end (colors t)) = true /\
    is_hex_color (background_start (colors t)) = true /\
    is_hex_color (background_end (colors t)) = true /\
    is_hex_color (accent_color (colors t)) = true /\
    is_hex_color (glow_color (colors t)) = true /\
    (forall a0,
       ThemeGenerator.theme_cache (ThemeGenerator.init []) !!
         ThemeGenerator._generate_cache_key sample_profile "typewriter" = Some a0 ->
       a = a0 /\ st' = ThemeGenerator.init []).
Proof.
  apply (generate_theme_compatible sample_profile "typewriter" (ThemeGenerator.init [])).
  apply (ThemeProps.reachable_init []).
Defined.

End Claims.

(** * Further properties of the content classifier *)
Module ClassifierExtras.
Import Models ContentClassifier ScoreProps.

#[local] Arguments Qplus : simpl never.
#[local] Arguments Qmult : simpl never.
#[local] Arguments Qdiv : simpl never.
#[local] Arguments Qminus : simpl never.
#[local] Arguments Py.Qgtb : simpl never.

(** [max(d.values())] is the value of [max(d, key=d.get)]. *)
Lemma max_key_from_value {K} (best : K * Q) d :
  snd (Py.max_key_from best d) = Py.max_from (snd best) (map snd d).
Proof.
  revert best. induction d as [|kv d IH]; intros best; simpl; [reflexivity|].
  destruct (Py.Qgtb (snd kv) (snd best)); apply IH.
Qed.

Section WithEngine.
Variable re : Re.engine.

(** The scores both operations work on: the raw scores, each times the
    structural factor of its type. *)
Lemma boosted_explicit text :
  is_blank text = false ->
  exists boost l e n p t c bl be bn bp bt bc,
    _analyze_structure re text = Some boost /\
    _calculate_content_scores re text =
      [(LEARNING, l); (ENTERTAINMENT, e); (NARRATIVE, n); (PROFESSIONAL, p);
       (TECHNICAL, t); (CREATIVE, c)] /\
    boost =
      [(LEARNING, bl); (ENTERTAINMENT, be); (NARRATIVE, bn); (PROFESSIONAL, bp);
       (TECHNICAL, bt); (CREATIVE, bc)] /\
    apply_boost (_calculate_content_scores re text) boost =
      [(LEARNING, l * bl); (ENTERTAINMENT, e * be); (NARRATIVE, n * bn);
       (PROFESSIONAL, p * bp); (TECHNICAL, t * bt); (CREATIVE, c * bc)] /\
    (0 <= l /\ 0 <= e /\ 0 <= n /\ 0 <= p /\ 0 <= t /\ 0 <= c) /\
    (0 < bl /\ 0 < be /\ 0 < bn /\ 0 < bp /\ 0 < bt /\ 0 < bc).
Proof.
  intros Hb.
  assert (Hw : Py.split text <> []).
  { unfold is_blank in Hb. rewrite DistributionFacts.is_blank_all_space in Hb.
    now apply PyFacts.split_go_not_all_space. }
  destruct (ClassifierFacts.analyze_structure_good re text Hw) as (boost & Hs & Hbk & Hbp).
  destruct (ClassifierFacts.content_scores_inv re text) as [Hk Hn].
  destruct (ClassifierFacts.content_shape _ Hk) as (l & e & n & p & t & c & Hd).
  destruct (ClassifierFacts.content_shape _ Hbk) as (bl & be & bn & bp & bt & bc & ->).
  rewrite Hd in Hn |- *.
  unfold nonneg in Hn. unfold positive in Hbp.
  repeat (apply Forall_cons_iff in Hn as [? Hn]).
  repeat (apply Forall_cons_iff in Hbp as [? Hbp]).
  simpl in *.
  eexists _, l, e, n, p, t, c, bl, be, bn, bp, bt, bc.
  split; [exact Hs|]. split; [reflexivity|]. split; [reflexivity|].
  split; [reflexivity|]. tauto.
Qed.

(** The boosted scores as six non-negative numbers, each of which is zero
    exactly when the raw score of its type is. *)
Lemma boosted_scores_view text :
  is_blank text = false ->
  exists boost L E N P T C,
    _analyze_structure re text = Some boost /\
    apply_boost (_calculate_content_scores re text) boost =
      [(LEARNING, L); (ENTERTAINMENT, E); (NARRATIVE, N); (PROFESSIONAL, P);
       (TECHNICAL, T); (CREATIVE, C)] /\
    (0 <= L /\ 0 <= E /\ 0 <= N /\ 0 <= P /\ 0 <= T /\ 0 <= C) /\
    let raw ct := Py.get_default ct 0 (_calculate_content_scores re text) in
    (L == 0 <-> raw LEARNING == 0) /\ (E == 0 <-> raw ENTERTAINMENT == 0) /\
    (N == 0 <-> raw NARRATIVE == 0) /\ (P == 0 <-> raw PROFESSIONAL == 0) /\
    (T == 0 <-> raw TECHNICAL == 0) /\ (C == 0 <-> raw CREATIVE == 0).
Proof.
  intros Hb.
  destruct (boosted_explicit text Hb)
    as (boost & l & e & n & p & t & c & bl & be & bn & bp & bt & bc
        & Hs & Hd & -> & Ha & Hpos & Hbpos).
  eexists _, (l * bl), (e * be), (n * bn), (p * bp), (t * bt), (c * bc).
  split; [exact Hs|]. split; [exact Ha|].
  assert (Hz : forall x b, 0 < b -> (x * b == 0 <-> x == 0)).
  { intros x b Hb0. split.
    - intros H. apply Qmult_integral in H as [H|H]; [exact H | lra].
    - intros H. rewrite H. ring. }
  split.
  - repeat split; apply Qmult_le_0_compat; lra.
  - cbv zeta. rewrite Hd. unfold Py.get_default. simpl.
    repeat split; try (apply Hz; tauto); try (apply (proj2 (Hz _ _ ltac:(tauto)))).
Qed.

(** The content distribution of a text that is not blank: it never raises,
    covers the six content types with scores between 0 and 1, sums to 1 when
    a raw score is not zero, and is all zero otherwise. *)
Theorem content_distribution_normalized text :
  is_blank text = false ->
  exists dist,
    get_content_distribution re text = Some dist /\
    Py.keys dist = all_content_types /\
    (forall ct, 0 <= Py.get_default ct 0 dist <= 1) /\
    ((exists ct, ~ Py.get_default ct 0 (_calculate_content_scores re text) == 0) ->
     Py.sum (Py.values dist) == 1) /\
    ((forall ct, Py.get_default ct 0 (_calculate_content_scores re text) == 0) ->
     forall ct, Py.get_default ct 0 dist == 0).
Proof.
  intros Hb.
  destruct (boosted_scores_view text Hb)
    as (boost & L & E & N & P & T & C & Hs & Ha & Hpos & Hz).
  cbv zeta in Hz. destruct Hz as (HL & HE & HN & HP & HT & HC).
  unfold get_content_distribution. rewrite Hb, Hs, Ha.
  set (total := Py.sum _).
  assert (Ht : total == L + E + N + P + T + C).
  { unfold total, Py.sum. simpl. ring. }
  clearbody total.
  eexists. split; [reflexivity|].
  destruct (Py.Qgtb total 0) eqn:Hgt.
  - apply PyFacts.Qgtb_true in Hgt.
    split; [reflexivity|]. split; [|split].
    + clear HL HE HN HP HT HC.
      intros ct. destruct ct; unfold Py.get_default; simpl;
        (split; [apply Qle_shift_div_l | apply Qle_shift_div_r]; lra).
    + clear HL HE HN HP HT HC.
      intros _. unfold Py.sum. simpl. field_simplify_eq; lra.
    + intros Hall. exfalso.
      pose proof (proj2 HL (Hall LEARNING)). pose proof (proj2 HE (Hall ENTERTAINMENT)).
      pose proof (proj2 HN (Hall NARRATIVE)). pose proof (proj2 HP (Hall PROFESSIONAL)).
      pose proof (proj2 HT (Hall TECHNICAL)). pose proof (proj2 HC (Hall CREATIVE)).
      clear HL HE HN HP HT HC Hall. lra.
  - apply PyFacts.Qgtb_false in Hgt.
    assert (Hzero : L == 0 /\ E == 0 /\ N == 0 /\ P == 0 /\ T == 0 /\ C == 0).
    { clear HL HE HN HP HT HC. repeat split; lra. }
    split; [reflexivity|]. split; [|split].
    + clear HL HE HN HP HT HC.
      intros ct. destruct ct; unfold Py.get_default; simpl; lra.
    + intros [ct Hct]. exfalso. apply Hct.
      destruct ct; [apply HL|apply HE|apply HN|apply HP|apply HT|apply HC]; tauto.
    + intros _ ct. destruct ct; unfold Py.get_default; simpl; tauto.
Qed.

(** [classify_content] and [get_content_distribution] agree: the confidence
    is the share of the returned type in the distribution, no type has a
    greater share, a confidence that is not zero is at least 1/6, and the
    confidence is zero only with the default type. *)
Theorem classify_is_argmax text content_type confidence dist :
  classify_content re text = Some (content_type, confidence) ->
  get_content_distribution re text = Some dist ->
  confidence == Py.get_default content_type 0 dist /\
  (forall ct, Py.get_default ct 0 dist <= confidence) /\
  (~ confidence == 0 -> 1 # 6 <= confidence) /\
  (confidence == 0 -> content_type = PROFESSIONAL).
Proof.
  unfold classify_content, get_content_distribution.
  destruct (is_blank text) eqn:Hb.
  { intros [= <- <-] [= <-]. split; [reflexivity|]. split.
    - intros ct. destruct ct; unfold Py.get_default; simpl; lra.
    - split; [intros H; exfalso; apply H; reflexivity | reflexivity]. }
  destruct (boosted_scores_view text Hb)
    as (boost & L & E & N & P & T & C & Hs & Ha & Hpos & _).
  rewrite Hs, Ha.
  set (total := Py.sum _).
  assert (Ht : total == L + E + N + P + T + C).
  { unfold total, Py.sum. simpl. ring. }
  clearbody total.
  cbn [Py.values map Py.max Py.max_key snd].
  pose proof (max_key_from_value (LEARNING, L)
    [(ENTERTAINMENT, E); (NARRATIVE, N); (PROFESSIONAL, P); (TECHNICAL, T); (CREATIVE, C)])
    as Hmv.
  cbn [map snd] in Hmv. rewrite <- Hmv. clear Hmv.
  pose proof (DetectFacts.max_key_from_In (LEARNING, L)
    [(ENTERTAINMENT, E); (NARRATIVE, N); (PROFESSIONAL, P); (TECHNICAL, T); (CREATIVE, C)])
    as Hin.
  pose proof (DetectFacts.max_key_from_ge (LEARNING, L)
    [(ENTERTAINMENT, E); (NARRATIVE, N); (PROFESSIONAL, P); (TECHNICAL, T); (CREATIVE, C)])
    as Hge.
  destruct (Py.max_key_from _ _) as [k v].
  assert (HgL := Hge (LEARNING, L) ltac:(simpl; tauto)).
  assert (HgE := Hge (ENTERTAINMENT, E) ltac:(simpl; tauto)).
  assert (HgN := Hge (NARRATIVE, N) ltac:(simpl; tauto)).
  assert (HgP := Hge (PROFESSIONAL, P) ltac:(simpl; tauto)).
  assert (HgT := Hge (TECHNICAL, T) ltac:(simpl; tauto)).
  assert (HgC := Hge (CREATIVE, C) ltac:(simpl; tauto)).
  clear Hge. cbn [fst snd] in *.
  destruct (Qeq_bool v 0) eqn:Hv0.
  - (* every score is zero *)
    apply Qeq_bool_iff in Hv0.
    intros [= <- <-].
    assert (Hgt : Py.Qgtb total 0 = false) by (apply PyFacts.Qgtb_false; lra).
    rewrite Hgt. intros [= <-].
    split; [unfold Py.get_default; simpl; lra|]. split.
    + intros ct. destruct ct; unfold Py.get_default; simpl; lra.
    + split; [intros H; exfalso; apply H; reflexivity | reflexivity].
  - apply Qeq_bool_neq in Hv0.
    assert (Hvpos : 0 < v) by lra.
    assert (Hgt : Py.Qgtb total 0 = true).
    { apply PyFacts.Qgtb_true.
      simpl in Hin.
      destruct Hin as [H|[H|[H|[H|[H|[H|[]]]]]]]; injection H as _ Hv; subst v; lra. }
    rewrite Hgt. apply PyFacts.Qgtb_true in Hgt.
    intros [= <- <-] [= <-].
    assert (Hk : Py.get_default k 0
                   [(LEARNING, L); (ENTERTAINMENT, E); (NARRATIVE, N); (PROFESSIONAL, P);
                    (TECHNICAL, T); (CREATIVE, C)] = v).
    { simpl in Hin.
      destruct Hin as [H|[H|[H|[H|[H|[H|[]]]]]]]; injection H as <- <-; reflexivity. }
    rewrite Hk.
    assert (Hshare : forall x, x <= v -> x / total <= v / total).
    { intros x Hx. apply Qle_shift_div_l; [exact Hgt|].
      field_simplify; [|lra]. lra. }
    assert (Htv : total <= 6 * v) by lra.
    assert (Hvt : v <= total).
    { simpl in Hin.
      destruct Hin as [H|[H|[H|[H|[H|[H|[]]]]]]]; injection H as _ Hv; subst v; lra. }
    split; [|split; [|split]].
    + simpl in Hin.
      destruct Hin as [H|[H|[H|[H|[H|[H|[]]]]]]]; injection H as <- <-;
        unfold Py.get_default; simpl; reflexivity.
    + intros ct. destruct ct; unfold Py.get_default; simpl; now apply Hshare.
    + intros _. apply Qle_shift_div_l; [exact Hgt | lra].
    + intros Hc0. exfalso.
      assert (0 < v / total) by (apply Qlt_shift_div_l; [exact Hgt | lra]).
      lra.
Qed.

(** The structural pass never damps a score: every factor it returns lies
    between 1 and 1.716 (the product of the three factors a type can
    collect). *)
Theorem structure_never_damps text boost :
  _analyze_structure re text = Some boost ->
  Py.keys boost = all_content_types /\
  forall ct, 1 <= Py.get_default ct 1 boost <= 1716 # 1000.
Proof.
  unfold _analyze_structure. intros H.
  repeat match type of H with
         | context [if ?b then _ else _] => destruct b
         | context [match div ?a ?b with _ => _ end] => destruct (div a b)
         end;
    try discriminate; injection H as <-;
    (split; [reflexivity | intros ct; destruct ct; vm_compute; split; discriminate]).
Qed.

End WithEngine.

Lemma structure_never_damps_witness :
  _analyze_structure Re.literal_engine "wow!" =
    Some [(LEARNING, 1); (ENTERTAINMENT, 13 # 10); (NARRATIVE, 1); (PROFESSIONAL, 1);
          (TECHNICAL, 1); (CREATIVE, 12 # 10)] /\
  forall ct,
    1 <= Py.get_default ct 1
           [(LEARNING, 1); (ENTERTAINMENT, 13 # 10); (NARRATIVE, 1); (PROFESSIONAL, 1);
            (TECHNICAL, 1); (CREATIVE, 12 # 10)] <= 1716 # 1000.
Proof.
  split; [vm_compute; reflexivity|].
  apply (structure_never_damps Re.literal_engine "wow!"). vm_compute. reflexivity.
Defined.

Lemma content_distribution_normalized_witness :
  is_blank "learn more" = false /\
  exists dist,
    get_content_distribution Re.literal_engine "learn more" = Some dist /\
    Py.keys dist = all_content_types.
Proof.
  split; [reflexivity|].
  destruct (content_distribution_normalized Re.literal_engine "learn more" eq_refl)
    as (dist & Hd & Hk & _).
  exists dist. split; assumption.
Defined.

Lemma classify_is_argmax_witness :
  classify_content Re.literal_engine "\bfun\b" = Some (ENTERTAINMENT, 64 # 64) /\
  64 # 64 ==
    Py.get_default ENTERTAINMENT 0
      [(LEARNING, 0 # 64); (ENTERTAINMENT, 64 # 64); (NARRATIVE, 0 # 64);
       (PROFESSIONAL, 0 # 64); (TECHNICAL, 0 # 64); (CREATIVE, 0 # 64)].
Proof.
  assert (Hc : classify_content Re.literal_engine "\bfun\b" = Some (ENTERTAINMENT, 64 # 64))
    by (vm_compute; reflexivity).
  assert (Hd : get_content_distribution Re.literal_engine "\bfun\b" =
               Some [(LEARNING, 0 # 64); (ENTERTAINMENT, 64 # 64); (NARRATIVE, 0 # 64);
                     (PROFESSIONAL, 0 # 64); (TECHNICAL, 0 # 64); (CREATIVE, 0 # 64)])
    by (vm_compute; reflexivity).
  split; [exact Hc|].
  apply (classify_is_argmax Re.literal_engine "\bfun\b" _ _ _ Hc Hd).
Defined.

(** *** Complexity metrics *)

Lemma rev_string_nonempty s acc : s <> EmptyString -> Py.rev_string s acc <> EmptyString.
Proof. intros Hs Hr. apply Hs. now apply PyFacts.rev_string_empty with acc. Qed.

(** The words found in a text are not empty. *)
Lemma words_go_nonempty s cur :
  Forall (fun w => w <> EmptyString) (Re.words_go s cur).
Proof.
  assert (Hflush : forall cur, Forall (fun w => w <> EmptyString) (Py.flush cur)).
  { intros [|c cur']; cbn [Py.flush]; [constructor|].
    constructor; [|constructor]. apply rev_string_nonempty. discriminate. }
  revert cur. induction s as [|c s IH]; intros cur; cbn [Re.words_go].
  - apply Hflush.
  - destruct (Py.is_word c); [apply IH|].
    apply Forall_app. split; [apply Hflush | apply IH].
Qed.

Lemma Qlen_cons {A} (x : A) (l : list A) : Qlen (x :: l) == Qlen l + 1.
Proof.
  unfold Qlen. cbn [length]. rewrite Nat2Z.inj_succ. unfold Z.succ.
  rewrite inject_Z_plus. reflexivity.
Qed.

Lemma Qlen_nonneg {A} (l : list A) : 0 <= Qlen l.
Proof. unfold Qlen, Qle. simpl. lia. Qed.

Lemma fold_sum_ge (f : string -> Q) (l : list string) (a : Q) :
  Forall (fun x => 1 <= f x) l -> a + Qlen l <= fold_left Qplus (map f l) a.
Proof.
  intros Hl. revert a. induction Hl as [|x l Hx Hl IH]; intros a; cbn [map fold_left].
  - assert (H0 : Qlen (@nil string) == 0) by reflexivity. rewrite H0. lra.
  - rewrite Qlen_cons. specialize (IH (a + f x)). lra.
Qed.

Lemma remove_dups_length (l : list string) : (length (remove_dups l) <= length l)%nat.
Proof.
  induction l as [|x l IH]; simpl; [lia|].
  destruct (decide_rel elem_of x l); simpl; lia.
Qed.

Lemma remove_dups_nonempty (x : string) (l : list string) : remove_dups (x :: l) <> [].
Proof.
  intros H. assert (Hin : x ∈ remove_dups (x :: l)).
  { apply elem_of_remove_dups. left. }
  rewrite H in Hin. inversion Hin.
Qed.

Lemma Qlen_le {A B} (l : list A) (l' : list B) :
  (length l <= length l')%nat -> Qlen l <= Qlen l'.
Proof. unfold Qlen, Qle. simpl. lia. Qed.

Lemma Qlen_pos_cons {A} (x : A) (l : list A) : 0 < Qlen (x :: l).
Proof. unfold Qlen, Qlt. simpl. lia. Qed.

(** The complexity metrics of a text: the readability score and the
    vocabulary richness lie between 0 and 1 and the averages are not
    negative; all four are 0 for a text without a word or without a
    sentence, and otherwise a word has at least one character on average,
    and the richness and the sentence length are positive. *)
Theorem complexity_bounds (text : string) :
  let m := analyze_complexity text in
  let words := Re.findall_words (Py.lower text) in
  let sentences := clean_sentences (Re.split_terminators text) in
  0 <= readability_score m <= 1 /\
  0 <= vocabulary_richness m <= 1 /\
  0 <= avg_sentence_length m /\ 0 <= avg_word_length m /\
  (words = [] \/ sentences = [] ->
   m = {| avg_word_length := 0; avg_sentence_length := 0;
          vocabulary_richness := 0; readability_score := 0 |}) /\
  (words <> [] -> sentences <> [] ->
   1 <= avg_word_length m /\ 0 < vocabulary_richness m /\ 0 < avg_sentence_length m).
Proof.
  cbv zeta. unfold analyze_complexity.
  pose proof (words_go_nonempty (Py.lower text) EmptyString) as Hne.
  fold (Re.findall_words (Py.lower text)) in Hne.
  destruct (Re.findall_words (Py.lower text)) as [|w ws] eqn:Hw.
  { cbn [readability_score vocabulary_richness avg_sentence_length avg_word_length].
    split; [split; lra|]. split; [split; lra|]. split; [lra|]. split; [lra|].
    split; [intros _; reflexivity | intros Hn; contradiction]. }
  destruct (clean_sentences (Re.split_terminators text)) as [|s ss] eqn:Hs.
  { cbn [readability_score vocabulary_richness avg_sentence_length avg_word_length].
    split; [split; lra|]. split; [split; lra|]. split; [lra|]. split; [lra|].
    split; [intros _; reflexivity | intros _ Hn; contradiction]. }
  cbn [readability_score vocabulary_richness avg_sentence_length avg_word_length].
  set (words := w :: ws) in *. set (sentences := s :: ss).
  assert (Hlw : 0 < Qlen words) by apply Qlen_pos_cons.
  assert (Hls : 0 < Qlen sentences) by apply Qlen_pos_cons.
  assert (Hsum : Qlen words <= Py.sum (map (fun word => Qnat (String.length word)) words)).
  { unfold Py.sum.
    pose proof (fold_sum_ge (fun word => Qnat (String.length word)) words 0) as Hf.
    rewrite Qplus_0_l in Hf. apply Hf.
    eapply List.Forall_impl; [|exact Hne]. intros x Hx. simpl in Hx.
    destruct x; [contradiction|]. unfold Qnat, Qle. simpl. lia. }
  assert (Hru : 0 < Qlen (remove_dups words)).
  { pose proof (remove_dups_nonempty w ws) as Hr. fold words in Hr.
    destruct (remove_dups words); [contradiction | apply Qlen_pos_cons]. }
  assert (Hrl : Qlen (remove_dups words) <= Qlen words).
  { apply Qlen_le, remove_dups_length. }
  assert (Hawl : 1 <= Py.sum (map (fun word => Qnat (String.length word)) words) / Qlen words).
  { apply Qle_shift_div_l; [exact Hlw | lra]. }
  assert (Hrich : 0 < Qlen (remove_dups words) / Qlen words <= 1).
  { split; [apply Qlt_shift_div_l | apply Qle_shift_div_r]; lra. }
  assert (Hasl : 0 < Qlen words / Qlen sentences).
  { apply Qlt_shift_div_l; lra. }
  split.
  { split; [apply Q.le_max_l|]. apply Q.max_lub; [lra | apply Q.le_min_l]. }
  split; [lra|]. split; [lra|]. split; [lra|].
  split; [intros [H|H]; discriminate|].
  intros _ _. split; [exact Hawl|]. split; lra.
Qed.

End ClassifierExtras.

(** * The analysis of an empty or whitespace-only text *)
Module BlankFacts.
Import Models ContentAnalyzer TextProps BlankProps.

Local Open Scope string_scope.

Lemma space_not_upper c : Py.is_space c = true -> Py.is_upper c = false.
Proof. destruct c as [[] [] [] [] [] [] [] []]; vm_compute; congruence. Qed.

Lemma space_not_word c : Py.is_space c = true -> Py.is_word c = false.
Proof. destruct c as [[] [] [] [] [] [] [] []]; vm_compute; congruence. Qed.

Lemma space_not_terminator c : Py.is_space c = true -> Re.is_terminator c = false.
Proof. destruct c as [[] [] [] [] [] [] [] []]; vm_compute; congruence. Qed.

Lemma all_space_rev s acc :
  all_space (Py.rev_string s acc) = all_space s && all_space acc.
Proof.
  revert acc. induction s as [|c s IH]; intros acc; simpl; [reflexivity|].
  rewrite IH. simpl. rewrite !andb_assoc. f_equal. apply andb_comm.
Qed.

Lemma lower_all_space s : all_space s = true -> Py.lower s = s.
Proof.
  induction s as [|c s IH]; simpl; [reflexivity|].
  intros [Hc Hs]%andb_true_iff. rewrite (IH Hs). unfold Py.lower_char.
  now rewrite (space_not_upper c Hc).
Qed.

Lemma findall_words_all_space s : all_space s = true -> Re.findall_words s = [].
Proof.
  unfold Re.findall_words.
  induction s as [|c s IH]; simpl; [reflexivity|].
  intros [Hc Hs]%andb_true_iff. rewrite (space_not_word c Hc). simpl. auto.
Qed.

Lemma split_terminators_all_space s cur :
  all_space s = true -> all_space cur = true ->
  exists x, Re.split_terminators_go false s cur = [x] /\ all_space x = true.
Proof.
  revert cur. induction s as [|c s IH]; simpl; intros cur Hs Hcur.
  - eexists. split; [reflexivity|]. rewrite all_space_rev. now rewrite Hcur.
  - apply andb_true_iff in Hs as [Hc Hs]. rewrite (space_not_terminator c Hc).
    apply IH; [exact Hs|]. simpl. now rewrite Hc.
Qed.

Lemma split_sentences_all_space s : all_space s = true -> _split_sentences s = [].
Proof.
  intros Hs. unfold _split_sentences, Re.split_terminators.
  destruct (split_terminators_all_space s EmptyString Hs eq_refl) as (x & -> & Hx).
  unfold ContentClassifier.clean_sentences. simpl.
  now rewrite (PyFacts.strip_all_space x Hx).
Qed.

Lemma extract_keywords_all_space s : all_space s = true -> _extract_keywords s = [].
Proof.
  intros Hs. unfold _extract_keywords.
  now rewrite (lower_all_space s Hs), (findall_words_all_space s Hs).
Qed.

Lemma assess_difficulty_all_space s : all_space s = true -> _assess_difficulty s = EASY.
Proof.
  intros Hs. unfold _assess_difficulty, ContentClassifier.analyze_complexity.
  now rewrite (lower_all_space s Hs), (findall_words_all_space s Hs).
Qed.

Lemma build_profile_all_space textblob re s :
  all_space s = true -> build_profile textblob re s = Some blank_profile.
Proof.
  intros Hs. unfold build_profile, _extract_key_themes.
  unfold EmotionDetector.detect_emotion, EmotionDetector.is_blank,
    ContentClassifier.classify_content, ContentClassifier.get_content_distribution,
    ContentClassifier.is_blank, EmotionDetector.get_emotion_distribution.
  rewrite (DistributionFacts.is_blank_all_space s), Hs.
  rewrite (assess_difficulty_all_space s Hs). reflexivity.
Qed.

End BlankFacts.

(** * Facts about the keywords *)
Module KeywordFacts.
Import ContentAnalyzer KeywordProps.

Lemma mem_iff x l : Py.mem x l = true <-> In x l.
Proof.
  unfold Py.mem. rewrite existsb_exists. split.
  - intros (y & Hy & He). apply String.eqb_eq in He. now subst.
  - intros Hx. exists x. split; [exact Hx | apply String.eqb_refl].
Qed.

Lemma get_count_up k w (c : list (string * nat)) :
  Py.get k (count_up w c) =
  if decide (k = w) then Some (S (Py.get_default w 0%nat c)) else Py.get k c.
Proof.
  unfold Py.get_default.
  induction c as [|[w' n] c IH]; simpl.
  - destruct (decide (k = w)); reflexivity.
  - destruct (String.eqb_spec w w') as [->|Hne]; simpl.
    + destruct (decide (k = w')) as [->|Hk].
      * now destruct (decide (w' = w')).
      * reflexivity.
    + destruct (decide (w = w')) as [|_]; [contradiction|].
      destruct (decide (k = w')) as [->|Hk].
      * destruct (decide (w' = w)); [congruence | reflexivity].
      * exact IH.
Qed.

Lemma keys_count_up w (c : list (string * nat)) :
  Py.keys (count_up w c) =
  if Py.mem w (Py.keys c) then Py.keys c else (Py.keys c ++ [w])%list.
Proof.
  unfold Py.keys, Py.mem.
  induction c as [|[w' n] c IH]; simpl; [reflexivity|].
  destruct (String.eqb_spec w w') as [->|Hne]; simpl; [reflexivity|].
  rewrite IH. now destruct (existsb _ _).
Qed.

Lemma Counter_snoc l w : Counter (l ++ [w]) = count_up w (Counter l).
Proof. unfold Counter. now rewrite fold_left_app. Qed.

(** [Counter(words)[k]] is the number of occurrences of [k]; a word that
    does not occur has no entry. *)
Lemma get_Counter l k :
  Py.get k (Counter l) = match count l k with O => None | n => Some n end.
Proof.
  induction l as [|w l IH] using rev_ind; [reflexivity|].
  rewrite Counter_snoc, get_count_up. unfold count in *.
  rewrite count_occ_app. simpl.
  destruct (decide (k = w)) as [->|Hne].
  - destruct (string_dec w w) as [_|]; [|contradiction].
    unfold Py.get_default. rewrite IH. rewrite Nat.add_1_r.
    now destruct (count_occ string_dec l w).
  - destruct (string_dec w k) as [|_]; [congruence|].
    now rewrite Nat.add_0_r.
Qed.

Lemma NoDup_keys_Counter l : List.NoDup (Py.keys (Counter l)).
Proof.
  induction l as [|w l IH] using rev_ind; [constructor|].
  rewrite Counter_snoc, keys_count_up.
  destruct (Py.mem w (Py.keys (Counter l))) eqn:Hm; [exact IH|].
  apply NoDup_ListNoDup, NoDup_app. split; [now apply NoDup_ListNoDup|].
  split; [|apply NoDup_ListNoDup; repeat constructor; simpl; tauto].
  intros x Hx Hw. apply list_elem_of_In in Hx, Hw. destruct Hw as [<-|[]].
  apply mem_iff in Hx. congruence.
Qed.

Lemma In_get {V} (d : list (string * V)) k v :
  List.NoDup (Py.keys d) -> In (k, v) d -> Py.get k d = Some v.
Proof.
  unfold Py.keys. induction d as [|[k' v'] d IH]; simpl; [tauto|].
  intros Hnd [Heq|Hin].
  - injection Heq as -> ->. now destruct (decide (k = k)).
  - inversion Hnd as [|? ? Hk Hd]; subst.
    destruct (decide (k = k')) as [->|_]; [|now apply IH].
    exfalso. apply Hk. now apply (in_map fst) in Hin.
Qed.

(** The entries of the counter: the words that occur, each with its number
    of occurrences. *)
Lemma In_Counter l k n :
  In (k, n) (Counter l) <-> (n = count l k /\ In k l).
Proof.
  split.
  - intros Hin. apply (In_get _ _ _ (NoDup_keys_Counter l)) in Hin.
    rewrite get_Counter in Hin. unfold count in *.
    destruct (count_occ string_dec l k) eqn:Hc; [discriminate|].
    injection Hin as <-. split; [reflexivity|].
    apply (count_occ_In string_dec). lia.
  - intros [-> Hin]. apply PyFacts.get_In. rewrite get_Counter.
    apply (count_occ_In string_dec) in Hin. unfold count.
    destruct (count_occ string_dec l k); [lia | reflexivity].
Qed.

Lemma insert_desc_perm x l : Permutation (insert_desc x l) (x :: l).
Proof.
  induction l as [|y l IH]; simpl; [reflexivity|].
  destruct (snd x <? snd y)%nat; [|reflexivity].
  rewrite IH. apply perm_swap.
Qed.

Lemma sort_perm c : Permutation (fold_right insert_desc [] c) c.
Proof.
  induction c as [|x c IH]; simpl; [reflexivity|].
  rewrite insert_desc_perm. now constructor.
Qed.

Lemma insert_desc_descending x l : descending l -> descending (insert_desc x l).
Proof.
  induction l as [|y l IH]; simpl; intros Hd.
  - split; [constructor | exact I].
  - destruct Hd as [Hy Hd]. destruct (Nat.ltb_spec (snd x) (snd y)) as [Hlt|Hge]; simpl.
    + split; [|now apply IH].
      apply List.Forall_forall. intros z Hz.
      apply (Permutation_in _ (insert_desc_perm x l)) in Hz. destruct Hz as [<-|Hz]; [lia|].
      now apply (proj1 (List.Forall_forall _ _) Hy).
    + split; [|split; assumption].
      constructor; [exact Hge|].
      eapply List.Forall_impl; [|exact Hy]. simpl. intros; lia.
Qed.

Lemma sort_descending c : descending (fold_right insert_desc [] c).
Proof.
  induction c as [|x c IH]; simpl; [exact I | now apply insert_desc_descending].
Qed.

Lemma descending_app l1 l2 x y :
  descending (l1 ++ l2) -> In x l1 -> In y l2 -> (snd y <= snd x)%nat.
Proof.
  induction l1 as [|z l1 IH]; simpl; [tauto|].
  intros [Hz Hd] [->|Hx] Hy.
  - apply (proj1 (List.Forall_forall _ _) Hz). apply in_or_app. now right.
  - now apply IH.
Qed.

Lemma descending_lookup l i j x y :
  descending l -> (i < j)%nat -> l !! i = Some x -> l !! j = Some y ->
  (snd y <= snd x)%nat.
Proof.
  revert i j. induction l as [|z l IH]; intros i j Hd Hij Hi Hj; [destruct i; discriminate|].
  destruct Hd as [Hz Hd]. destruct j as [|j]; [lia|]. simpl in Hj.
  destruct i as [|i].
  - injection Hi as <-. apply (proj1 (List.Forall_forall _ _) Hz).
    apply list_elem_of_In. eapply list_elem_of_lookup_2; eauto.
  - simpl in Hi. apply (IH i j); auto. lia.
Qed.

Lemma count_filter (f : string -> bool) l w :
  count (List.filter f l) w = if f w then count l w else 0%nat.
Proof.
  unfold count. induction l as [|x l IH]; simpl; [now destruct (f w)|].
  destruct (f x) eqn:Hx; simpl; rewrite IH.
  - destruct (string_dec x w) as [->|]; [now rewrite Hx | reflexivity].
  - destruct (string_dec x w) as [->|]; [now rewrite Hx | reflexivity].
Qed.

End KeywordFacts.

Module KeywordExtras.
Import ContentAnalyzer KeywordProps KeywordFacts.

(** [_extract_keywords] returns at most 20 distinct words of the lowered
    text, none a stop word and each longer than two characters, the more
    frequent first; a word that passes the filter is left out only when 20
    keywords are returned, none of them less frequent than it. *)
Theorem keywords_are_top_candidates (text : string) :
  let words := Re.findall_words (Py.lower text) in
  let kws := _extract_keywords text in
  (length kws <= 20)%nat /\ List.NoDup kws /\
  (forall k, In k kws -> In k words /\ candidate k = true) /\
  (forall i j k k', (i < j)%nat -> kws !! i = Some k -> kws !! j = Some k' ->
     (count words k' <= count words k)%nat) /\
  (forall w, In w words -> candidate w = true ->
     In w kws \/
     (length kws = 20%nat /\ forall k, In k kws -> (count words w <= count words k)%nat)).
Proof.
  cbv zeta. unfold _extract_keywords, most_common.
  fold candidate. change (fun word => candidate word) with candidate.
  set (words := Re.findall_words (Py.lower text)).
  set (filtered := List.filter candidate words).
  set (sorted := fold_right insert_desc [] (Counter filtered)).
  assert (Hperm : Permutation sorted (Counter filtered)) by apply sort_perm.
  assert (Hdesc : descending sorted) by apply sort_descending.
  assert (Hentry : forall k n, In (k, n) sorted ->
            n = count words k /\ In k words /\ candidate k = true).
  { intros k n Hin. apply (Permutation_in _ Hperm) in Hin.
    apply In_Counter in Hin as [-> Hin].
    apply filter_In in Hin as [Hin Hc].
    unfold filtered. rewrite count_filter, Hc. auto. }
  assert (Hnd : List.NoDup (map fst sorted)).
  { apply NoDup_ListNoDup. rewrite (Permutation_map fst Hperm).
    apply NoDup_ListNoDup, NoDup_keys_Counter. }
  split; [rewrite length_map; apply firstn_le_length|].
  split.
  { rewrite <- firstn_map. apply NoDup_ListNoDup.
    apply sublist_NoDup with (map fst sorted); [now apply NoDup_ListNoDup|].
    apply sublist_take. }
  split.
  { intros k Hk. apply in_map_iff in Hk as ([k0 n] & <- & Hin).
    apply list_elem_of_In, subseteq_take, list_elem_of_In in Hin.
    destruct (Hentry _ _ Hin) as (_ & H1 & H2). auto. }
  split.
  { intros i j k k' Hij Hi Hj.
    rewrite list_lookup_fmap in Hi, Hj.
    destruct (take 20 sorted !! i) as [[k0 n]|] eqn:Ei; [|discriminate].
    destruct (take 20 sorted !! j) as [[k1 n']|] eqn:Ej; [|discriminate].
    injection Hi as <-. injection Hj as <-.
    apply lookup_take_Some in Ei as [Ei _]. apply lookup_take_Some in Ej as [Ej _].
    pose proof (descending_lookup _ _ _ _ _ Hdesc Hij Ei Ej) as Hle. simpl in Hle.
    apply list_elem_of_lookup_2, list_elem_of_In, Hentry in Ei as [-> _].
    apply list_elem_of_lookup_2, list_elem_of_In, Hentry in Ej as [-> _].
    exact Hle. }
  intros w Hw Hc.
  assert (Hin : In (w, count words w) sorted).
  { apply (Permutation_in _ (Permutation_sym Hperm)). apply In_Counter.
    unfold filtered. rewrite count_filter, Hc. split; [reflexivity|].
    apply filter_In. auto. }
  rewrite <- (take_drop 20 sorted) in Hin, Hdesc.
  apply in_app_or in Hin as [Hin|Hin].
  - left. apply in_map_iff. exists (w, count words w). auto.
  - right. split.
    + rewrite length_map, length_take.
      assert (20 < length sorted)%nat; [|lia].
      destruct (Nat.lt_ge_cases 20 (length sorted)) as [|Hle]; [assumption|].
      rewrite drop_ge in Hin by lia. destruct Hin.
    + intros k Hk. apply in_map_iff in Hk as ([k0 n] & <- & Hk).
      pose proof (descending_app _ _ _ _ Hdesc Hk Hin) as Hle. simpl in Hle.
      apply list_elem_of_In, subseteq_take, list_elem_of_In, Hentry in Hk as [-> _].
      exact Hle.
Qed.

End KeywordExtras.

(** * Further properties of the content analyzer *)
Module AnalyzerExtras.
Import Models ContentAnalyzer AnalyzerProps AnalyzerFacts.

#[local] Arguments Qplus : simpl never.
#[local] Arguments Qmult : simpl never.
#[local] Arguments Qdiv : simpl never.
#[local] Arguments Qminus : simpl never.
#[local] Arguments Py.Qgtb : simpl never.

Section WithEnvironment.
Variable textblob : option (string -> option (Q * Q)).
Variable re : Re.engine.
Variable time : nat -> Q.

#[local] Abbreviation analyze := (ContentAnalyzer.analyze textblob re time).
#[local] Abbreviation analyze_batch := (ContentAnalyzer.analyze_batch textblob re time).
#[local] Abbreviation wf := (AnalyzerProps.wf textblob re).
#[local] Abbreviation reachable := (AnalyzerProps.reachable textblob re time).
#[local] Abbreviation same_analysis := AnalyzerProps.same_analysis.

(** A call adds one entry of [len(text)] characters to the cache when the
    text is not cached, and leaves the statistics as they are when it is;
    [clear_cache] brings them back to zero. *)
Theorem cache_stats_after_analyze (text : string) (st : state) :
  reachable st ->
  exists a st',
    analyze text true st = Some (a, st') /\
    (analysis_cache st !! text = None ->
     cache_size (get_cache_stats st') = S (cache_size (get_cache_stats st)) /\
     total_cached_chars (get_cache_stats st') =
       (String.length text + total_cached_chars (get_cache_stats st))%nat) /\
    (is_Some (analysis_cache st !! text) -> get_cache_stats st' = get_cache_stats st) /\
    get_cache_stats (clear_cache st') = {| cache_size := 0; total_cached_chars := 0 |}.
Proof.
  intros Hreach. apply analyzer_reachable_wf in Hreach.
  assert (Hclear : forall s, get_cache_stats (clear_cache s) =
                             {| cache_size := 0; total_cached_chars := 0 |}).
  { intros s. unfold get_cache_stats, clear_cache. simpl.
    now rewrite map_size_empty, map_fold_empty. }
  destruct (analysis_cache st !! text) as [a|] eqn:Hc.
  - destruct (analyze_hit textblob re time text st a Hreach Hc)
      as (r & st' & Ha & _ & _ & Hcache).
    exists a, st'. split; [exact Ha|]. split; [discriminate|].
    split; [|apply Hclear].
    intros _. unfold get_cache_stats. now rewrite Hcache.
  - destruct (analyze_miss textblob re time text true st Hc)
      as (r & st' & Ha & _ & _ & Hcache).
    exists (length (heap st)), st'. split; [exact Ha|]. split; [|split; [|apply Hclear]].
    + intros _. unfold get_cache_stats. rewrite Hcache. simpl. split.
      * now apply map_size_insert_None.
      * rewrite map_fold_insert_L; [reflexivity | | exact Hc].
        intros j1 j2 z1 z2 y _ _ _. lia.
    + intros [x Hx]. discriminate.
Qed.

(** A cached entry stays where it is through a call with caching. *)
Lemma analyze_keeps_entries text st a st' :
  wf st -> analyze text true st = Some (a, st') ->
  forall k v, analysis_cache st !! k = Some v -> analysis_cache st' !! k = Some v.
Proof.
  intros Hwf Ha k v Hk.
  destruct (analysis_cache st !! text) as [a0|] eqn:Hc.
  - destruct (analyze_hit textblob re time text st a0 Hwf Hc)
      as (r & st0 & Ha0 & _ & _ & Hcache).
    rewrite Ha in Ha0. injection Ha0 as _ <-. now rewrite Hcache.
  - destruct (analyze_miss textblob re time text true st Hc)
      as (r & st0 & Ha0 & _ & _ & Hcache).
    rewrite Ha in Ha0. injection Ha0 as _ <-. rewrite Hcache.
    rewrite lookup_insert_ne; [exact Hk|]. intros ->. congruence.
Qed.

Lemma analyze_batch_cached_spec texts st :
  wf st ->
  exists addrs st',
    analyze_batch texts true st = Some (addrs, st') /\ wf st' /\
    (forall k v, analysis_cache st !! k = Some v -> analysis_cache st' !! k = Some v) /\
    forall i t, texts !! i = Some t -> analysis_cache st' !! t = addrs !! i.
Proof.
  revert st. induction texts as [|text texts IH]; intros st Hwf.
  - exists [], st. split; [reflexivity|]. split; [exact Hwf|]. split; [auto|].
    intros i t Hi. destruct i; discriminate.
  - destruct (analyze_spec textblob re time text true st Hwf)
      as (a & st1 & r & Ha & Hwf1 & _ & _ & _ & Hc1).
    specialize (Hc1 eq_refl).
    destruct (IH st1 Hwf1) as (addrs & st2 & Hb & Hwf2 & Hmono & Hall).
    exists (a :: addrs), st2. cbn [ContentAnalyzer.analyze_batch]. rewrite Ha, Hb.
    split; [reflexivity|]. split; [exact Hwf2|]. split.
    + intros k v Hk. apply Hmono. now apply (analyze_keeps_entries text st a st1).
    + intros [|i] t Hi.
      * injection Hi as <-. simpl. now apply Hmono.
      * simpl. now apply Hall.
Qed.

(** With caching, a batch returns for every text the object the cache
    holds under it afterwards: equal texts of a batch share one result
    object. *)
Theorem analyze_batch_shares_results (texts : list string) (st : state) :
  reachable st ->
  exists addrs st',
    analyze_batch texts true st = Some (addrs, st') /\
    (forall i t, texts !! i = Some t -> analysis_cache st' !! t = addrs !! i) /\
    (forall i j t, texts !! i = Some t -> texts !! j = Some t -> addrs !! i = addrs !! j).
Proof.
  intros Hreach. apply analyzer_reachable_wf in Hreach.
  destruct (analyze_batch_cached_spec texts st Hreach) as (addrs & st' & Hb & _ & _ & Hall).
  exists addrs, st'. split; [exact Hb|]. split; [exact Hall|].
  intros i j t Hi Hj. now rewrite <- (Hall i t Hi), <- (Hall j t Hj).
Qed.

(** Without caching, every result of a batch is a new object: the addresses
    are the next free ones, in order, and the cache is left as it is. *)
Theorem analyze_batch_uncached_fresh (texts : list string) (st : state) :
  exists st',
    analyze_batch texts false st =
      Some (seq (length (heap st)) (length texts), st') /\
    analysis_cache st' = analysis_cache st /\
    length (heap st') = (length (heap st) + length texts)%nat.
Proof.
  revert st. induction texts as [|text texts IH]; intros st.
  - exists st. split; [reflexivity|]. split; [reflexivity | simpl; lia].
  - destruct (analyze_miss textblob re time text false st eq_refl)
      as (r & st1 & Ha & _ & Hh & Hc).
    destruct (IH st1) as (st2 & Hb & Hc2 & Hl2).
    exists st2. cbn [ContentAnalyzer.analyze_batch]. rewrite Ha, Hb.
    assert (Hl1 : length (heap st1) = S (length (heap st))).
    { rewrite Hh, length_app. simpl. lia. }
    rewrite Hl1. split; [reflexivity|]. split; [congruence | simpl; lia].
Qed.

(** The object a call returns carries the duration of that call, hit or
    miss. *)
Lemma analyze_time text st a st' :
  wf st -> analyze text true st = Some (a, st') ->
  exists r, heap st' !! a = Some r /\
    processing_time r = (time (S (ticks st)) - time (ticks st))%Q /\
    ticks st' = S (S (ticks st)).
Proof.
  intros Hwf Ha. unfold ContentAnalyzer.analyze in Ha.
  destruct (analysis_cache st !! text) as [a0|] eqn:Hc.
  - destruct (heap st !! a0) as [r0|] eqn:Hr; [|discriminate].
    injection Ha as <- <-. simpl. eexists. split.
    + apply list_lookup_insert_eq. eapply lookup_lt_Some; eauto.
    + split; reflexivity.
  - destruct (ContentAnalyzer.build_profile textblob re text); [|discriminate].
    injection Ha as <- <-. simpl. eexists. split.
    + rewrite lookup_app_r by lia. now rewrite Nat.sub_diag.
    + split; reflexivity.
Qed.

(** A cache hit overwrites the [processing_time] of the cached object: after
    a second call on the same text, the result the first call returned
    shows the duration of the second call, no longer its own. *)
Theorem cache_hit_refreshes_time (text : string) (st : state) :
  reachable st ->
  exists a st1 st2 r1 r2,
    analyze text true st = Some (a, st1) /\
    analyze text true st1 = Some (a, st2) /\
    heap st1 !! a = Some r1 /\ heap st2 !! a = Some r2 /\
    processing_time r1 == time (S (ticks st)) - time (ticks st) /\
    processing_time r2 == time (S (ticks st1)) - time (ticks st1) /\
    ticks st1 = S (S (ticks st)) /\
    same_analysis r1 r2.
Proof.
  intros Hreach. apply analyzer_reachable_wf in Hreach.
  destruct (analyze_spec textblob re time text true st Hreach)
    as (a & st1 & r1 & Ha & Hwf1 & _ & Hr1 & _ & Hc1).
  specialize (Hc1 eq_refl).
  destruct (analyze_time text st a st1 Hreach Ha) as (r1' & Hr1' & Ht1 & Hticks).
  rewrite Hr1 in Hr1'. injection Hr1' as <-.
  destruct (analyze_spec textblob re time text true st1 Hwf1)
    as (a2 & st2 & r2 & Ha2 & _ & Hpres & Hr2 & _ & _).
  assert (a2 = a) as ->.
  { destruct (analyze_hit textblob re time text st1 a Hwf1 Hc1) as (r & st2' & Ha2' & _).
    congruence. }
  destruct (analyze_time text st1 a st2 Hwf1 Ha2) as (r2' & Hr2' & Ht2 & _).
  rewrite Hr2 in Hr2'. injection Hr2' as <-.
  destruct (Hpres a r1 Hr1) as (r2' & Hr2' & Hsame).
  rewrite Hr2 in Hr2'. injection Hr2' as <-.
  exists a, st1, st2, r1, r2.
  rewrite Ht1, Ht2. repeat split; try assumption; try reflexivity; apply Hsame.
Qed.

(** The analysis of an empty or whitespace-only text: the neutral emotion
    and the professional type with intensity and confidence 0, easy
    difficulty, 225 words per minute, the theme [professional_minimal], and
    no word, sentence, key theme or keyword. *)
Theorem analyze_blank_text (text : string) (use_cache : bool) (st : state) :
  reachable st -> TextProps.all_space text = true ->
  exists a st' r,
    analyze text use_cache st = Some (a, st') /\ heap st' !! a = Some r /\
    Models.text r = text /\
    emotion (profile r) = NEUTRAL /\ emotion_intensity (profile r) == 0 /\
    content_type (profile r) = PROFESSIONAL /\ confidence (profile r) == 0 /\
    difficulty (profile r) = EASY /\ reading_speed (profile r) == 225 /\
    key_themes (profile r) = [] /\
    recommended_theme (profile r) = "professional_minimal"%string /\
    word_count r = 0%nat /\ character_count r = String.length text /\
    sentences r = [] /\ keywords r = [].
Proof.
  intros Hreach Hs. apply analyzer_reachable_wf in Hreach.
  destruct (analyze_spec textblob re time text use_cache st Hreach)
    as (a & st' & r & Ha & _ & _ & Hr & Han & _).
  destruct Han as (Ht & Hp & Hw & Hc & Hse & Hk).
  rewrite (BlankFacts.build_profile_all_space textblob re text Hs) in Hp.
  injection Hp as Hp.
  rewrite (BlankFacts.split_sentences_all_space text Hs) in Hse.
  rewrite (BlankFacts.extract_keywords_all_space text Hs) in Hk.
  unfold Py.split in Hw. rewrite (PyFacts.split_go_all_space text Hs) in Hw.
  exists a, st', r. rewrite <- Hp. simpl.
  repeat split; try assumption; reflexivity.
Qed.

(** The content themes of [_extract_key_themes] are never cut off: at most
    four content types have a share above 0.2, so each of them is among the
    at most five key themes, before every emotion theme; and every key theme
    comes from a share above 0.2. *)
Theorem key_themes_keep_content_types (text : string) :
  exists themes dist,
    ContentAnalyzer._extract_key_themes re text = Some themes /\
    ContentClassifier.get_content_distribution re text = Some dist /\
    (length themes <= 5)%nat /\
    (forall ct, 2 # 10 < Py.get_default ct 0 dist -> In (content_value ct) themes) /\
    (forall t, In t themes ->
       (exists ct share, In (ct, share) dist /\ 2 # 10 < share /\ t = content_value ct) \/
       (exists e share, In (e, share) (EmotionDetector.get_emotion_distribution text) /\
          2 # 10 < share /\ t = (emotion_value e ++ "_emotion")%string)).
Proof.
  assert (Hview : exists a b c d e f,
            ContentClassifier.get_content_distribution re text =
              Some [(LEARNING, a); (ENTERTAINMENT, b); (NARRATIVE, c); (PROFESSIONAL, d);
                    (TECHNICAL, e); (CREATIVE, f)] /\
            (0 <= a /\ 0 <= b /\ 0 <= c /\ 0 <= d /\ 0 <= e /\ 0 <= f) /\
            a + b + c + d + e + f <= 1).
  { unfold ContentClassifier.get_content_distribution.
    destruct (ContentClassifier.is_blank text) eqn:Hb.
    - exists 0, 0, 0, 0, 0, 0. split; [reflexivity|]. split; [repeat split|]; lra.
    - destruct (ClassifierExtras.boosted_scores_view re text Hb)
        as (boost & L & E & N & P & T & C & -> & -> & Hpos & _).
      set (total := Py.sum _).
      assert (Ht : total == L + E + N + P + T + C).
      { unfold total, Py.sum. simpl. ring. }
      clearbody total.
      destruct (Py.Qgtb total 0) eqn:Hgt.
      + apply PyFacts.Qgtb_true in Hgt. simpl.
        eexists _, _, _, _, _, _. split; [reflexivity|]. split.
        * repeat split; apply Qle_shift_div_l; lra.
        * assert (Hs : L / total + E / total + N / total + P / total + T / total + C / total == 1)
            by (field_simplify_eq; lra).
          rewrite Hs. lra.
      + apply PyFacts.Qgtb_false in Hgt.
        exists L, E, N, P, T, C. split; [reflexivity|]. split; [tauto | lra]. }
  destruct Hview as (a & b & c & d & e & f & Hd & Hpos & Hsum).
  unfold ContentAnalyzer._extract_key_themes. rewrite Hd.
  set (dist := [(LEARNING, a); _; _; _; _; _]).
  set (cts := List.filter _ dist).
  set (ems := List.filter _ (EmotionDetector.get_emotion_distribution text)).
  assert (Hlen : (length cts <= 4)%nat).
  { unfold cts, dist. simpl.
    destruct (Py.Qgtb a (2 # 10)) eqn:Ha, (Py.Qgtb b (2 # 10)) eqn:Hb,
      (Py.Qgtb c (2 # 10)) eqn:Hc, (Py.Qgtb d (2 # 10)) eqn:Hdd,
      (Py.Qgtb e (2 # 10)) eqn:He, (Py.Qgtb f (2 # 10)) eqn:Hf; simpl; try lia;
      exfalso;
      repeat match goal with
             | H : Py.Qgtb _ _ = true |- _ => apply PyFacts.Qgtb_true in H
             | H : Py.Qgtb _ _ = false |- _ => clear H
             end; lra. }
  eexists _, dist. split; [reflexivity|]. split; [reflexivity|].
  split; [apply firstn_le_length|]. split.
  - intros ct Hct. rewrite firstn_app. apply in_or_app. left.
    rewrite firstn_all2 by (rewrite length_map; lia).
    apply (in_map (fun kv => content_value (fst kv)) cts (ct, Py.get_default ct 0 dist)).
    apply filter_In. split.
    + destruct ct; unfold Py.get_default; simpl; tauto.
    + now apply PyFacts.Qgtb_true.
  - intros t Ht. apply list_elem_of_In, subseteq_take, list_elem_of_In in Ht.
    apply in_app_or in Ht as [Ht|Ht].
    + left. apply in_map_iff in Ht as ([ct share] & <- & Hin).
      apply filter_In in Hin as [Hin Hgt]. apply PyFacts.Qgtb_true in Hgt.
      exists ct, share. auto.
    + right. apply in_map_iff in Ht as ([em share] & <- & Hin).
      apply filter_In in Hin as [Hin Hgt]. apply PyFacts.Qgtb_true in Hgt.
      exists em, share. auto.
Qed.

End WithEnvironment.

Lemma cache_stats_after_analyze_witness :
  exists a st',
    analyze None Re.literal_engine seconds "so happy" true init = Some (a, st') /\
    (analysis_cache init !! "so happy"%string = None ->
     cache_size (get_cache_stats st') = S (cache_size (get_cache_stats init)) /\
     total_cached_chars (get_cache_stats st') =
       (String.length "so happy" + total_cached_chars (get_cache_stats init))%nat) /\
    (is_Some (analysis_cache init !! "so happy"%string) ->
     get_cache_stats st' = get_cache_stats init) /\
    get_cache_stats (clear_cache st') = {| cache_size := 0; total_cached_chars := 0 |}.
Proof.
  apply (cache_stats_after_analyze None Re.literal_engine seconds "so happy" init).
  apply reachable_init.
Defined.

Lemma analyze_batch_shares_results_witness :
  exists addrs st',
    analyze_batch None Re.literal_engine seconds ["a"; "b"; "a"]%string true init =
      Some (addrs, st') /\
    (forall i t, (["a"; "b"; "a"]%string : list string) !! i = Some t ->
       analysis_cache st' !! t = addrs !! i) /\
    (forall i j t, (["a"; "b"; "a"]%string : list string) !! i = Some t ->
       (["a"; "b"; "a"]%string : list string) !! j = Some t -> addrs !! i = addrs !! j).
Proof.
  apply (analyze_batch_shares_results None Re.literal_engine seconds
           ["a"; "b"; "a"]%string init).
  apply reachable_init.
Defined.

Lemma cache_hit_refreshes_time_witness :
  exists a st1 st2 r1 r2,
    analyze None Re.literal_engine seconds "so happy" true init = Some (a, st1) /\
    analyze None Re.literal_engine seconds "so happy" true st1 = Some (a, st2) /\
    heap st1 !! a = Some r1 /\ heap st2 !! a = Some r2 /\
    processing_time r1 == seconds (S (ticks init)) - seconds (ticks init) /\
    processing_time r2 == seconds (S (ticks st1)) - seconds (ticks st1) /\
    ticks st1 = S (S (ticks init)) /\
    same_analysis r1 r2.
Proof.
  apply (cache_hit_refreshes_time None Re.literal_engine seconds "so happy" init).
  apply reachable_init.
Defined.

Lemma analyze_blank_text_witness :
  exists a st' r,
    analyze None Re.literal_engine seconds "  " true init = Some (a, st') /\
    heap st' !! a = Some r /\
    Models.text r = "  "%string /\
    emotion (profile r) = NEUTRAL /\ emotion_intensity (profile r) == 0 /\
    content_type (profile r) = PROFESSIONAL /\ confidence (profile r) == 0 /\
    difficulty (profile r) = EASY /\ reading_speed (profile r) == 225 /\
    key_themes (profile r) = [] /\
    recommended_theme (profile r) = "professional_minimal"%string /\
    word_count r = 0%nat /\ character_count r = 2%nat /\
    sentences r = [] /\ keywords r = [].
Proof.
  apply (analyze_blank_text None Re.literal_engine seconds "  " true init).
  - apply reachable_init.
  - reflexivity.
Defined.

End AnalyzerExtras.

(** * Further properties of the theme generator *)
Module ThemeExtras.
Import Models ThemeGenerator TextProps ThemeProps ThemeFacts.

Local Open Scope string_scope.
#[local] Arguments String.append : simpl nomatch.

Lemma emotion_value_inj e e' : emotion_value e = emotion_value e' -> e = e'.
Proof. destruct e, e'; simpl; intros H; congruence. Qed.

Lemma content_value_inj c c' : content_value c = content_value c' -> c = c'.
Proof. destruct c, c'; simpl; intros H; congruence. Qed.

Lemma difficulty_value_inj d d' : difficulty_value d = difficulty_value d' -> d = d'.
Proof. destruct d, d'; simpl; intros H; congruence. Qed.

(** The cache key of [generate_theme] tells the emotion, the content type,
    the difficulty, the template type (even one with underscores) and the
    intensity to one decimal, and nothing else of the profile. *)
Theorem cache_key_fields (p p' : ContentProfile) (T T' : string) :
  _generate_cache_key p T = _generate_cache_key p' T' <->
  emotion p = emotion p' /\ content_type p = content_type p' /\
  difficulty p = difficulty p' /\ T = T' /\
  Fmt.format_1f (emotion_intensity p) = Fmt.format_1f (emotion_intensity p').
Proof.
  unfold _generate_cache_key. split.
  - intros He.
    apply cut_first in He as [H1 He];
      [|destruct (emotion p); reflexivity | destruct (emotion p'); reflexivity].
    apply cut_first in He as [H2 He];
      [|destruct (content_type p); reflexivity | destruct (content_type p'); reflexivity].
    apply cut_first in He as [H3 He];
      [|destruct (difficulty p); reflexivity | destruct (difficulty p'); reflexivity].
    apply cut_last in He as [H4 H5]; [|apply no_underscore_format_1f ..].
    auto using emotion_value_inj, content_value_inj, difficulty_value_inj.
  - intros (-> & -> & -> & -> & ->). reflexivity.
Qed.

(** After a call, the theme is in the cache under its key. *)
Lemma generate_theme_cached p T st a st' :
  generate_theme p T st = Some (a, st') ->
  theme_cache st' !! _generate_cache_key p T = Some a.
Proof.
  unfold generate_theme.
  destruct (theme_cache st !! _generate_cache_key p T) as [a0|] eqn:Hc.
  { intros [= <- <-]. exact Hc. }
  destruct (_get_predefined_theme st p) as [a0|].
  { destruct (heap st !! a0); [|discriminate].
    intros [= <- <-]. simpl. apply lookup_insert_eq. }
  destruct (_generate_color_scheme p); [|discriminate].
  destruct (_generate_visual_effects p T); [|discriminate].
  intros [= <- <-]. simpl. apply lookup_insert_eq.
Qed.

(** Two requests with the same cache key share one theme object: the second
    call returns the theme of the first and changes nothing, whatever the
    other fields of its profile (the recommended theme among them). *)
Theorem generate_theme_shares_by_key (p p' : ContentProfile) (T T' : string) (st : state) :
  reachable st ->
  _generate_cache_key p T = _generate_cache_key p' T' ->
  exists a st1,
    generate_theme p T st = Some (a, st1) /\
    generate_theme p' T' st1 = Some (a, st1).
Proof.
  intros Hreach Hkey. apply theme_reachable_wf in Hreach.
  destruct (generate_theme_spec p T st Hreach) as (a & st1 & t & Hg & _).
  exists a, st1. split; [exact Hg|].
  apply generate_theme_cached in Hg. rewrite Hkey in Hg.
  unfold generate_theme. now rewrite Hg.
Qed.

(** The colours depend on the recommended theme, the emotion and the content
    type only: the adjustments for the intensity and for the difficulty
    change nothing, and a recommended theme that names a palette of the
    table decides the colours alone. *)
Theorem color_scheme_sources (p p' : ContentProfile) :
  recommended_theme p = recommended_theme p' ->
  (emotion p = emotion p' /\ content_type p = content_type p') \/
  is_Some (Py.get (recommended_theme p) base_color_palettes) ->
  _generate_color_scheme p = _generate_color_scheme p' /\
  (forall pal, Py.get (recommended_theme p) base_color_palettes = Some pal ->
     _generate_color_scheme p = ColorScheme_of pal).
Proof.
  intros Ht Hor. unfold _generate_color_scheme. rewrite <- Ht. split.
  - destruct (Py.get (recommended_theme p) base_color_palettes) as [pal|] eqn:Hg.
    + now rewrite !adjust_for_emotion_id, !adjust_for_intensity_id.
    + destruct Hor as [[He Hc]|[x Hx]]; [|discriminate].
      unfold _generate_colors_from_profile. rewrite <- He, <- Hc.
      destruct (match content_type p with LEARNING => _ | _ => _ end); [|reflexivity].
      now rewrite !adjust_for_emotion_id, !adjust_for_intensity_id.
  - intros pal ->. now rewrite adjust_for_emotion_id, adjust_for_intensity_id.
Qed.

(** The effects never fail validation, whatever the profile: the glow stays
    within [0.1, 0.9] and the speed within [0.5, 2]; professional content
    never pulses, nor does an intensity of at most 0.3; the railway
    template has the angle 0 and every other one an angle of the table. *)
Theorem visual_effects_bounds (p : ContentProfile) (T : string) :
  exists e,
    _generate_visual_effects p T = Some e /\ valid_effect e = true /\
    (1 # 10 <= glow_intensity e <= 9 # 10)%Q /\
    (1 # 2 <= animation_speed e <= 2)%Q /\
    (content_type p = PROFESSIONAL -> pulse_enabled e = false) /\
    ((emotion_intensity p <= 3 # 10)%Q -> pulse_enabled e = false) /\
    (T = "railway" -> gradient_angle e = 0%Z) /\
    (T <> "railway" -> In (gradient_angle e) [45; 90; 135; 180]%Z).
Proof.
  unfold _generate_visual_effects.
  destruct (String.eqb_spec T "railway") as [HT|HT];
    [|destruct (String.eqb T "scroll")];
    destruct (Py.Qgtb (emotion_intensity p) (8 # 10)) eqn:H8;
    destruct (Py.Qgtb (emotion_intensity p) (6 # 10)) eqn:H6;
    destruct (Py.Qgtb (emotion_intensity p) (3 # 10)) eqn:H3;
    destruct (content_type p); cbn -[Qle Qlt In];
    (eexists; split; [reflexivity|]; split; [reflexivity|]);
    cbn [glow_intensity animation_speed pulse_enabled gradient_angle scale with_pulse with_angle];
    (split; [split; vm_compute; discriminate|]);
    (split; [split; vm_compute; discriminate|]);
    (split; [intros; try reflexivity; discriminate|]);
    (split; [intros Hle; try reflexivity; exfalso;
             repeat match goal with
                    | H : Py.Qgtb _ _ = true |- _ => apply PyFacts.Qgtb_true in H
                    | H : Py.Qgtb _ _ = false |- _ => apply PyFacts.Qgtb_false in H
                    end; lra|]);
    (split; [intros; try reflexivity; contradiction|]);
    intros; try contradiction; simpl; tauto.
Qed.

(** Two profiles of the same emotion, content type and difficulty whose
    intensities round to the same decimal, with different recommended
    themes. *)
Lemma generate_theme_shares_by_key_witness :
  let p := {| emotion := HAPPY; content_type := LEARNING; difficulty := MEDIUM;
              emotion_intensity := 71 # 100; reading_speed := 200; key_themes := [];
              recommended_theme := "learning_energetic"; confidence := 1 |} in
  let p' := {| emotion := HAPPY; content_type := LEARNING; difficulty := MEDIUM;
               emotion_intensity := 74 # 100; reading_speed := 250; key_themes := ["x"];
               recommended_theme := "emotional_serene"; confidence := 0 |} in
  exists a st1,
    generate_theme p "typewriter" (init []) = Some (a, st1) /\
    generate_theme p' "typewriter" st1 = Some (a, st1).
Proof.
  cbv zeta.
  apply (generate_theme_shares_by_key _ _ "typewriter" "typewriter" (init [])).
  - apply (reachable_init []).
  - vm_compute. reflexivity.
Defined.

(** Two profiles that differ in the intensity and in the difficulty. *)
Lemma color_scheme_sources_witness :
  let p := {| emotion := ANGRY; content_type := LEARNING; difficulty := EXPERT;
              emotion_intensity := 9 # 10; reading_speed := 200; key_themes := [];
              recommended_theme := "learning_sophisticated"; confidence := 1 |} in
  let p' := {| emotion := ANGRY; content_type := LEARNING; difficulty := EASY;
               emotion_intensity := 1 # 10; reading_speed := 200; key_themes := [];
               recommended_theme := "learning_sophisticated"; confidence := 1 |} in
  _generate_color_scheme p = _generate_color_scheme p' /\
  (forall pal, Py.get (recommended_theme p) base_color_palettes = Some pal ->
     _generate_color_scheme p = ColorScheme_of pal).
Proof.
  cbv zeta. apply color_scheme_sources.
  - reflexivity.
  - left. split; reflexivity.
Defined.

Lemma scheme_of_named p pal :
  Py.get (recommended_theme p) base_color_palettes = Some pal ->
  exists pal, Py.get (recommended_theme p) base_color_palettes = Some pal /\
    _generate_color_scheme p = ColorScheme_of pal.
Proof.
  intros Hg. exists pal. split; [exact Hg|].
  unfold _generate_color_scheme. rewrite Hg.
  now rewrite adjust_for_emotion_id, adjust_for_intensity_id.
Qed.

Lemma scheme_of_unnamed p :
  Py.get (recommended_theme p) base_color_palettes = None ->
  Py.get (recommended_theme p) base_color_palettes = None /\
  exists colors, _generate_colors_from_profile p = Some colors /\
    _generate_color_scheme p = ColorScheme_of colors.
Proof.
  intros Hg. split; [exact Hg|].
  destruct (colors_from_profile_valid p) as (colors & c & Hcol & _).
  exists colors. split; [exact Hcol|].
  unfold _generate_color_scheme. rewrite Hg, Hcol.
  now rewrite adjust_for_emotion_id, adjust_for_intensity_id.
Qed.

(** The theme the analyzer recommends names a palette of the generator for
    every emotion but angry and surprised; for these two it does so only as
    [learning_accessible] and [professional_sophisticated].  In every other
    case the generator has no palette of that name and derives the colours
    from the emotion and the content type. *)
Theorem recommended_theme_palette (p : ContentProfile) :
  recommended_theme p =
    ContentAnalyzer._determine_recommended_theme (emotion p) (content_type p) (difficulty p) ->
  let named :=
    match emotion p with
    | ANGRY | SURPRISED =>
        match difficulty p with
        | EASY => bool_decide (content_type p = LEARNING)
        | EXPERT =>
            negb (bool_decide (content_type p = LEARNING \/ content_type p = NARRATIVE \/
                               content_type p = CREATIVE))
        | _ => false
        end
    | _ => true
    end in
  (named = true ->
   exists pal, Py.get (recommended_theme p) base_color_palettes = Some pal /\
     _generate_color_scheme p = ColorScheme_of pal) /\
  (named = false ->
   Py.get (recommended_theme p) base_color_palettes = None /\
   exists colors, _generate_colors_from_profile p = Some colors /\
     _generate_color_scheme p = ColorScheme_of colors).
Proof.
  intros Ht. cbv zeta.
  pose proof (scheme_of_named p) as Hsome. pose proof (scheme_of_unnamed p) as Hnone.
  rewrite Ht in Hsome, Hnone. rewrite Ht. clear Ht.
  destruct (emotion p), (content_type p), (difficulty p); split; intros Hn;
    try discriminate Hn;
    first [ apply Hnone; vm_compute; reflexivity
          | eapply Hsome; vm_compute; reflexivity ].
Qed.

(** An angry text of the learning type and of expert difficulty: the
    recommended theme names no palette. *)
Lemma recommended_theme_palette_witness :
  let p := {| emotion := ANGRY; content_type := LEARNING; difficulty := EXPERT;
              emotion_intensity := 9 # 10; reading_speed := 200; key_themes := [];
              recommended_theme := "learning_sophisticated"; confidence := 1 |} in
  Py.get (recommended_theme p) base_color_palettes = None /\
  exists colors, _generate_colors_from_profile p = Some colors /\
    _generate_color_scheme p = ColorScheme_of colors.
Proof.
  cbv zeta.
  refine (proj2 (recommended_theme_palette
    {| emotion := ANGRY; content_type := LEARNING; difficulty := EXPERT;
       emotion_intensity := 9 # 10; reading_speed := 200; key_themes := [];
       recommended_theme := "learning_sophisticated"; confidence := 1 |} eq_refl) eq_refl).
Defined.

(** [find_themes_for_profile] returns exactly the loaded ones of the two
    themes of the category of the content type (learning, professional, or
    emotional for every other type), without repetition, so at most two:
    the cut to three themes never drops one. *)
Theorem find_themes_are_loaded_category_themes (loaded_themes : gmap string nat)
    (emotion content_type difficulty : string) :
  let found := ThemeLoader.find_themes_for_profile loaded_themes emotion content_type difficulty in
  let category :=
    if String.eqb content_type "learning" then ["learning_focused"; "learning_energetic"]
    else if String.eqb content_type "professional"
         then ["professional_minimal"; "professional_positive"]
         else ["emotional_serene"; "emotional_vibrant"] in
  List.NoDup found /\ (length found <= 2)%nat /\
  forall t, In t found <-> In t category /\ is_Some (loaded_themes !! t).
Proof.
  cbv zeta. unfold ThemeLoader.find_themes_for_profile.
  generalize (Py.mem difficulty ["easy"; "medium"]) (Py.mem emotion ["happy"; "excited"])
    (Py.mem emotion ["calm"; "neutral"])
    (Py.mem content_type ["narrative"; "creative"; "entertainment"]).
  intros b1 b2 b3 b4.
  destruct (String.eqb content_type "learning");
    [|destruct (String.eqb content_type "professional")];
    destruct b1, b2, b3, b4; simpl;
    repeat match goal with
           | |- context [bool_decide (is_Some (loaded_themes !! ?t))] =>
               let E := fresh "E" in
               destruct (bool_decide (is_Some (loaded_themes !! t))) eqn:E; simpl
           end;
    repeat match goal with
           | H : bool_decide _ = true |- _ => apply bool_decide_eq_true in H
           | H : bool_decide _ = false |- _ => apply bool_decide_eq_false in H
           end.
  all: split; [|split].
  all: try solve [repeat constructor; simpl; intuition discriminate].
  all: try solve [simpl; lia].
  all: intros t; simpl; split.
  all: try solve [intros Hin;
                  repeat (destruct Hin as [<-|Hin]; [split; [tauto | assumption]|]);
                  destruct Hin].
  all: intros [Hin Hl]; destruct Hin as [<-|[<-|[]]]; try contradiction; tauto.
Qed.

End ThemeExtras.

(** * Colours as numbers *)
Module ColorFacts.
Import Models ThemeGenerator.

Local Open Scope string_scope.
Local Open Scope Z_scope.

Lemma hex_digit_value_range c :
  is_hex_digit c = true -> exists v, Fmt.hex_digit_value c = Some v /\ 0 <= v < 16.
Proof.
  destruct c as [[] [] [] [] [] [] [] []]; intros H; try discriminate H;
    eexists; (split; [vm_compute; reflexivity | lia]).
Qed.

Lemma lstrip_hash_hex c s : is_hex_digit c = true -> lstrip_hash (String c s) = String c s.
Proof.
  destruct c as [[] [] [] [] [] [] [] []]; intros H; try discriminate H; reflexivity.
Qed.

Lemma lstrip_hash_hash s : lstrip_hash (String "#" s) = lstrip_hash s.
Proof. reflexivity. Qed.

(** A colour of the form #RRGGBB reads as three numbers below 256. *)
Lemma hex_to_rgb_valid color :
  is_hex_color color = true ->
  exists r g b, hex_to_rgb color = Some (r, g, b) /\
    0 <= r < 256 /\ 0 <= g < 256 /\ 0 <= b < 256.
Proof.
  unfold is_hex_color.
  destruct color as [|h [|a [|b [|c [|d [|e [|f [|]]]]]]]]; try discriminate;
    try (destruct h as [[] [] [] [] [] [] [] []]; discriminate).
  destruct h as [[] [] [] [] [] [] [] []]; try discriminate.
  cbn [forallb]. intros H.
  repeat (apply andb_true_iff in H as [?H H]).
  unfold hex_to_rgb. rewrite lstrip_hash_hash, lstrip_hash_hex by assumption.
  cbn [substring]. unfold Fmt.int16.
  destruct (hex_digit_value_range a) as (va & -> & ?); [assumption|].
  destruct (hex_digit_value_range b) as (vb & -> & ?); [assumption|].
  destruct (hex_digit_value_range c) as (vc & -> & ?); [assumption|].
  destruct (hex_digit_value_range d) as (vd & -> & ?); [assumption|].
  destruct (hex_digit_value_range e) as (ve & -> & ?); [assumption|].
  destruct (hex_digit_value_range f) as (vf & -> & ?); [assumption|].
  eexists _, _, _. split; [reflexivity|]. lia.
Qed.

(** ['%02x' % n] for a number below 256: two hexadecimal digits that read
    as [n]. *)
Lemma format_02x_digits n :
  0 <= n < 256 ->
  exists a b, Fmt.format_02x n = String a (String b EmptyString) /\
    is_hex_digit a = true /\ is_hex_digit b = true /\
    Fmt.int16 (String a (String b EmptyString)) = Some n.
Proof.
  intros Hn.
  assert (Hall : forallb
            (fun k : nat =>
               match Fmt.format_02x (Z.of_nat k) with
               | String a (String b EmptyString) =>
                   is_hex_digit a && is_hex_digit b &&
                   match Fmt.int16 (String a (String b EmptyString)) with
                   | Some m => m =? Z.of_nat k
                   | None => false
                   end
               | _ => false
               end) (seq 0 256) = true) by (vm_compute; reflexivity).
  rewrite forallb_forall in Hall.
  specialize (Hall (Z.to_nat n)). rewrite Z2Nat.id in Hall by lia.
  assert (Hin : In (Z.to_nat n) (seq 0 256)) by (apply in_seq; lia).
  specialize (Hall Hin).
  destruct (Fmt.format_02x n) as [|a [|b [|]]]; try discriminate.
  exists a, b. split; [reflexivity|].
  apply andb_true_iff in Hall as [Hall H3]. apply andb_true_iff in Hall as [H1 H2].
  destruct (Fmt.int16 _) as [m|]; [|discriminate].
  apply Z.eqb_eq in H3. subst m. auto.
Qed.

Lemma rgb_to_hex_valid r g b :
  0 <= r < 256 -> 0 <= g < 256 -> 0 <= b < 256 ->
  is_hex_color (rgb_to_hex (r, g, b)) = true /\
  hex_to_rgb (rgb_to_hex (r, g, b)) = Some (r, g, b).
Proof.
  intros Hr Hg Hb. unfold rgb_to_hex.
  destruct (format_02x_digits r Hr) as (r1 & r2 & -> & Hr1 & Hr2 & Hri).
  destruct (format_02x_digits g Hg) as (g1 & g2 & -> & Hg1 & Hg2 & Hgi).
  destruct (format_02x_digits b Hb) as (b1 & b2 & -> & Hb1 & Hb2 & Hbi).
  change (String.append "#" (String.append (String r1 (String r2 EmptyString))
            (String.append (String g1 (String g2 EmptyString)) (String b1 (String b2 EmptyString)))))
    with (String "#" (String r1 (String r2 (String g1 (String g2 (String b1 (String b2 EmptyString))))))).
  split.
  - cbn [is_hex_color forallb]. now rewrite Hr1, Hr2, Hg1, Hg2, Hb1, Hb2.
  - unfold hex_to_rgb. rewrite lstrip_hash_hash, lstrip_hash_hex by assumption.
    cbn [substring]. now rewrite Hri, Hgi, Hbi.
Qed.

(** [int(x1 * 0.5 + x2 * 0.5)] *)
Lemma blend_half x1 x2 :
  0 <= x1 -> 0 <= x2 ->
  Fmt.int (inject_Z x1 * (1 - (1 # 2)) + inject_Z x2 * (1 # 2))%Q = (x1 + x2) / 2.
Proof.
  intros H1 H2. unfold Fmt.int. simpl.
  change (Z.quot (x1 * 1 * 2 + x2 * 1 * 2) 4 = (x1 + x2) / 2).
  rewrite Z.quot_div_nonneg by lia.
  replace (x1 * 1 * 2 + x2 * 1 * 2) with ((x1 + x2) * 2) by lia.
  change 4 with (2 * 2). rewrite Z.div_mul_cancel_r by lia. reflexivity.
Qed.

(** A hexadecimal digit and its value; [lower_char] is the digit in lower
    case. *)
Lemma hex_digit_lower c :
  is_hex_digit c = true ->
  exists v, Fmt.hex_digit_value c = Some v /\ 0 <= v < 16 /\
    String.get (Z.to_nat v) "0123456789abcdef" = Some (Py.lower_char c).
Proof.
  destruct c as [[] [] [] [] [] [] [] []]; intros H; try discriminate H;
    eexists; (split; [vm_compute; reflexivity | split; [lia | vm_compute; reflexivity]]).
Qed.

Lemma format_02x_of_digits x y :
  0 <= x < 16 -> 0 <= y < 16 ->
  exists a b, Fmt.format_02x (16 * x + y) = String a (String b EmptyString) /\
    String.get (Z.to_nat x) "0123456789abcdef" = Some a /\
    String.get (Z.to_nat y) "0123456789abcdef" = Some b.
Proof.
  intros Hx Hy.
  assert (Hall : forallb
            (fun i : nat => forallb
               (fun j : nat =>
                  match Fmt.format_02x (16 * Z.of_nat i + Z.of_nat j) with
                  | String a (String b EmptyString) =>
                      match String.get i "0123456789abcdef", String.get j "0123456789abcdef" with
                      | Some a', Some b' => Ascii.eqb a a' && Ascii.eqb b b'
                      | _, _ => false
                      end
                  | _ => false
                  end) (seq 0 16)) (seq 0 16) = true) by (vm_compute; reflexivity).
  rewrite forallb_forall in Hall.
  specialize (Hall (Z.to_nat x) ltac:(apply in_seq; lia)).
  rewrite forallb_forall in Hall.
  specialize (Hall (Z.to_nat y) ltac:(apply in_seq; lia)).
  rewrite !Z2Nat.id in Hall by lia.
  destruct (Fmt.format_02x (16 * x + y)) as [|a [|b [|]]]; try discriminate.
  destruct (String.get (Z.to_nat x) _) as [a'|]; [|discriminate].
  destruct (String.get (Z.to_nat y) _) as [b'|]; [|discriminate].
  apply andb_true_iff in Hall as [Ha Hb].
  apply Ascii.eqb_eq in Ha, Hb. subst. eauto.
Qed.

(** Two hexadecimal digits are written back in lower case. *)
Lemma format_02x_int16 a b :
  is_hex_digit a = true -> is_hex_digit b = true ->
  exists n, Fmt.int16 (String a (String b EmptyString)) = Some n /\
    Fmt.format_02x n = String (Py.lower_char a) (String (Py.lower_char b) EmptyString).
Proof.
  intros Ha Hb.
  destruct (hex_digit_lower a Ha) as (x & Hx & Hxr & Hxg).
  destruct (hex_digit_lower b Hb) as (y & Hy & Hyr & Hyg).
  exists (16 * x + y). unfold Fmt.int16. rewrite Hx, Hy. split; [reflexivity|].
  destruct (format_02x_of_digits x y Hxr Hyr) as (a' & b' & -> & Ha' & Hb').
  congruence.
Qed.

(** A colour of the form #RRGGBB is written back in lower case. *)
Lemma hex_to_rgb_to_hex color :
  is_hex_color color = true ->
  exists r g b, hex_to_rgb color = Some (r, g, b) /\ rgb_to_hex (r, g, b) = Py.lower color.
Proof.
  unfold is_hex_color.
  destruct color as [|h [|a [|b [|c [|d [|e [|f [|]]]]]]]]; try discriminate;
    try (destruct h as [[] [] [] [] [] [] [] []]; discriminate).
  destruct h as [[] [] [] [] [] [] [] []]; try discriminate.
  cbn [forallb]. intros H.
  repeat (apply andb_true_iff in H as [?H H]).
  unfold hex_to_rgb. rewrite lstrip_hash_hash, lstrip_hash_hex by assumption.
  cbn [substring].
  destruct (format_02x_int16 a b) as (r & -> & Hr); [assumption..|].
  destruct (format_02x_int16 c d) as (g & -> & Hg); [assumption..|].
  destruct (format_02x_int16 e f) as (bl & -> & Hb); [assumption..|].
  exists r, g, bl. split; [reflexivity|].
  unfold rgb_to_hex. rewrite Hr, Hg, Hb. reflexivity.
Qed.

End ColorFacts.

Module ColorExtras.
Import Models ThemeGenerator ColorFacts ColorSchemeRgba.

Local Open Scope string_scope.
Local Open Scope Z_scope.

(** The two conversions of [_blend_hex_colors] are inverse to each other on
    colours: three channels below 256 are written as a colour of the form
    #rrggbb, which reads back as the same channels; and a colour of the
    form #RRGGBB reads as three channels that are written back as the same
    colour, in lower case. *)
Theorem rgb_hex_round_trip (r g b : Z) (color : string) :
  0 <= r < 256 -> 0 <= g < 256 -> 0 <= b < 256 -> is_hex_color color = true ->
  (is_hex_color (rgb_to_hex (r, g, b)) = true /\
   hex_to_rgb (rgb_to_hex (r, g, b)) = Some (r, g, b)) /\
  exists r' g' b',
    hex_to_rgb color = Some (r', g', b') /\
    (0 <= r' < 256 /\ 0 <= g' < 256 /\ 0 <= b' < 256) /\
    rgb_to_hex (r', g', b') = Py.lower color.
Proof.
  intros Hr Hg Hb Hc. split; [now apply rgb_to_hex_valid|].
  destruct (hex_to_rgb_to_hex color Hc) as (r' & g' & b' & Hrgb & Hhex).
  destruct (hex_to_rgb_valid color Hc) as (r2 & g2 & b2 & Hrgb2 & Hrange).
  rewrite Hrgb in Hrgb2. injection Hrgb2 as <- <- <-.
  exists r', g', b'. auto.
Qed.

(** The blend of two colours of the form #RRGGBB at the ratio 0.5, the only
    one the generator uses, is again such a colour: each channel is the
    mean of the two channels, rounded down. *)
Theorem blend_hex_colors_half (color1 color2 : string) :
  is_hex_color color1 = true -> is_hex_color color2 = true ->
  exists r1 g1 b1 r2 g2 b2 blended,
    hex_to_rgb color1 = Some (r1, g1, b1) /\ hex_to_rgb color2 = Some (r2, g2, b2) /\
    _blend_hex_colors color1 color2 (1 # 2) = Some blended /\
    is_hex_color blended = true /\
    hex_to_rgb blended = Some ((r1 + r2) / 2, (g1 + g2) / 2, (b1 + b2) / 2).
Proof.
  intros H1 H2.
  destruct (hex_to_rgb_valid color1 H1) as (r1 & g1 & b1 & E1 & ? & ? & ?).
  destruct (hex_to_rgb_valid color2 H2) as (r2 & g2 & b2 & E2 & ? & ? & ?).
  exists r1, g1, b1, r2, g2, b2. eexists.
  split; [exact E1|]. split; [exact E2|].
  unfold _blend_hex_colors. rewrite E1, E2.
  rewrite !blend_half by lia.
  split; [reflexivity|].
  apply rgb_to_hex_valid.
  - split; [apply Z.div_pos; lia | apply Z.div_lt_upper_bound; lia].
  - split; [apply Z.div_pos; lia | apply Z.div_lt_upper_bound; lia].
  - split; [apply Z.div_pos; lia | apply Z.div_lt_upper_bound; lia].
Qed.

(** On a colour scheme that passed validation, [primary_rgba] and
    [glow_rgba] never raise: the channels are below 256, the primary colour
    is opaque and the glow has the opacity 0.3. *)
Theorem rgba_of_valid_scheme (c : ColorScheme) :
  valid_colors c = true ->
  exists r g b r' g' b',
    primary_rgba c = Some (r, g, b, 1%Q) /\ glow_rgba c = Some (r', g', b', (3 # 10)%Q) /\
    hex_to_rgb (primary_start c) = Some (r, g, b) /\
    hex_to_rgb (glow_color c) = Some (r', g', b') /\
    (0 <= r < 256 /\ 0 <= g < 256 /\ 0 <= b < 256) /\
    (0 <= r' < 256 /\ 0 <= g' < 256 /\ 0 <= b' < 256).
Proof.
  unfold valid_colors. intros Hv.
  repeat (apply andb_true_iff in Hv as [Hv ?]).
  destruct (hex_to_rgb_valid (primary_start c)) as (r & g & b & E1 & ?); [assumption|].
  destruct (hex_to_rgb_valid (glow_color c)) as (r' & g' & b' & E2 & ?); [assumption|].
  assert (Hrgba : forall s, _hex_to_rgba s =
            match hex_to_rgb s with Some (r, g, b) => Some (r, g, b, 1%Q) | None => None end).
  { intros s. unfold _hex_to_rgba, hex_to_rgb.
    destruct (Fmt.int16 (substring 0 2 (lstrip_hash s))); [|reflexivity].
    destruct (Fmt.int16 (substring 2 2 (lstrip_hash s))); [|reflexivity].
    destruct (Fmt.int16 (substring 4 2 (lstrip_hash s))); reflexivity. }
  exists r, g, b, r', g', b'.
  unfold primary_rgba, glow_rgba. rewrite !Hrgba, E1, E2.
  repeat split; try reflexivity; lia.
Qed.

Lemma rgb_hex_round_trip_witness :
  (is_hex_color (rgb_to_hex (74, 144, 226)) = true /\
   hex_to_rgb (rgb_to_hex (74, 144, 226)) = Some (74, 144, 226)) /\
  exists r' g' b',
    hex_to_rgb "#4A90E2" = Some (r', g', b') /\
    (0 <= r' < 256 /\ 0 <= g' < 256 /\ 0 <= b' < 256) /\
    rgb_to_hex (r', g', b') = Py.lower "#4A90E2".
Proof. apply (rgb_hex_round_trip 74 144 226 "#4A90E2"); first [lia | reflexivity]. Defined.

Lemma blend_hex_colors_half_witness :
  exists r1 g1 b1 r2 g2 b2 blended,
    hex_to_rgb "#FFD93D" = Some (r1, g1, b1) /\ hex_to_rgb "#4A90E2" = Some (r2, g2, b2) /\
    _blend_hex_colors "#FFD93D" "#4A90E2" (1 # 2) = Some blended /\
    is_hex_color blended = true /\
    hex_to_rgb blended = Some ((r1 + r2) / 2, (g1 + g2) / 2, (b1 + b2) / 2).
Proof. apply (blend_hex_colors_half "#FFD93D" "#4A90E2"); reflexivity. Defined.

Lemma rgba_of_valid_scheme_witness :
  let c := {| primary_start := "#4A90E2"; primary_end := "#7ED321";
              background_start := "#000428"; background_end := "#004e92";
              accent_color := "#50E3C2"; glow_color := "#4A90E2" |} in
  exists r g b r' g' b',
    primary_rgba c = Some (r, g, b, 1%Q) /\ glow_rgba c = Some (r', g', b', (3 # 10)%Q) /\
    hex_to_rgb (primary_start c) = Some (r, g, b) /\
    hex_to_rgb (glow_color c) = Some (r', g', b') /\
    (0 <= r < 256 /\ 0 <= g < 256 /\ 0 <= b < 256) /\
    (0 <= r' < 256 /\ 0 <= g' < 256 /\ 0 <= b' < 256).
Proof. cbv zeta. apply rgba_of_valid_scheme. reflexivity. Defined.

End ColorExtras.

(** * Further properties of the emotion detector *)
Module EmotionExtras.
Import Models EmotionDetector ScoreProps EmotionDetectorFacts DetectFacts SentimentProps.

#[local] Arguments Qplus : simpl never.
#[local] Arguments Qmult : simpl never.
#[local] Arguments Qdiv : simpl never.
#[local] Arguments Qminus : simpl never.
#[local] Arguments Qopp : simpl never.
#[local] Arguments Qabs : simpl never.
#[local] Arguments Py.Qgtb : simpl never.
#[local] Arguments Py.Qltb : simpl never.

Lemma Qlen_filter_le {A} (f : A -> bool) (l : list A) : Qlen (List.filter f l) <= Qlen l.
Proof.
  unfold Qlen. rewrite <- Zle_Qle. apply inj_le, filter_length_le.
Qed.

Lemma Qlen_words_nonneg {A} (l : list A) : 0 <= Qlen l.
Proof. unfold Qlen. change 0 with (inject_Z 0). rewrite <- Zle_Qle. lia. Qed.

Lemma fallback_range (text : string) :
  -1 <= fst (fallback_sentiment text) <= 1 /\ 0 <= snd (fallback_sentiment text) <= 1.
Proof.
  unfold fallback_sentiment.
  set (words := Py.split (Py.lower text)).
  pose proof (Qlen_filter_le (fun word => Py.mem word positive_words) words) as Hp.
  pose proof (Qlen_filter_le (fun word => Py.mem word negative_words) words) as Hn.
  pose proof (Qlen_words_nonneg (List.filter (fun word => Py.mem word positive_words) words)) as Hp0.
  pose proof (Qlen_words_nonneg (List.filter (fun word => Py.mem word negative_words) words)) as Hn0.
  set (pos := Qlen (List.filter _ words)) in *.
  set (neg := Qlen (List.filter (fun word => Py.mem word negative_words) words)) in *.
  clearbody pos neg. cbn [fst snd].
  destruct words as [|w ws].
  - assert (Hz : pos + neg == 0).
    { assert (Qlen (@nil string) == 0) by reflexivity. lra. }
    apply Qeq_bool_iff in Hz. rewrite Hz. lra.
  - pose proof (Qlen_pos w ws) as Hlen.
    set (n := Qlen (w :: ws)) in *. clearbody n. split.
    + destruct (Qeq_bool (pos + neg) 0); [lra|].
      split; [apply Qle_shift_div_l | apply Qle_shift_div_r]; lra.
    + split.
      * apply Q.min_glb; [|lra]. apply Qle_shift_div_l; lra.
      * apply Q.le_min_r.
Qed.



Lemma boost_of_bounds polarity subjectivity e :
  -1 <= polarity <= 1 -> 0 <= subjectivity <= 1 ->
  1 # 2 <= Py.get_default e 1 (boost_of polarity subjectivity) <= 2.
Proof.
  intros Hp Hs. unfold boost_of.
  assert (Ha : 0 <= Qabs polarity <= 1).
  { split; [apply Qabs_nonneg | apply Qabs_Qle_condition; lra]. }
  set (a := Qabs polarity) in *. clearbody a.
  destruct (Py.Qgtb polarity (1 # 10)) eqn:Hpos;
    [apply PyFacts.Qgtb_true in Hpos|destruct (Py.Qltb polarity (- (1 # 10)))];
    destruct (Py.Qgtb subjectivity (5 # 10)) eqn:Hgt;
    try apply PyFacts.Qgtb_true in Hgt;
    destruct e; unfold Py.get_default; simpl;
    first [lra | nra].
Qed.

(** Without TextBlob the sentiment comes from a keyword ratio: the polarity
    is within [-1, 1] and the subjectivity within [0, 1], as TextBlob's
    are, and every factor of the sentiment boost lies between 0.5 and 2: the
    boost never cancels a score nor changes its sign. *)
Theorem fallback_sentiment_range (text : string) :
  -1 <= fst (fallback_sentiment text) <= 1 /\
  0 <= snd (fallback_sentiment text) <= 1 /\
  forall e, 1 # 2 <= Py.get_default e 1 (_get_sentiment_boost None text) <= 2.
Proof.
  pose proof (fallback_range text) as [Hp Hs].
  split; [exact Hp|]. split; [exact Hs|].
  intros e. unfold _get_sentiment_boost.
  destruct (fallback_sentiment text) as [p s]. simpl in Hp, Hs.
  now apply boost_of_bounds.
Qed.

Lemma max_from_ge best l : best <= Py.max_from best l.
Proof.
  revert best. induction l as [|x l IH]; intros best; simpl; [apply Qle_refl|].
  destruct (Py.Qgtb x best) eqn:Hg.
  - apply PyFacts.Qgtb_true in Hg. apply Qle_trans with x; [now apply Qlt_le_weak | apply IH].
  - apply IH.
Qed.




End EmotionExtras.

(** * The engine and the analysis cache *)
Module EngineExtras.
Import Models DecorationEngine.

Section WithEnvironment.
Variable textblob : option (string -> option (Q * Q)).
Variable re : Re.engine.
Variable time : nat -> Q.

(** A theme preference passed to [generate_theme_only] is written into the
    cached analysis of the text: every later analysis of the same text
    reports the preference as its recommended theme, whatever
    [_determine_recommended_theme] made of the text, while an analysis
    without the cache still gives the computed theme. *)
Theorem theme_preference_stays_in_cache (text template_type preference : string)
    (st : state) :
  AnalyzerProps.reachable textblob re time (content_analyzer st) ->
  ThemeProps.reachable (theme_generator st) ->
  Py.truthy preference = true ->
  exists theme st1 a st2 r b an3 r',
    generate_theme_only textblob re time text template_type (Some preference) st =
      Some (theme, st1) /\
    analyze_text textblob re time text st1 = Some (a, st2) /\
    ContentAnalyzer.heap (content_analyzer st2) !! a = Some r /\
    Models.text r = text /\
    recommended_theme (profile r) = preference /\
    ContentAnalyzer.analyze textblob re time text false (content_analyzer st1) =
      Some (b, an3) /\
    ContentAnalyzer.heap an3 !! b = Some r' /\
    recommended_theme (profile r') =
      ContentAnalyzer._determine_recommended_theme
        (emotion (profile r')) (content_type (profile r')) (difficulty (profile r')).
Proof.
  intros Han Htg Hpref.
  apply AnalyzerFacts.analyzer_reachable_wf in Han.
  apply ThemeFacts.theme_reachable_wf in Htg.
  destruct (AnalyzerFacts.analyze_spec textblob re time text true (content_analyzer st) Han)
    as (a & an1 & r1 & Ha & _ & _ & Hr1 & Han1 & Hc1).
  specialize (Hc1 eq_refl).
  unfold generate_theme_only. rewrite Ha, Hpref.
  unfold set_recommended_theme. rewrite Hr1.
  set (an2 := {| ContentAnalyzer.heap := _ |}).
  assert (Hlt : (a < length (ContentAnalyzer.heap an1))%nat)
    by (eapply lookup_lt_Some; eauto).
  assert (Hr2 : ContentAnalyzer.heap an2 !! a = Some (with_recommended_theme r1 preference)).
  { unfold an2. simpl. now apply list_lookup_insert_eq. }
  rewrite Hr2.
  destruct (ThemeFacts.generate_theme_spec
              (profile (with_recommended_theme r1 preference)) template_type
              (theme_generator st) Htg) as (t & tg & _ & -> & _).
  set (st1 := {| content_analyzer := an2; theme_generator := tg |}).
  (* the next analysis with the cache *)
  assert (Hc2 : ContentAnalyzer.analysis_cache an2 !! text = Some a) by exact Hc1.
  assert (Hhit : exists st2 r,
            analyze_text textblob re time text st1 = Some (a, st2) /\
            ContentAnalyzer.heap (content_analyzer st2) !! a = Some r /\
            Models.text r = text /\ recommended_theme (profile r) = preference).
  { unfold analyze_text, ContentAnalyzer.analyze. cbn [content_analyzer st1].
    rewrite Hc2, Hr2. eexists _, _. split; [reflexivity|].
    cbn [content_analyzer ContentAnalyzer.heap]. split.
    - apply list_lookup_insert_eq. unfold an2. simpl. now rewrite length_insert.
    - split; [simpl; now destruct Han1 | reflexivity]. }
  destruct Hhit as (st2 & r & Hhit & Hr & Htext & Hrec).
  (* the next analysis without the cache *)
  destruct (AnalyzerFacts.analyze_miss textblob re time text false an2 eq_refl)
    as (r' & an3 & Hmiss & Hr' & Hh3 & _).
  destruct Hr' as (_ & Hp' & _).
  exists t, st1, a, st2, r, (length (ContentAnalyzer.heap an2)), an3, r'.
  split; [reflexivity|]. split; [exact Hhit|]. split; [exact Hr|].
  split; [exact Htext|]. split; [exact Hrec|].
  split; [exact Hmiss|]. split.
  { rewrite Hh3. rewrite lookup_app_r by lia. now rewrite Nat.sub_diag. }
  unfold ContentAnalyzer.build_profile in Hp'.
  destruct (EmotionDetector.detect_emotion textblob text) as [e q].
  destruct (ContentClassifier.classify_content re text) as [[ct c]|]; [|discriminate].
  destruct (ContentAnalyzer._extract_key_themes re text); [|discriminate].
  unfold new_ContentProfile in Hp'.
  destruct (valid_profile _); [|discriminate].
  injection Hp' as <-. reflexivity.
Qed.

End WithEnvironment.

(** A happy text with the preference [emotional_serene]. *)
Lemma theme_preference_stays_in_cache_witness :
  exists theme st1 a st2 r b an3 r',
    generate_theme_only None Re.literal_engine AnalyzerProps.seconds
      "so happy" "typewriter" (Some "emotional_serene"%string) (init []) = Some (theme, st1) /\
    analyze_text None Re.literal_engine AnalyzerProps.seconds "so happy" st1 = Some (a, st2) /\
    ContentAnalyzer.heap (content_analyzer st2) !! a = Some r /\
    Models.text r = "so happy"%string /\
    recommended_theme (profile r) = "emotional_serene"%string /\
    ContentAnalyzer.analyze None Re.literal_engine AnalyzerProps.seconds
      "so happy" false (content_analyzer st1) = Some (b, an3) /\
    ContentAnalyzer.heap an3 !! b = Some r' /\
    recommended_theme (profile r') =
      ContentAnalyzer._determine_recommended_theme
        (emotion (profile r')) (content_type (profile r')) (difficulty (profile r')).
Proof.
  apply (theme_preference_stays_in_cache None Re.literal_engine AnalyzerProps.seconds
           "so happy" "typewriter" "emotional_serene" (init [])).
  - apply AnalyzerProps.reachable_init.
  - apply (ThemeProps.reachable_init []).
  - reflexivity.
Defined.

End EngineExtras.

(** * Facts about strings: case, whitespace and words *)
Module StringFacts.
Import TextProps WordProps EmotionDetector EmotionalJourney.

Local Open Scope string_scope.
#[local] Arguments String.append : simpl nomatch.

(** *** Lower case *)

Lemma lower_char_space c : Py.is_space (Py.lower_char c) = Py.is_space c.
Proof. destruct c as [[] [] [] [] [] [] [] []]; reflexivity. Qed.

Lemma lower_char_word c : Py.is_word (Py.lower_char c) = Py.is_word c.
Proof. destruct c as [[] [] [] [] [] [] [] []]; reflexivity. Qed.

Lemma lower_char_apostrophe c : Ascii.eqb (Py.lower_char c) "'" = Ascii.eqb c "'".
Proof. destruct c as [[] [] [] [] [] [] [] []]; reflexivity. Qed.

Lemma lower_char_idem c : Py.lower_char (Py.lower_char c) = Py.lower_char c.
Proof. destruct c as [[] [] [] [] [] [] [] []]; reflexivity. Qed.

Lemma lower_idem s : Py.lower (Py.lower s) = Py.lower s.
Proof. induction s as [|c s IH]; simpl; [reflexivity|]. now rewrite lower_char_idem, IH. Qed.

Lemma lower_lstrip s : Py.lstrip (Py.lower s) = Py.lower (Py.lstrip s).
Proof.
  induction s as [|c s IH]; simpl; [reflexivity|].
  rewrite lower_char_space. destruct (Py.is_space c); [exact IH | reflexivity].
Qed.

Lemma lower_rev s acc :
  Py.rev_string (Py.lower s) (Py.lower acc) = Py.lower (Py.rev_string s acc).
Proof.
  revert acc. induction s as [|c s IH]; intros acc; simpl; [reflexivity|].
  apply (IH (String c acc)).
Qed.

Lemma lower_rev_all s :
  Py.rev_string (Py.lower s) EmptyString = Py.lower (Py.rev_string s EmptyString).
Proof. apply (lower_rev s EmptyString). Qed.

Lemma lower_strip s : Py.strip (Py.lower s) = Py.lower (Py.strip s).
Proof.
  unfold Py.strip. now rewrite lower_lstrip, lower_rev_all, lower_lstrip, lower_rev_all.
Qed.

Lemma lower_collapse_ws b s : collapse_ws b (Py.lower s) = Py.lower (collapse_ws b s).
Proof.
  revert b. induction s as [|c s IH]; intros b; simpl; [reflexivity|].
  rewrite lower_char_space. destruct (Py.is_space c).
  - destruct b; simpl; now rewrite IH.
  - simpl. now rewrite IH.
Qed.

Lemma lower_blank_special s : blank_special (Py.lower s) = Py.lower (blank_special s).
Proof.
  induction s as [|c s IH]; simpl; [reflexivity|].
  rewrite lower_char_word, lower_char_space, lower_char_apostrophe, IH.
  now destruct (Py.is_word c || Py.is_space c || Ascii.eqb c "'").
Qed.

Lemma lower_clean_text s : _clean_text (Py.lower s) = Py.lower (_clean_text s).
Proof.
  unfold _clean_text. now rewrite lower_strip, lower_collapse_ws, lower_blank_special.
Qed.

Lemma lower_all_space_iff s : all_space (Py.lower s) = all_space s.
Proof.
  induction s as [|c s IH]; simpl; [reflexivity|]. now rewrite lower_char_space, IH.
Qed.

(** [s.lower().split()] is [s.split()] with every word lowered. *)
Lemma split_go_lower s cur :
  Py.split_go (Py.lower s) (Py.lower cur) = map Py.lower (Py.split_go s cur).
Proof.
  revert cur. induction s as [|c s IH]; intros cur; simpl.
  - destruct cur as [|d cur]; [reflexivity|]. simpl.
    f_equal. apply (lower_rev cur (String d EmptyString)).
  - rewrite lower_char_space. destruct (Py.is_space c).
    + rewrite map_app. f_equal; [|apply (IH EmptyString)].
      destruct cur as [|d cur]; [reflexivity|]. simpl.
      f_equal. apply (lower_rev cur (String d EmptyString)).
    + apply (IH (String c cur)).
Qed.

Lemma split_lower s : Py.split (Py.lower s) = map Py.lower (Py.split s).
Proof. apply (split_go_lower s EmptyString). Qed.

(** *** Reversal *)

Lemma append_empty_r s : s ++ EmptyString = s.
Proof. induction s as [|c s IH]; simpl; [reflexivity | now rewrite IH]. Qed.

Lemma append_assoc a b c : (a ++ b) ++ c = a ++ (b ++ c).
Proof. induction a as [|x a IH]; simpl; [reflexivity | now rewrite IH]. Qed.

Lemma rev_string_acc s acc : Py.rev_string s acc = Py.rev_string s EmptyString ++ acc.
Proof.
  revert acc. induction s as [|c s IH]; intros acc; simpl; [reflexivity|].
  rewrite (IH (String c acc)), (IH (String c EmptyString)).
  now rewrite append_assoc.
Qed.

Lemma rev_string_app a b :
  Py.rev_string (a ++ b) EmptyString = Py.rev_string b EmptyString ++ Py.rev_string a EmptyString.
Proof.
  induction a as [|c a IH]; simpl.
  - now rewrite append_empty_r.
  - rewrite (rev_string_acc (a ++ b)), (rev_string_acc a), IH.
    now rewrite append_assoc.
Qed.

Lemma rev_string_involutive s :
  Py.rev_string (Py.rev_string s EmptyString) EmptyString = s.
Proof.
  induction s as [|c s IH]; simpl; [reflexivity|].
  rewrite (rev_string_acc s), rev_string_app, IH. reflexivity.
Qed.

Lemma lstrip_app_char x c :
  Py.lstrip (x ++ String c EmptyString) =
  if all_space x then Py.lstrip (String c EmptyString) else Py.lstrip x ++ String c EmptyString.
Proof.
  induction x as [|d x IH]; simpl; [reflexivity|].
  destruct (Py.is_space d); simpl; [exact IH | reflexivity].
Qed.

(** [s.rstrip()], as [strip] computes it, is the text without its trailing
    whitespace. *)
Lemma rstrip_cons c s :
  Py.rev_string (Py.lstrip (Py.rev_string (String c s) EmptyString)) EmptyString =
  if all_space (String c s) then EmptyString
  else String c (Py.rev_string (Py.lstrip (Py.rev_string s EmptyString)) EmptyString).
Proof.
  cbn [Py.rev_string]. rewrite (rev_string_acc s (String c EmptyString)).
  rewrite lstrip_app_char, BlankFacts.all_space_rev. cbn [all_space].
  rewrite andb_true_r.
  destruct (all_space s) eqn:Hs.
  - rewrite andb_true_r. cbn [Py.lstrip].
    assert (Hr : Py.lstrip (Py.rev_string s EmptyString) = EmptyString).
    { apply PyFacts.lstrip_all_space. rewrite BlankFacts.all_space_rev. now rewrite Hs. }
    rewrite Hr. destruct (Py.is_space c); reflexivity.
  - rewrite andb_false_r. rewrite rev_string_app. reflexivity.
Qed.

Lemma rstrip_lstrip s :
  Py.lstrip (Py.rev_string (Py.lstrip (Py.rev_string s EmptyString)) EmptyString) =
  Py.rev_string (Py.lstrip (Py.rev_string (Py.lstrip s) EmptyString)) EmptyString.
Proof.
  induction s as [|c s IH]; [reflexivity|].
  rewrite rstrip_cons. cbn [Py.lstrip all_space].
  destruct (Py.is_space c) eqn:Hc.
  - cbn [andb]. destruct (all_space s) eqn:Hs.
    + rewrite (PyFacts.lstrip_all_space s Hs). reflexivity.
    + cbn [Py.lstrip]. rewrite Hc. exact IH.
  - cbn [andb Py.lstrip]. rewrite Hc. rewrite rstrip_cons. cbn [all_space]. now rewrite Hc.
Qed.

Lemma collapse_true_lstrip s : collapse_ws true s = collapse_ws false (Py.lstrip s).
Proof.
  induction s as [|c s IH]; simpl; [reflexivity|].
  destruct (Py.is_space c) eqn:Hc; [exact IH|]. simpl. now rewrite Hc.
Qed.

(** *** Words *)

Lemma join_cons w ws :
  ws <> [] -> join (w :: ws) = w ++ " " ++ join ws.
Proof. destruct ws; [contradiction | reflexivity]. Qed.

(** [re.sub(r'\s+', ' ', s.strip())] is [' '.join(s.split())]. *)
Lemma collapse_strip_join_go s :
  collapse_ws false (Py.strip s) = join (Py.split s) /\
  forall cur, cur <> EmptyString ->
    join (Py.split_go s cur) =
    Py.rev_string cur EmptyString ++
    collapse_ws false (Py.rev_string (Py.lstrip (Py.rev_string s EmptyString)) EmptyString).
Proof.
  unfold Py.strip, Py.split.
  induction s as [|c s [IHP IHQ]].
  - split; [reflexivity|]. intros cur Hcur. simpl.
    destruct cur; [contradiction|]. simpl. now rewrite append_empty_r.
  - split.
    + cbn [Py.lstrip Py.split_go]. destruct (Py.is_space c) eqn:Hc.
      * exact IHP.
      * rewrite rstrip_cons. cbn [all_space]. rewrite Hc. cbn [andb collapse_ws].
        rewrite Hc. rewrite (IHQ (String c EmptyString)) by discriminate. reflexivity.
    + intros cur Hcur. cbn [Py.split_go]. rewrite rstrip_cons. cbn [all_space].
      destruct (Py.is_space c) eqn:Hc; cbn [andb].
      * destruct (all_space s) eqn:Hs.
        -- rewrite (PyFacts.split_go_all_space s Hs). rewrite app_nil_r.
           destruct cur; [contradiction|]. simpl. now rewrite append_empty_r.
        -- assert (Hne : Py.split_go s EmptyString <> [])
             by now apply PyFacts.split_go_not_all_space.
           destruct cur as [|d cur]; [contradiction|]. cbn [Py.flush app].
           rewrite join_cons by exact Hne.
           cbn [collapse_ws]. rewrite Hc.
           rewrite collapse_true_lstrip, rstrip_lstrip, IHP. reflexivity.
      * rewrite (IHQ (String c cur)) by discriminate.
        cbn [collapse_ws Py.rev_string]. rewrite Hc.
        rewrite (rev_string_acc cur (String c EmptyString)).
        now rewrite append_assoc.
Qed.

Lemma collapse_strip_join s : collapse_ws false (Py.strip s) = join (Py.split s).
Proof. apply collapse_strip_join_go. Qed.

Lemma no_space_rev s acc : no_space (Py.rev_string s acc) = no_space s && no_space acc.
Proof.
  revert acc. induction s as [|c s IH]; intros acc; simpl; [reflexivity|].
  rewrite IH. simpl. rewrite !andb_assoc. f_equal. apply andb_comm.
Qed.

Lemma flush_tokens cur : no_space cur = true -> Forall is_token (Py.flush cur).
Proof.
  intros Hc. destruct cur as [|d cur]; [constructor|].
  cbn [Py.flush]. constructor; [|constructor]. split.
  - intros Hr. apply PyFacts.rev_string_empty in Hr. discriminate.
  - rewrite no_space_rev. now rewrite Hc.
Qed.

(** The words of [split] are tokens. *)
Lemma split_go_tokens s cur :
  no_space cur = true -> Forall is_token (Py.split_go s cur).
Proof.
  revert cur. induction s as [|c s IH]; intros cur Hcur; simpl.
  - now apply flush_tokens.
  - destruct (Py.is_space c) eqn:Hc.
    + apply Forall_app. split; [now apply flush_tokens | now apply IH].
    + apply IH. simpl. now rewrite Hc.
Qed.

Lemma split_tokens s : Forall is_token (Py.split s).
Proof. now apply split_go_tokens. Qed.

Lemma split_go_prefix w s cur :
  no_space w = true -> Py.split_go (w ++ s) cur = Py.split_go s (Py.rev_string w cur).
Proof.
  revert cur. induction w as [|c w IH]; intros cur Hw; simpl; [reflexivity|].
  simpl in Hw. apply andb_true_iff in Hw as [Hc Hw].
  apply negb_true_iff in Hc. rewrite Hc. now apply IH.
Qed.

(** Splitting the joined tokens gives the tokens back. *)
Lemma split_join ws : Forall is_token ws -> Py.split (join ws) = ws.
Proof.
  unfold Py.split.
  induction 1 as [|w ws [Hne Hns] Hws IH]; [reflexivity|].
  destruct ws as [|w2 ws].
  - cbn [join]. rewrite <- (append_empty_r w) at 1.
    rewrite split_go_prefix by exact Hns. cbn [Py.split_go].
    destruct (Py.rev_string w EmptyString) eqn:Hr.
    + apply PyFacts.rev_string_empty in Hr. contradiction.
    + cbn [Py.flush]. rewrite <- Hr. now rewrite rev_string_involutive.
  - rewrite join_cons by discriminate.
    rewrite split_go_prefix by exact Hns.
    change (" " ++ join (w2 :: ws)) with (String " " (join (w2 :: ws))).
    cbn [Py.split_go].
    change (Py.is_space " ") with true. cbn iota.
    rewrite IH.
    destruct (Py.rev_string w EmptyString) eqn:Hr.
    + apply PyFacts.rev_string_empty in Hr. contradiction.
    + cbn [Py.flush app]. rewrite <- Hr. now rewrite rev_string_involutive.
Qed.

Lemma split_join_split s : Py.split (join (Py.split s)) = Py.split s.
Proof. apply split_join, split_tokens. Qed.

Lemma all_space_split s : all_space s = true <-> Py.split s = [].
Proof.
  split.
  - apply PyFacts.split_go_all_space.
  - intros Hs. destruct (all_space s) eqn:Ha; [reflexivity|].
    now apply (PyFacts.split_go_not_all_space s EmptyString) in Ha.
Qed.

Lemma all_space_join_split s : all_space (join (Py.split s)) = all_space s.
Proof.
  destruct (all_space s) eqn:Ha.
  - apply all_space_split in Ha. now rewrite Ha.
  - destruct (all_space (join (Py.split s))) eqn:Hj; [|reflexivity].
    apply all_space_split in Hj. rewrite split_join_split in Hj.
    apply all_space_split in Hj. congruence.
Qed.

Lemma clean_text_join_split s : _clean_text (join (Py.split s)) = _clean_text s.
Proof.
  unfold _clean_text. now rewrite !collapse_strip_join, split_join_split.
Qed.

End StringFacts.

(** * The emotion detector on equivalent texts *)
Module EquivalentTexts.
Import Models TextProps WordProps EmotionDetector EmotionalJourney StringFacts.

Local Open Scope string_scope.

(** What the detector reads of a text: whether it is blank, the words of
    the cleaned text and the words of the sentiment fallback. *)
Lemma detector_reads t1 t2 :
  all_space t1 = all_space t2 ->
  Py.split (Py.lower (_clean_text t1)) = Py.split (Py.lower (_clean_text t2)) ->
  Py.split (Py.lower t1) = Py.split (Py.lower t2) ->
  get_emotion_distribution t1 = get_emotion_distribution t2 /\
  detect_emotion None t1 = detect_emotion None t2.
Proof.
  intros Hb Hw Hs. split.
  - unfold get_emotion_distribution, unnormalized_scores.
    now rewrite !DistributionFacts.is_blank_all_space, Hb, Hw.
  - unfold detect_emotion, is_blank, boosted_scores, _get_sentiment_boost,
      fallback_sentiment.
    now rewrite !DistributionFacts.is_blank_all_space, Hb, Hw, Hs.
Qed.

Lemma detector_lower t :
  get_emotion_distribution (Py.lower t) = get_emotion_distribution t /\
  detect_emotion None (Py.lower t) = detect_emotion None t.
Proof.
  apply detector_reads.
  - apply lower_all_space_iff.
  - now rewrite lower_clean_text, lower_idem.
  - now rewrite lower_idem.
Qed.

Lemma detector_join_split t :
  get_emotion_distribution (join (Py.split t)) = get_emotion_distribution t /\
  detect_emotion None (join (Py.split t)) = detect_emotion None t.
Proof.
  apply detector_reads.
  - apply all_space_join_split.
  - now rewrite clean_text_join_split.
  - now rewrite !split_lower, split_join_split.
Qed.

(** The emotion detector does not look at the case of the letters: two
    texts that are equal up to case have the same distribution and, with
    the fallback sentiment, the same detected emotion and intensity. *)
Theorem emotion_case_insensitive (text1 text2 : string) :
  Py.lower text1 = Py.lower text2 ->
  get_emotion_distribution text1 = get_emotion_distribution text2 /\
  detect_emotion None text1 = detect_emotion None text2.
Proof.
  intros Hl.
  destruct (detector_lower text1) as [H1 H2].
  destruct (detector_lower text2) as [H3 H4].
  rewrite Hl in H1, H2. split; congruence.
Qed.

Lemma emotion_case_insensitive_witness :
  get_emotion_distribution "So HAPPY" = get_emotion_distribution "so happy" /\
  detect_emotion None "So HAPPY" = detect_emotion None "so happy".
Proof. apply (emotion_case_insensitive "So HAPPY" "so happy"). reflexivity. Defined.

(** Nor does it look at the amount of whitespace: two texts with the same
    words, whatever separates them, have the same distribution and, with
    the fallback sentiment, the same detected emotion and intensity. *)
Theorem emotion_whitespace_insensitive (text1 text2 : string) :
  Py.split text1 = Py.split text2 ->
  get_emotion_distribution text1 = get_emotion_distribution text2 /\
  detect_emotion None text1 = detect_emotion None text2.
Proof.
  intros Hs.
  destruct (detector_join_split text1) as [H1 H2].
  destruct (detector_join_split text2) as [H3 H4].
  rewrite Hs in H1, H2. split; congruence.
Qed.

Lemma emotion_whitespace_insensitive_witness :
  get_emotion_distribution "  so   happy " = get_emotion_distribution "so happy" /\
  detect_emotion None "  so   happy " = detect_emotion None "so happy".
Proof. apply (emotion_whitespace_insensitive "  so   happy " "so happy"). reflexivity. Defined.

End EquivalentTexts.

(** * The emotional journey *)
Module JourneyExtras.
Import Models TextProps WordProps EmotionDetector EmotionalJourney StringFacts.

Local Open Scope string_scope.

Lemma ceil_div_bounds (len n : nat) :
  (0 < n)%nat ->
  let k := ((len + n - 1) / n)%nat in
  (len <= k * n)%nat /\ (k * n < len + n)%nat.
Proof.
  intros Hn. cbv zeta.
  pose proof (Nat.div_mod_eq (len + n - 1) n) as Hd.
  pose proof (Nat.mod_upper_bound (len + n - 1) n ltac:(lia)) as Hm.
  nia.
Qed.

(** The chunks of [n] words. *)
Lemma chunks_spec {A} (n : nat) (l : list A) (k : nat) :
  (0 < n)%nat -> (length l <= k * n)%nat -> (k * n < length l + n)%nat ->
  let segments := map (fun i => slice l i (i + n)) (map (fun j => (j * n)%nat) (seq 0 k)) in
  concat segments = l /\
  Forall (fun seg => seg <> [] /\ (length seg <= n)%nat) segments /\
  Forall (fun seg => length seg = n) (removelast segments).
Proof.
  intros Hn. cbv zeta. unfold slice.
  revert l. induction k as [|k IH]; intros l Hle Hlt.
  - simpl in *. assert (length l = 0%nat) by lia.
    destruct l; [|discriminate]. repeat split; constructor.
  - rewrite <- cons_seq, <- seq_shift, !map_cons, !map_map.
    assert (Hmap : map (fun x => firstn (S x * n + n - S x * n) (skipn (S x * n) l)) (seq 0 k) =
                   map (fun i => firstn (i + n - i) (skipn i (skipn n l)))
                       (map (fun j => (j * n)%nat) (seq 0 k))).
    { rewrite map_map. apply map_ext. intros j.
      rewrite skipn_skipn. f_equal; [lia|]. f_equal. lia. }
    rewrite Hmap. clear Hmap.
    replace (0 * n + n - 0 * n)%nat with n by lia.
    change (skipn (0 * n) l) with l.
    destruct k as [|k'].
    + (* the last chunk *)
      simpl. simpl in Hle, Hlt. rewrite app_nil_r.
      rewrite firstn_all2 by lia.
      split; [reflexivity|]. split; [|constructor].
      constructor; [|constructor]. split; [|lia].
      destruct l; [simpl in Hlt; lia | discriminate].
    + assert (Hlen : length (skipn n l) = (length l - n)%nat) by apply length_skipn.
      destruct (IH (skipn n l)) as (Hc & Hf & Hr); [lia | lia|].
      cbn [concat]. rewrite Hc. split; [apply firstn_skipn|].
      assert (Hfull : length (firstn n l) = n) by (apply firstn_length_le; lia).
      split.
      * constructor; [|exact Hf]. split; [|lia].
        intros He. rewrite He in Hfull. simpl in Hfull. lia.
      * set (rest := map _ (map _ (seq 0 (S k')))) in *.
        assert (Hne : rest <> []) by (unfold rest; simpl; discriminate).
        destruct rest as [|r rest']; [contradiction|].
        cbn [removelast]. constructor; [exact Hfull | exact Hr].
Qed.

(** [analyze_emotional_journey] raises for a segment size of zero and
    returns no segment for a negative one.  For a positive size the words
    of the text are cut, in order, into segments of that many words, the
    last one possibly shorter and none empty, and the result is the
    detection on each segment, with intensities between 0 and 1. *)
Theorem journey_segments (textblob : option (string -> option (Q * Q)))
    (text : string) (segment_size : Z) :
  (segment_size = 0%Z -> analyze_emotional_journey textblob text segment_size = None) /\
  ((segment_size < 0)%Z -> analyze_emotional_journey textblob text segment_size = Some []) /\
  ((0 < segment_size)%Z ->
   exists segments : list (list string),
     concat segments = Py.split text /\
     Forall (fun seg => seg <> [] /\ (Z.of_nat (length seg) <= segment_size)%Z) segments /\
     Forall (fun seg => Z.of_nat (length seg) = segment_size) (removelast segments) /\
     analyze_emotional_journey textblob text segment_size =
       Some (map (fun seg => detect_emotion textblob (join seg)) segments) /\
     Forall (fun result => 0 <= snd result <= 1)
       (map (fun seg => detect_emotion textblob (join seg)) segments)).
Proof.
  unfold analyze_emotional_journey. split; [|split].
  - intros ->. reflexivity.
  - intros Hneg. destruct (Z.eqb_spec segment_size 0) as [|Hnz]; [lia|].
    destruct (Z.ltb_spec segment_size 0) as [|Hnn]; [reflexivity | lia].
  - intros Hpos. destruct (Z.eqb_spec segment_size 0) as [|Hnz]; [lia|].
    destruct (Z.ltb_spec segment_size 0) as [|Hnn]; [lia|].
    set (n := Z.to_nat segment_size). set (words := Py.split text).
    assert (Hn : (0 < n)%nat) by (unfold n; lia).
    destruct (ceil_div_bounds (length words) n Hn) as [Hle Hlt].
    destruct (chunks_spec n words _ Hn Hle Hlt) as (Hc & Hf & Hr).
    unfold range.
    set (segments := map (fun i => slice words i (i + n)) _) in *.
    exists segments. split; [exact Hc|]. split; [|split; [|split]].
    + eapply List.Forall_impl; [|exact Hf]. simpl. intros seg [H1 H2].
      split; [exact H1 | unfold n in H2; lia].
    + eapply List.Forall_impl; [|exact Hr]. simpl. intros seg H1. unfold n in H1. lia.
    + unfold segments. f_equal. symmetry. apply map_map.
    + apply List.Forall_forall. intros result Hin.
      apply in_map_iff in Hin as (seg & <- & _).
      destruct (DetectFacts.detect_cases textblob (join seg)) as [->|(e & q & -> & _ & Hq)];
        simpl; [lra | exact Hq].
Qed.

(** A text of at most [segment_size] words makes a journey of one segment,
    which is, with the fallback sentiment, the detection on the whole
    text; a blank text makes an empty journey. *)
Theorem journey_single_segment (text : string) (segment_size : Z) :
  (Z.of_nat (length (Py.split text)) <= segment_size)%Z -> (0 < segment_size)%Z ->
  analyze_emotional_journey None text segment_size =
    Some (if all_space text then [] else [detect_emotion None text]).
Proof.
  intros Hle Hpos. unfold analyze_emotional_journey.
  destruct (Z.eqb_spec segment_size 0) as [|Hnz]; [lia|].
  destruct (Z.ltb_spec segment_size 0) as [|Hnn]; [lia|].
  set (n := Z.to_nat segment_size).
  assert (Hn : (length (Py.split text) <= n)%nat) by (unfold n; lia).
  destruct (all_space text) eqn:Ha.
  - apply all_space_split in Ha. rewrite Ha. simpl.
    unfold range. simpl. replace (n - 0)%nat with n by lia.
    rewrite Nat.div_small by lia. reflexivity.
  - assert (Hne : Py.split text <> []).
    { intros Hs. apply all_space_split in Hs. congruence. }
    assert (Hlen : (0 < length (Py.split text))%nat).
    { destruct (Py.split text); [contradiction | simpl; lia]. }
    unfold range.
    assert (Hk : ((length (Py.split text) + n - 1) / n = 1)%nat).
    { symmetry. apply (Nat.div_unique _ n 1 (length (Py.split text) - 1)); lia. }
    rewrite Hk. cbn [seq map]. unfold slice. cbn [Nat.mul skipn].
    replace (0 + n - 0)%nat with n by lia.
    rewrite firstn_all2 by exact Hn.
    f_equal. f_equal. apply EquivalentTexts.detector_join_split.
Qed.

Lemma journey_single_segment_witness :
  analyze_emotional_journey None "so  happy" 50 =
    Some (if all_space "so  happy" then [] else [detect_emotion None "so  happy"]).
Proof.
  apply (journey_single_segment "so  happy" 50).
  - vm_compute. discriminate.
  - lia.
Defined.

End JourneyExtras.

(** * Predefined themes and typography *)
Module PredefinedExtras.
Import Models ThemeGenerator ThemeProps ThemeFacts LoaderProps.

Local Open Scope string_scope.

(** When one of the theme files of the category is loaded, the first
    recommendation of the loader is such a theme. *)
Lemma find_themes_head (loaded_themes : gmap string nat) (emotion difficulty : string)
    (ct : ContentType) :
  (exists name, In name (category_themes ct) /\ is_Some (loaded_themes !! name)) ->
  exists name rest,
    ThemeLoader.find_themes_for_profile loaded_themes emotion (content_value ct) difficulty =
      name :: rest /\
    In name (category_themes ct) /\ is_Some (loaded_themes !! name).
Proof.
  intros (name & Hin & Hl). unfold ThemeLoader.find_themes_for_profile.
  generalize (Py.mem difficulty ["easy"; "medium"]) (Py.mem emotion ["happy"; "excited"])
    (Py.mem emotion ["calm"; "neutral"]).
  intros b1 b2 b3.
  destruct ct, b1, b2, b3; simpl in Hin |- *;
    repeat match goal with
           | |- context [bool_decide (is_Some (loaded_themes !! ?t))] =>
               let E := fresh "E" in
               destruct (bool_decide (is_Some (loaded_themes !! t))) eqn:E; simpl
           end;
    repeat match goal with
           | H : bool_decide _ = true |- _ => apply bool_decide_eq_true in H
           | H : bool_decide _ = false |- _ => apply bool_decide_eq_false in H
           end;
    try (exfalso; destruct Hin as [<-|[<-|[]]]; contradiction);
    eexists _, _; (split; [reflexivity|]); (split; [simpl; tauto | assumption]).
Qed.

(** A loaded theme file of the category takes precedence over the
    generation: on a cache miss [generate_theme] returns the loaded theme
    object itself, without creating a theme, so neither the recommended
    theme of the profile nor the colour tables are used. *)
Theorem predefined_theme_first (p : ContentProfile) (T : string) (st : state) :
  reachable st ->
  theme_cache st !! _generate_cache_key p T = None ->
  (exists name, In name (category_themes (content_type p)) /\
     is_Some (loaded_themes st !! name)) ->
  exists a st' name,
    generate_theme p T st = Some (a, st') /\
    In name (category_themes (content_type p)) /\ loaded_themes st !! name = Some a /\
    length (heap st') = length (heap st) /\ loaded_themes st' = loaded_themes st.
Proof.
  intros Hreach Hmiss Hloaded. apply theme_reachable_wf in Hreach.
  destruct Hreach as (_ & Hwf & _).
  destruct (find_themes_head (loaded_themes st) (emotion_value (emotion p))
              (difficulty_value (difficulty p)) (content_type p) Hloaded)
    as (name & rest & Hfind & Hin & [a Ha]).
  unfold generate_theme. rewrite Hmiss.
  unfold _get_predefined_theme. rewrite Hfind. unfold ThemeLoader.get_theme. rewrite Ha.
  pose proof (Hwf _ _ Ha) as Hlt.
  destruct (lookup_lt_is_Some_2 (heap st) a Hlt) as [t Ht]. rewrite Ht.
  eexists a, _, name. split; [reflexivity|]. split; [exact Hin|]. split; [exact Ha|].
  simpl. split; [|reflexivity].
  destruct (Py.mem T (compatibility t)); [reflexivity | apply length_insert].
Qed.

(** A generator over the theme file [learning_focused]. *)
Lemma predefined_theme_first_witness :
  let t := {| name := "Focused"; description := "";
              colors := {| primary_start := "#4A90E2"; primary_end := "#7ED321";
                           background_start := "#000428"; background_end := "#004e92";
                           accent_color := "#50E3C2"; glow_color := "#4A90E2" |};
              effects := {| glow_intensity := 3 # 10; animation_speed := 1; blur_radius := 0;
                            pulse_enabled := false; gradient_angle := 45;
                            shadow_enabled := true; shadow_intensity := 5 # 10 |};
              typography := []; compatibility := ["typewriter"] |} in
  let p := {| emotion := HAPPY; content_type := LEARNING; difficulty := MEDIUM;
              emotion_intensity := 7 # 10; reading_speed := 200; key_themes := [];
              recommended_theme := "learning_energetic"; confidence := 1 |} in
  let st := init [("learning_focused", t)] in
  exists a st' name,
    generate_theme p "railway" st = Some (a, st') /\
    In name (category_themes (content_type p)) /\ loaded_themes st !! name = Some a /\
    length (heap st') = length (heap st) /\ loaded_themes st' = loaded_themes st.
Proof.
  cbv zeta. apply predefined_theme_first.
  - apply reachable_init.
  - vm_compute. reflexivity.
  - exists "learning_focused". split; [simpl; tauto|]. vm_compute. eauto.
Defined.

(** The typography has the same four entries for every profile; the font
    weight and the letter spacing of an easy or expert text come from the
    difficulty, whatever the content type set, and only learning content
    has the line height 1.8. *)
Theorem typography_by_difficulty (p : ContentProfile) :
  let typography := _generate_typography p in
  Py.keys typography = ["font_weight"; "letter_spacing"; "line_height"; "text_transform"] /\
  Py.get "text_transform" typography = Some "none" /\
  Py.get "line_height" typography =
    Some (match content_type p with LEARNING => "1.8" | _ => "1.6" end) /\
  (difficulty p = EXPERT ->
   Py.get "font_weight" typography = Some "600" /\
   Py.get "letter_spacing" typography = Some "0.01em") /\
  (difficulty p = EASY ->
   Py.get "font_weight" typography = Some "400" /\
   Py.get "letter_spacing" typography = Some "0.03em") /\
  (difficulty p = MEDIUM \/ difficulty p = HARD ->
   Py.get "font_weight" typography =
     Some (match content_type p with
           | PROFESSIONAL => "500" | CREATIVE => "300" | _ => "normal" end) /\
   Py.get "letter_spacing" typography =
     Some (match content_type p with
           | PROFESSIONAL => "0.01em" | LEARNING => "0.02em" | CREATIVE => "0.05em"
           | _ => "normal" end)).
Proof.
  cbv zeta. unfold _generate_typography.
  destruct (content_type p), (difficulty p);
    (split; [reflexivity|]); (split; [reflexivity|]); (split; [reflexivity|]);
    (split; [intros H; first [discriminate H | split; reflexivity]|]);
    (split; [intros H; first [discriminate H | split; reflexivity]|]);
    intros [H|H]; first [discriminate H | split; reflexivity].
Qed.

End PredefinedExtras.
